(** * ARGO float pipeline: ingestor, summarisation pipeline and query service

    A shallow embedding of the three scripts of the repository

    - [data loader/argo_load.py]       (module [Ingestor]),
    - [data loader/sql_to_chromadb.py] (module [Pipeline]),
    - [main.py]                        (module [Service]),

    together with the Python built-ins they rely on (module [Py]).

    External collaborators (the relational database, the vector store, the
    language model, the JSON parser) are black boxes of the scripts; they
    appear here as section variables acting on an abstract world state.  The
    query service records every call that leaves the process in an explicit
    call log; the two batch scripts keep a log of what they print.

    Modelling conventions.
    - Python [str] values are [string]s; a character is an [ascii] code.
    - Python [int] is [Z]; a floating-point number is an IEEE 754 binary
      number of the standard library's [SpecFloat], with its rounding to
      nearest-even, its infinities, signed zeros and NaN: binary32 for the
      [numpy.float32] profile arrays, binary64 for Python's [float].
    - Python [dict]s are stdpp [gmap]s (insertion order is not observable
      in any property stated here).
    - [print] appends a structured entry to a log. *)

From Stdlib Require Import ZArith QArith String Ascii List Lia.
From Stdlib Require Import DecimalString DecimalZ DecimalPos.
From Stdlib Require SpecFloat.
From stdpp Require Import base option list gmap strings sorting.

Local Open Scope string_scope.
Local Open Scope list_scope.
Local Open Scope Z_scope.

(* ===================================================================== *)
(** * Python built-ins *)
(* ===================================================================== *)

Module Py.

(** The character ['\x00']. *)
Definition NUL : ascii := Ascii.zero.

(** [str.isspace] on the ASCII range: TAB, LF, VT, FF, CR, FS, GS, RS, US
    and the space character. *)
Definition isspace (c : ascii) : bool :=
  let n := Z.of_nat (nat_of_ascii c) in
  ((9 <=? n) && (n <=? 13)) || ((28 <=? n) && (n <=? 32)).

Definition isdigit (c : ascii) : bool :=
  let n := Z.of_nat (nat_of_ascii c) in
  (48 <=? n) && (n <=? 57).

Fixpoint lstrip (s : string) : string :=
  match s with
  | EmptyString => EmptyString
  | String c s' => if isspace c then lstrip s' else s
  end.

Fixpoint rstrip (s : string) : string :=
  match s with
  | EmptyString => EmptyString
  | String c s' =>
      match rstrip s' with
      | EmptyString => if isspace c then EmptyString else String c EmptyString
      | r => String c r
      end
  end.

(** [s.strip()] *)
Definition strip (s : string) : string := rstrip (lstrip s).

(** [s.startswith(p)] *)
Fixpoint startswith (p s : string) : bool :=
  match p, s with
  | EmptyString, _ => true
  | String a p', String b s' => if Ascii.eqb a b then startswith p' s' else false
  | String _ _, EmptyString => false
  end.

(** [s.endswith(p)] *)
Definition endswith (p s : string) : bool :=
  let n := String.length s in
  let k := String.length p in
  if (k <=? n)%nat then String.eqb (String.substring (n - k) k s) p else false.

(** [s.replace(old, new)] for a non-empty [old]: the occurrences of [old]
    are replaced from left to right, without overlap.  [skip] counts the
    characters of a matched occurrence that are still to be dropped. *)
Fixpoint replace_from (old new : string) (skip : nat) (s : string) : string :=
  match s with
  | EmptyString => EmptyString
  | String c s' =>
      match skip with
      | S k => replace_from old new k s'
      | O =>
          if startswith old s
          then new +:+ replace_from old new (String.length old - 1) s'
          else String c (replace_from old new O s')
      end
  end.

Definition replace (old new s : string) : string := replace_from old new O s.

(** Membership of a character in a string. *)
Fixpoint str_mem (c : ascii) (s : string) : bool :=
  match s with
  | EmptyString => false
  | String a s' => Ascii.eqb a c || str_mem c s'
  end.

(** [str(n)] for an [int]. *)
Definition str_int (n : Z) : string := NilZero.string_of_int (Z.to_int n).

(** The digit part of an integer literal accepted by [int()]: decimal digits,
    with single underscores allowed between two digits. *)
Fixpoint digits_ok (after_digit : bool) (s : string) : bool :=
  match s with
  | EmptyString => after_digit
  | String c s' =>
      if isdigit c then digits_ok true s'
      else if Ascii.eqb c "_" then after_digit && digits_ok false s'
      else false
  end.

Fixpoint drop_underscores (s : string) : string :=
  match s with
  | EmptyString => EmptyString
  | String c s' =>
      if Ascii.eqb c "_" then drop_underscores s' else String c (drop_underscores s')
  end.

Definition parse_digits (s : string) : option Z :=
  if digits_ok false s
  then Z.of_uint <$> NilEmpty.uint_of_string (drop_underscores s)
  else None.

(** [int(s)] for a [str]: surrounding whitespace is ignored, then an optional
    sign and the digits.  [None] stands for [ValueError].  (Digits outside
    the ASCII range are not represented.) *)
Definition int (s : string) : option Z :=
  match strip s with
  | String "+" r => parse_digits r
  | String "-" r => Z.opp <$> parse_digits r
  | t => parse_digits t
  end.

(** Strings without whitespace, and strings of decimal digits. *)
Definition no_space (s : string) : Prop :=
  ∀ c, str_mem c s = true → isspace c = false.

Definition all_digits (s : string) : Prop :=
  ∀ c, str_mem c s = true → isdigit c = true.

(** Strings made of whitespace only. *)
Definition all_space (s : string) : Prop :=
  ∀ c, str_mem c s = true → isspace c = true.

(** The characters of a string, and the first character of a pattern. *)
Fixpoint to_list (s : string) : list ascii :=
  match s with
  | EmptyString => []
  | String c s' => c :: to_list s'
  end.

Definition first_char_absent (old s : string) : Prop :=
  match old with
  | EmptyString => False
  | String c _ => str_mem c s = false
  end.

End Py.

(* ===================================================================== *)
(** * Floating-point numbers *)
(* ===================================================================== *)

Module Float.

(** An IEEE 754 binary floating-point number.  The format is fixed by the
    operation: precision 24 and maximal exponent 128 for binary32, precision
    53 and maximal exponent 1024 for binary64. *)
Abbreviation float := SpecFloat.spec_float.
Abbreviation nan := SpecFloat.S754_nan.

Definition zero : float := SpecFloat.S754_zero false.
Definition neg_zero : float := SpecFloat.S754_zero true.

Definition isnan (x : float) : bool :=
  match x with
  | SpecFloat.S754_nan => true
  | _ => false
  end.

(** Conversion to a format: the nearest number of that format, ties to
    even.  The conversion of a binary32 number to binary64 is exact. *)
Definition round_to (prec emax : Z) (x : float) : float :=
  match x with
  | SpecFloat.S754_finite s m e => SpecFloat.binary_round prec emax s m e
  | _ => x
  end.

Definition to_double : float → float := round_to 53 1024.
Definition to_single : float → float := round_to 24 128.

(** The binary64, resp. binary32, number nearest to an integer. *)
Definition double_of_Z (n : Z) : float := SpecFloat.binary_normalize 53 1024 n 0 false.
Definition single_of_Z (n : Z) : float := SpecFloat.binary_normalize 24 128 n 0 false.

(** Addition of binary32 numbers, division of binary64 numbers. *)
Definition add32 : float → float → float := SpecFloat.SFadd 24 128.
Definition div64 : float → float → float := SpecFloat.SFdiv 53 1024.

(** An integer as an exact (unnormalised) dyadic number. *)
Definition of_int (n : Z) : float :=
  match n with
  | Z0 => zero
  | Zpos p => SpecFloat.S754_finite false p 0
  | Zneg p => SpecFloat.S754_finite true p 0
  end.

(** Python's [a / b] on integers: the binary64 number nearest to the exact
    quotient.  (Python raises [OverflowError] where this is an infinity and
    [ZeroDivisionError] for [b = 0].) *)
Definition int_true_div (a b : Z) : float := div64 (of_int a) (of_int b).

(** [math.ceil]: the least integer not below a finite number. *)
Definition ceil (x : float) : option Z :=
  match x with
  | SpecFloat.S754_zero _ => Some 0
  | SpecFloat.S754_finite s m e =>
      let n := SpecFloat.cond_Zopp s (Zpos m) in
      Some (if 0 <=? e then n * 2 ^ e else - ((- n) / 2 ^ (- e)))
  | _ => None
  end.

End Float.

(* ===================================================================== *)
(** * Effects: state and exceptions *)
(* ===================================================================== *)

(** A computation over a state [S] that either returns a value or raises an
    exception of type [E]; the state reached is kept in both cases, as a
    Python [try]/[except] does not undo side effects. *)
Definition M (S E A : Type) : Type := S → (E + A) * S.

Global Instance M_ret {S E} : MRet (M S E) := λ A x s, (inr x, s).

Global Instance M_bind {S E} : MBind (M S E) := λ A B f m s,
  match m s with
  | (inr x, s') => f x s'
  | (inl e, s') => (inl e, s')
  end.

Definition raise {S E A} (e : E) : M S E A := λ s, (inl e, s).

(** [try: m except Exception as e: h e] *)
Definition try_catch {S E A} (m : M S E A) (h : E → M S E A) : M S E A := λ s,
  match m s with
  | (inr x, s') => (inr x, s')
  | (inl e, s') => h e s'
  end.

Definition get_state {S E} : M S E S := λ s, (inr s, s).
Definition modify {S E} (f : S → S) : M S E unit := λ s, (inr tt, f s).

(** Pure code that may raise: a result or an exception. *)
Global Instance sum_ret {E} : MRet (sum E) := λ A x, inr x.

Global Instance sum_bind {E} : MBind (sum E) := λ A B f m,
  match m with
  | inr x => f x
  | inl e => inl e
  end.

Definition from_option {E A} (e : E) (o : option A) : E + A :=
  match o with
  | Some x => inr x
  | None => inl e
  end.

(** Running pure code inside a stateful computation. *)
Definition lift {S E A} (r : E + A) : M S E A := λ s, (r, s).

(** Unfolding the plumbing of a computation applied to a state. *)
Ltac run_eff :=
  unfold try_catch, mbind, M_bind, sum_bind, mret, M_ret, sum_ret,
         lift, raise, modify, get_state, from_option;
  cbn beta iota.

(* ===================================================================== *)
(** * JSON values and the exceptions of the two services *)
(* ===================================================================== *)

Module Json.

(** What [json.loads] returns: [None], [bool], [int], [float], [str], [list]
    and [dict] (the items of a [dict] are kept as an association list with
    pairwise distinct keys). *)
Local Unset Elimination Schemes.
Inductive json :=
| JNull
| JBool (b : bool)
| JInt (n : Z)
| JFloat (q : Q)
| JStr (s : string)
| JArr (items : list json)
| JObj (fields : list (string * json)).
Local Set Elimination Schemes.

Inductive exn :=
| JSONDecodeError (msg : string)
| KeyError (key : string)
| TypeError (msg : string)
| AttributeError (msg : string)
| HTTPException (status_code : Z) (detail : string)
| LibraryError (msg : string).  (* raised inside a collaborator *)

(** [str(e)].  For [HTTPException] this is Starlette's [__str__]; a
    [KeyError] shows the quoted key. *)
Definition exn_str (e : exn) : string :=
  match e with
  | JSONDecodeError msg => msg
  | KeyError key => "'" +:+ key +:+ "'"
  | TypeError msg => msg
  | AttributeError msg => msg
  | HTTPException status_code detail => Py.str_int status_code +:+ ": " +:+ detail
  | LibraryError msg => msg
  end.

Definition type_name (v : json) : string :=
  match v with
  | JNull => "NoneType"
  | JBool _ => "bool"
  | JInt _ => "int"
  | JFloat _ => "float"
  | JStr _ => "str"
  | JArr _ => "list"
  | JObj _ => "dict"
  end.

Fixpoint assoc (k : string) (fields : list (string * json)) : option json :=
  match fields with
  | [] => None
  | (k', v) :: rest => if String.eqb k' k then Some v else assoc k rest
  end.

(** [v[k]] for a string key [k]. *)
Definition subscript (v : json) (k : string) : exn + json :=
  match v with
  | JObj fields => from_option (KeyError k) (assoc k fields)
  | JArr _ => inl (TypeError "list indices must be integers or slices, not str")
  | JStr _ => inl (TypeError "string indices must be integers, not 'str'")
  | _ => inl (TypeError ("'" +:+ type_name v +:+ "' object is not subscriptable"))
  end.

Fixpoint chars (s : string) : list json :=
  match s with
  | EmptyString => []
  | String c s' => JStr (String c EmptyString) :: chars s'
  end.

(** The values produced by [for q in v]: the elements of a list, the keys
    of a dict, the characters of a string. *)
Definition iterate (v : json) : exn + list json :=
  match v with
  | JArr items => inr items
  | JObj fields => inr (JStr <$> fields.*1)
  | JStr s => inr (chars s)
  | _ => inl (TypeError ("'" +:+ type_name v +:+ "' object is not iterable"))
  end.

(** [v.get(k, dflt)] *)
Definition dict_get (v : json) (k : string) (dflt : json) : exn + json :=
  match v with
  | JObj fields => inr (default dflt (assoc k fields))
  | _ => inl (AttributeError ("'" +:+ type_name v +:+ "' object has no attribute 'get'"))
  end.

(** [v == s] for a string [s]. *)
Definition eq_str (v : json) (s : string) : bool :=
  match v with
  | JStr t => String.eqb t s
  | _ => false
  end.

End Json.

(* ===================================================================== *)
(** * The file ingestor ([data loader/argo_load.py]) *)
(* ===================================================================== *)

Module Ingestor.

(** ** Data *)

(** A floating-point value.  The profile variables PRES, TEMP and PSAL of
    a file hold binary32 numbers ([numpy.float32]); the positions, Python's
    [float] and the DOUBLE PRECISION columns of the table hold binary64
    numbers. *)
Abbreviation fval := Float.float.
Abbreviation FNaN := Float.nan.

Definition isnan : fval → bool := Float.isnan.

(** One element of a numpy masked array: the stored datum and its mask bit. *)
Record cell (A : Type) := Cell { value : A; masked : bool }.
Arguments Cell {A} value masked.
Arguments value {A} c.
Arguments masked {A} c.

(** What [process_nc_file] reads from an opened file.  [times] is the array
    produced by [num2date], each entry already rendered by
    [isoformat()]/[str()]. *)
Record dataset := Dataset {
  PLATFORM_NUMBER : string;
  CYCLE_NUMBER : list (cell Z);
  times : list string;
  LATITUDE : list (cell fval);
  LONGITUDE : list (cell fval);
  PRES : list (list (cell fval));
  TEMP : list (list (cell fval));
  PSAL : list (list (cell fval));
}.

(** The parameter tuple of the [INSERT] statement. *)
Record insert_params := Params {
  float_id : string;
  cycle_number : Z;
  juld : string;
  latitude : fval;
  longitude : fval;
  pressure : option fval;
  temperature : option fval;
  salinity : option fval;
}.

(** A row of [argo_profile_data]: the [SERIAL PRIMARY KEY] and the inserted
    columns. *)
Record db_row := Row { row_id : Z; row_data : insert_params }.

(** The psycopg2 connection: the committed table, the rows inserted by the
    open transaction, and the sequence behind [id SERIAL]. *)
Record conn := Conn {
  table : list db_row;
  pending : list db_row;
  next_id : Z;
}.

Inductive exn :=
| MaskError            (* int() of a masked element *)
| IndexError           (* index beyond an array *)
| DatabaseError        (* the server rejected the statement *)
| UnboundLocalError    (* a local variable read before assignment *)
| OSError.             (* the file could not be opened or read *)

Inductive log_entry :=
| LogAttempt (p : insert_params)
| LogCycleError (cycle : Z) (file : string) (e : exn)
| LogFatal (file : string) (e : exn).

Record state := State { db : conn; log : list log_entry }.

Abbreviation Eff := (M state exn).

(** ** numpy *)

(** The mask of a variable read through netCDF4 is an array of bits when
    some value of the variable is masked, and the scalar [False] when none
    is; a row sliced from the variable has a mask of the same kind. *)
Definition has_mask {A} (var : list (list (cell A))) : bool :=
  existsb (existsb masked) var.

(** [np.any(~a.mask)] for a mask array. *)
Definition any_unmasked {A} (a : list (cell A)) : bool :=
  existsb (λ c, negb (masked c)) a.

(** [np.any(~p.mask)] for a row [p] of the variable [var]: the negation of
    the scalar [False] is true, whatever the row holds. *)
Definition any_unmasked_in {A} (var : list (list (cell A))) (p : list (cell A)) : bool :=
  if has_mask var then any_unmasked p else true.

(** [np.add.reduce] on a contiguous float32 array is numpy's pairwise
    summation: fewer than 8 numbers are added in order; up to 128 numbers are
    added into 8 interleaved partial sums, which are then combined two by
    two before the numbers left over are added in order; a longer array is
    split into two parts, the first a multiple of 8, that are summed
    separately.  Every addition rounds to binary32; a sum in order starts
    from the negative zero, which any number added to it replaces. *)
Definition sum_in_order (acc : fval) (a : list fval) : fval :=
  foldl Float.add32 acc a.

Fixpoint add_lanes (r a : list fval) (groups : nat) : list fval * list fval :=
  match groups with
  | O => (r, a)
  | S groups' => add_lanes (zip_with Float.add32 r (take 8 a)) (drop 8 a) groups'
  end.

Definition sum_block (a : list fval) : fval :=
  let '(r, rest) := add_lanes (take 8 a) (drop 8 a) (length a / 8 - 1) in
  let lane k := default Float.zero (r !! k) in
  sum_in_order
    (Float.add32
       (Float.add32 (Float.add32 (lane 0%nat) (lane 1%nat))
                    (Float.add32 (lane 2%nat) (lane 3%nat)))
       (Float.add32 (Float.add32 (lane 4%nat) (lane 5%nat))
                    (Float.add32 (lane 6%nat) (lane 7%nat))))
    rest.

(** The recursion of the pairwise summation halves the array; [fuel] bounds
    its depth and the length of the array is always enough. *)
Fixpoint pairwise_sum (fuel : nat) (a : list fval) : fval :=
  let n := length a in
  if (n <? 8)%nat then sum_in_order Float.neg_zero a
  else if (n <=? 128)%nat then sum_block a
  else
    match fuel with
    | O => Float.zero
    | S fuel' =>
        let n2 := (n / 2 - (n / 2) mod 8)%nat in
        Float.add32 (pairwise_sum fuel' (take n2 a)) (pairwise_sum fuel' (drop n2 a))
    end.

(** [a.sum()] for a float32 array: the sum of no number is zero; otherwise
    the reduction adds the pairwise sum to its initial value, the negative
    zero. *)
Definition np_sum32 (a : list fval) : fval :=
  match a with
  | [] => Float.zero
  | _ => Float.add32 Float.neg_zero (pairwise_sum (length a) a)
  end.

(** [MaskedArray.filled(0)] and [MaskedArray.sum()], which is
    [self.filled(0).sum()]: the masked entries count as zero. *)
Definition ma_filled (a : list (cell fval)) : list fval :=
  (λ c, if masked c then Float.zero else value c) <$> a.

Definition ma_sum (a : list (cell fval)) : fval := np_sum32 (ma_filled a).

(** [np.sum(~mask)] for a masked array of bits: the unmasked entries that
    satisfy [f] are counted. *)
Fixpoint ma_count {A} (f : A → bool) (a : list (cell A)) : nat :=
  match a with
  | [] => O
  | c :: a' => if masked c then ma_count f a'
               else if f (value c) then S (ma_count f a') else ma_count f a'
  end.

(** [_replace_nan(a, 0)]: a copy of the array with zero in place of NaN. *)
Definition replace_nan (a : list (cell fval)) : list (cell fval) :=
  (λ c, if isnan (value c) then Cell Float.zero (masked c) else c) <$> a.

(** [_divide_by_count]: [a.dtype.type(a / b)] for a float32 sum [a] and an
    integer count [b].  The quotient is taken in binary64 and rounded back
    to binary32; a zero count gives NaN or an infinity. *)
Definition divide_by_count (tot : fval) (cnt : nat) : fval :=
  Float.to_single
    (Float.div64 (Float.to_double tot) (Float.double_of_Z (Z.of_nat cnt))).

(** [np.nanmean(a)] on a masked float32 array: the NaN entries are replaced
    by zero, the entries that are neither masked nor NaN are counted, and
    the sum of the array, in which the masked entries count as zero, is
    divided by that count. *)
Definition nanmean (a : list (cell fval)) : fval :=
  let cnt := ma_count (λ v, negb (isnan v)) a in
  let tot := ma_sum (replace_nan a) in
  divide_by_count tot cnt.

(** [int(a[i])] and [float(a[i])] of a masked array element. *)
Definition int_of_cell (c : cell Z) : exn + Z :=
  if masked c then inl MaskError else inr (value c).

Definition float_of_cell (c : cell fval) : fval :=
  if masked c then FNaN else value c.

(** ** process_nc_file *)

(** Lines 67-69, for the row [p] of the variable [var]:
    [float(np.nanmean(p)) if np.any(~p.mask) else None].  [float] turns the
    binary32 mean into the binary64 number of the same value. *)
Definition profile_avg (var : list (list (cell fval))) (p : list (cell fval))
  : option fval :=
  if any_unmasked_in var p then Some (Float.to_double (nanmean p)) else None.

Section WithServer.

(** Whether the database server accepts the statement for these parameters
    (syntax of the timestamp, range of the integer column, ...).  The table
    declares no constraint besides the primary key, which [SERIAL] supplies,
    so acceptance does not depend on the rows already stored. *)
Variable db_accepts : insert_params → bool.

Definition index {A} (a : list A) (i : nat) : exn + A :=
  from_option IndexError (a !! i).

Definition print (e : log_entry) : Eff unit :=
  modify (λ st, State (db st) (log st ++ [e])).

(** [cur.execute("INSERT ...", params)] *)
Definition execute_insert (p : insert_params) : Eff unit := λ st,
  if db_accepts p
  then let c := db st in
       (inr tt, State (Conn (table c) (pending c ++ [Row (next_id c) p]) (next_id c + 1))
                      (log st))
  else (inl DatabaseError, st).

(** [conn.commit()] *)
Definition commit : Eff unit :=
  modify (λ st, let c := db st in
                State (Conn (table c ++ pending c) [] (next_id c)) (log st)).

(** [conn.rollback()] *)
Definition rollback : Eff unit :=
  modify (λ st, let c := db st in
                State (Conn (table c) [] (next_id c)) (log st)).

(** Line 39: the float identifier. *)
Definition get_float_id (ds : dataset) : string :=
  Py.replace (String Py.NUL EmptyString) EmptyString (Py.strip (PLATFORM_NUMBER ds)).

(** Line 58: [cycle = int(cycles[i])]. *)
Definition convert_cycle (ds : dataset) (i : nat) : exn + Z :=
  c ← index (CYCLE_NUMBER ds) i;
  int_of_cell c.

(** Lines 59-69 and the tuple of line 78. *)
Definition build_params (ds : dataset) (i : nat) (cycle : Z) : exn + insert_params :=
  time_val ← index (times ds) i;
  lat_cell ← index (LATITUDE ds) i;
  let lat := float_of_cell lat_cell in
  lon_cell ← index (LONGITUDE ds) i;
  let lon := float_of_cell lon_cell in
  pres_profile ← index (PRES ds) i;
  temp_profile ← index (TEMP ds) i;
  psal_profile ← index (PSAL ds) i;
  mret (Params (get_float_id ds) cycle time_val lat lon
          (profile_avg (PRES ds) pres_profile) (profile_avg (TEMP ds) temp_profile)
          (profile_avg (PSAL ds) psal_profile)).

(** Lines 59-81: the inner [try] once [cycle] has been assigned. *)
Definition insert_cycle (ds : dataset) (i : nat) (cycle : Z) : Eff unit :=
  p ← lift (build_params ds i cycle);
  print (LogAttempt p);;
  execute_insert p;;
  commit.

(** The [except] clause of the inner [try] (lines 83-86).  Its message reads
    the local variable [cycle]; [None] is the variable not yet bound. *)
Definition on_cycle_error (file : string) (cycle : option Z) (e : exn) : Eff unit :=
  match cycle with
  | None => raise UnboundLocalError
  | Some c => print (LogCycleError c file e);; rollback
  end.

(** One iteration of the loop over the cycles (lines 57-86).  The local
    variable [cycle] is threaded explicitly: the argument is its binding when
    the iteration starts ([None]: not bound yet), the result its binding when
    the iteration ends.  When [int(cycles[i])] raises, the handler runs with
    the binding left by the earlier iterations; afterwards the handler runs
    with the value just assigned. *)
Definition cycle_step (file : string) (ds : dataset) (cycle : option Z) (i : nat)
  : Eff (option Z) :=
  match convert_cycle ds i with
  | inl e => on_cycle_error file cycle e;; mret cycle
  | inr c =>
      try_catch (insert_cycle ds i c) (on_cycle_error file (Some c));;
      mret (Some c)
  end.

(** [for i in range(len(cycles))] *)
Fixpoint cycle_loop (file : string) (ds : dataset) (cycle : option Z) (idxs : list nat)
  : Eff unit :=
  match idxs with
  | [] => mret tt
  | i :: idxs' => cycle' ← cycle_step file ds cycle i; cycle_loop file ds cycle' idxs'
  end.

(** [process_nc_file]; [None] is a file that cannot be opened or whose
    top-level variables cannot be read. *)
Definition process_nc_file (file : string) (content : option dataset) : Eff unit :=
  try_catch
    (ds ← lift (from_option OSError content);
     cycle_loop file ds None (seq 0 (length (CYCLE_NUMBER ds))))
    (λ e, print (LogFatal file e)).

(** Lines 96-98: the loop over the folder. *)
Fixpoint process_folder (files : list (string * option dataset)) : Eff unit :=
  match files with
  | [] => mret tt
  | (name, content) :: rest =>
      (if Py.endswith ".nc" name then process_nc_file name content else mret tt);;
      process_folder rest
  end.

(** ** Specification-side notions *)








(** The rows a run appends, as a function of the files alone.  A cycle is
    processed successfully when its conversion, its parameter tuple and its
    [INSERT] all succeed. *)
Definition cycle_rows (ds : dataset) (i : nat) (c : Z) : list insert_params :=
  match build_params ds i c with
  | inr p => if db_accepts p then [p] else []
  | inl _ => []
  end.

Fixpoint loop_rows (ds : dataset) (cycle : option Z) (idxs : list nat)
  : list insert_params :=
  match idxs with
  | [] => []
  | i :: idxs' =>
      match convert_cycle ds i with
      | inl _ =>
          match cycle with
          | None => []
          | Some _ => loop_rows ds cycle idxs'
          end
      | inr c => cycle_rows ds i c ++ loop_rows ds (Some c) idxs'
      end
  end.

Definition file_rows (content : option dataset) : list insert_params :=
  match content with
  | None => []
  | Some ds => loop_rows ds None (seq 0 (length (CYCLE_NUMBER ds)))
  end.

Fixpoint folder_rows (files : list (string * option dataset)) : list insert_params :=
  match files with
  | [] => []
  | (name, content) :: rest =>
      (if Py.endswith ".nc" name then file_rows content else []) ++ folder_rows rest
  end.

(** Appending rows to the table, numbering them from the sequence. *)
Fixpoint number_rows (next : Z) (rows : list insert_params) : list db_row :=
  match rows with
  | [] => []
  | p :: rows' => Row next p :: number_rows (next + 1) rows'
  end.

Definition append_rows (rows : list insert_params) (c : conn) : conn :=
  Conn (table c ++ number_rows (next_id c) rows) []
       (next_id c + Z.of_nat (length rows)).

(** The rows of a file when every one of its cycles is attempted: for each
    cycle index in turn, the row of that cycle if its number converts, its
    tuple is built and the server accepts it. *)
Definition attempt_rows (ds : dataset) (i : nat) : list insert_params :=
  match convert_cycle ds i with
  | inr c => cycle_rows ds i c
  | inl _ => []
  end.

Definition all_cycle_rows (ds : dataset) : list insert_params :=
  flat_map (attempt_rows ds) (seq 0 (length (CYCLE_NUMBER ds))).

End WithServer.

(** The files of a folder that the loop of lines 96-98 processes. *)
Definition nc_files (files : list (string * option dataset))
  : list (string * option dataset) :=
  List.filter (λ f, Py.endswith ".nc" f.1) files.

Definition is_fatal (e : log_entry) : bool :=
  match e with
  | LogFatal _ _ => true
  | _ => false
  end.


End Ingestor.

(* ===================================================================== *)
(** * The summarisation pipeline ([data loader/sql_to_chromadb.py]) *)
(* ===================================================================== *)

Module Pipeline.
Import Json.

Definition TABLE_TO_PROCESS : string := "argo_profiles".
Definition BATCH_SIZE : Z := 100.

Section WithCollaborators.

(** The state of the collaborators (database, language model, vector store)
    and the rows the database returns. *)
Variable World : Type.
Variable Row : Type.

(** [row.to_json(default_handler=str)] *)
Variable row_to_json : Row → string.

(** The text of the prompt before and after the record (lines 46-78). *)
Variable prompt_head prompt_tail : string.

(** [SELECT COUNT( * ) FROM table] (lines 168-171). *)
Variable count_records : string → World → (exn + Z) * World.

(** [pd.read_sql_query("SELECT * FROM table ORDER BY profile_date DESC
    LIMIT %s OFFSET %s", conn, params=(batch_size, offset))] *)
Variable read_page : string → Z → Z → World → (exn + list Row) * World.

(** [gemini_model.generate_content(prompt).text] *)
Variable generate_content : string → World → (exn + string) * World.

(** [json.loads]: the parsed value, or the message of the decode error. *)
Variable json_loads : string → string + json.

(** Step 3 (lines 125-138): embedding the documents and adding them to the
    collection; the result is [collection.count()]. *)
Variable index_documents : list json → list Row → World → (exn + Z) * World.

Inductive log_entry :=
| LogStarting (page first_record last_record : Z)
| LogFetched (n : nat)
| LogNoMoreRecords
| LogFetchError (e : exn)
| LogGenerating
| LogWarning (index : Z) (e : exn)
| LogIndexing
| LogIndexed (count : Z)
| LogResuming (page : Z)
| LogTableEmpty
| LogFound (total_records start_page total_pages : Z)
| LogCompleted (page : Z)
| LogCriticalError (page : Z) (e : exn)
| LogStopping
| LogAllProcessed.

(** The process state: the collaborators, the progress file
    ([None]: the file does not exist) and what has been printed. *)
Record state := State {
  world : World;
  progress_file : option string;
  log : list log_entry;
}.

Abbreviation Eff := (M state exn).

Definition print (e : log_entry) : Eff unit :=
  modify (λ st, State (world st) (progress_file st) (log st ++ [e])).

(** A call to a collaborator. *)
Definition call {A} (f : World → (exn + A) * World) : Eff A := λ st,
  let '(r, w) := f (world st) in (r, State w (progress_file st) (log st)).

(** [get_gemini_prompt] *)
Definition get_gemini_prompt (record_json : string) : string :=
  prompt_head +:+ record_json +:+ prompt_tail.

Definition parse_json (text : string) : exn + json :=
  match json_loads text with
  | inl msg => inl (JSONDecodeError msg)
  | inr v => inr v
  end.

(** Lines 110-120: the body of the loop over the rows of a page. *)
Definition summarize_row (index : Z) (row : Row) : Eff json :=
  let record_json := row_to_json row in
  let prompt := get_gemini_prompt record_json in
  try_catch
    (response_text ← call (generate_content prompt);
     let cleaned_response :=
       Py.replace "```" "" (Py.replace "```json" "" (Py.strip response_text)) in
     gemini_output ← lift (parse_json cleaned_response);
     lift (dict_get gemini_output "summary" (JStr "Summary not available.")))
    (λ e,
       print (LogWarning index e);;
       mret (JStr ("Documentation failed for record " +:+ Py.str_int index +:+ "."))).

(** [for index, row in df.iterrows()]: the rows with their position. *)
Fixpoint summarize_rows (index : Z) (rows : list Row) : Eff (list json) :=
  match rows with
  | [] => mret []
  | row :: rest =>
      summary ← summarize_row index row;
      summaries ← summarize_rows (index + 1) rest;
      mret (summary :: summaries)
  end.

(** [fetch_process_and_index_data] *)
Definition fetch_process_and_index_data (table_name : string) (batch_size page_number : Z)
  : Eff unit :=
  print (LogStarting page_number ((page_number - 1) * batch_size + 1)
                     (page_number * batch_size));;
  let offset := (page_number - 1) * batch_size in
  df ← try_catch
         (df ← call (read_page table_name batch_size offset);
          print (LogFetched (length df));;
          (if decide (length df = 0%nat) then print LogNoMoreRecords else mret tt);;
          mret df)
         (λ e, print (LogFetchError e);; raise e);
  if decide (length df = 0%nat) then mret tt
  else
    print LogGenerating;;
    summaries_for_chroma ← summarize_rows 0 df;
    print LogIndexing;;
    count ← call (index_documents summaries_for_chroma df);
    print (LogIndexed count).

(** [get_start_page] *)
Definition get_start_page : Eff Z :=
  st ← get_state;
  match progress_file st with
  | None => mret 1
  | Some content =>
      match Py.int (Py.strip content) with
      | Some last_completed_page =>
          print (LogResuming (last_completed_page + 1));;
          mret (last_completed_page + 1)
      | None => mret 1
      end
  end.

(** [log_completed_page] *)
Definition log_completed_page (page_number : Z) : Eff unit :=
  modify (λ st, State (world st) (Some (Py.str_int page_number)) (log st)).

(** [range(a, b)] *)
Definition range (a b : Z) : list Z :=
  (λ k, a + Z.of_nat k) <$> seq 0 (Z.to_nat (b - a)).

(** How the loop over the pages ends: it runs out of pages, or it leaves
    through [break] at a page. *)
Inductive loop_exit :=
| Exhausted
| Break (page : Z).

(** Lines 181-193. *)
Fixpoint page_loop (pages : list Z) : Eff loop_exit :=
  match pages with
  | [] => mret Exhausted
  | page :: rest =>
      completed ← try_catch
        (fetch_process_and_index_data TABLE_TO_PROCESS BATCH_SIZE page;;
         log_completed_page page;;
         print (LogCompleted page);;
         mret true)
        (λ e,
           print (LogCriticalError page e);;
           print LogStopping;;
           mret false);
      if completed : bool then page_loop rest else mret (Break page)
  end.

(** [math.ceil(total_records / BATCH_SIZE)]: the quotient of the two
    integers is the binary64 number nearest to the exact quotient, and its
    ceiling is exact.  (Python raises [OverflowError] where the quotient
    exceeds the binary64 range; the quotient of a COUNT, a 64-bit integer,
    by the batch size is far below.) *)
Definition ceil_div (a b : Z) : Z := default 0 (Float.ceil (Float.int_true_div a b)).

(** Lines 176-196: the branch taken when the table is not empty. *)
Definition driver (total_records : Z) : Eff loop_exit :=
  let total_pages := ceil_div total_records BATCH_SIZE in
  start_page ← get_start_page;
  print (LogFound total_records start_page total_pages);;
  exit ← page_loop (range start_page (total_pages + 1));
  resume_page ← get_start_page;
  (if decide (resume_page > total_pages) then print LogAllProcessed else mret tt);;
  mret exit.

(** Lines 167-196. *)
Definition main : Eff unit :=
  total_records ← call (count_records TABLE_TO_PROCESS);
  if decide (total_records = 0) then print LogTableEmpty
  else driver total_records;; mret tt.

(** ** Specification-side notions *)

(** The page a run starts from, as a function of the progress file. *)
Definition start_page_of (file : option string) : Z :=
  match file with
  | None => 1
  | Some content =>
      match Py.int (Py.strip content) with
      | Some last_completed_page => last_completed_page + 1
      | None => 1
      end
  end.

(** The integer held by the checkpoint, if there is one. *)
Definition checkpoint_value (file : option string) : option Z :=
  content ← file; Py.int (Py.strip content).

(** The pages whose processing was started, as witnessed by the log. *)
Definition attempted (lg : list log_entry) : list Z :=
  omap (λ e, match e with LogStarting page _ _ => Some page | _ => None end) lg.

(** The pages reported as completed. *)
Definition completed (lg : list log_entry) : list Z :=
  omap (λ e, match e with LogCompleted page => Some page | _ => None end) lg.

(** The warnings printed by the loop over the rows. *)
Definition warnings (lg : list log_entry) : list (Z * exn) :=
  omap (λ e, match e with LogWarning i e => Some (i, e) | _ => None end) lg.

(** The placeholder recorded for a row whose summarisation raised, and
    the placeholders of [n] rows numbered from [index]. *)
Definition failure_placeholder (index : Z) : json :=
  JStr ("Documentation failed for record " +:+ Py.str_int index +:+ ".").

Definition placeholders (index : Z) (n : nat) : list json :=
  (λ k, failure_placeholder (index + Z.of_nat k)) <$> seq 0 n.

(** A reply wrapped in a Markdown code fence. *)
Definition fenced (body : string) : string := "```json" +:+ body +:+ "```".

(** A computation is quiet when it does not touch the progress file and
    prints neither the start nor the completion of a page. *)
Definition quiet {A} (m : Eff A) : Prop :=
  ∀ st r st', m st = (r, st') →
    progress_file st' = progress_file st ∧
    ∃ lg, log st' = log st ++ lg ∧ attempted lg = [] ∧ completed lg = [].

End WithCollaborators.

Arguments State {World}.
Arguments world {World}.
Arguments progress_file {World}.
Arguments log {World}.
Arguments quiet {World A}.

End Pipeline.

(* ===================================================================== *)
(** * The query service ([main.py]) *)
(* ===================================================================== *)

Module Service.
Import Json.

(** [clean_null_bytes] *)
Definition clean_null_bytes (text : string) : string :=
  Py.replace (String Py.NUL EmptyString) EmptyString text.

(** ** The trajectory endpoint *)

(** A row of the table [argo_profiles], with the columns the endpoint
    depends on: [platform_id] INTEGER, [timestamp], and the two coordinates,
    binary64 numbers.  A NULL id or timestamp is [None]; a NULL coordinate
    reaches pandas as NaN. *)
Record profile := Profile {
  platform_id : option Z;
  timestamp : option Z;
  latitude : Float.float;
  longitude : Float.float;
}.

(** The ascending order of a column: NULL comes last. *)
Definition asc_le (a b : option Z) : Prop :=
  match a, b with
  | Some x, Some y => x ≤ y
  | _, None => True
  | None, Some _ => False
  end.

Definition asc_lt (a b : option Z) : Prop :=
  match a, b with
  | Some x, Some y => x < y
  | Some _, None => True
  | None, _ => False
  end.

Global Instance asc_le_dec a b : Decision (asc_le a b).
Proof. destruct a, b; simpl; apply _. Defined.

Global Instance asc_lt_dec a b : Decision (asc_lt a b).
Proof. destruct a, b; simpl; apply _. Defined.

(** [ORDER BY platform_id, timestamp ASC] *)
Definition order_key_le (r1 r2 : profile) : Prop :=
  asc_lt (platform_id r1) (platform_id r2) ∨
  (platform_id r1 = platform_id r2 ∧ asc_le (timestamp r1) (timestamp r2)).

Global Instance order_key_le_dec r1 r2 : Decision (order_key_le r1 r2).
Proof. unfold order_key_le. apply _. Defined.

(** A row of the data frame: the three columns of the [SELECT] list. *)
Record frame_row := FrameRow {
  frame_platform_id : option Z;
  frame_latitude : Float.float;
  frame_longitude : Float.float;
}.

Definition select_columns (r : profile) : frame_row :=
  FrameRow (platform_id r) (latitude r) (longitude r).

(** The statement of lines 133-142 evaluated on the rows of the table: the
    rows are sorted by the key of the [ORDER BY] clause and the three
    columns are kept.  [rows] is the table in the order in which the
    executor feeds it to the sort, an order the statement does not fix; rows
    of equal keys come out in that order. *)
Definition trajectory_query (rows : list profile) : list frame_row :=
  select_columns <$> merge_sort order_key_le rows.

(** [group[['latitude', 'longitude']].values.tolist()] *)
Definition coordinates (group : list frame_row) : list (Float.float * Float.float) :=
  (λ r, (frame_latitude r, frame_longitude r)) <$> group.

(** The column [platform_id] of the frame holds 64-bit integers, unless
    some id is NULL: pandas then turns the column into floats, NaN standing
    for NULL. *)
Definition float_ids (df : list frame_row) : bool :=
  bool_decide (None ∈ frame_platform_id <$> df).

(** [str(platform_id)] for the key of a group: the decimal digits of the
    id, followed by [.0] when the ids are floats.  (An INTEGER id is below
    10^16 in absolute value, where a float prints all its digits.) *)
Definition key_str (df : list frame_row) (k : Z) : string :=
  if float_ids df then Py.str_int k +:+ ".0" else Py.str_int k.

(** [df.groupby('platform_id')]: the rows without id belong to no group; the
    groups come by ascending key, and each group keeps the rows of the frame
    in their order. *)
Definition groupby_platform_id (df : list frame_row) : list (Z * list frame_row) :=
  (λ k, (k, filter (λ r, frame_platform_id r = Some k) df))
    <$> merge_sort Z.le (remove_dups (omap frame_platform_id df)).

(** Lines 147-151. *)
Definition build_trajectories (df : list frame_row)
  : gmap string (list (Float.float * Float.float)) :=
  foldl (λ trajectories '(platform_id, group),
           <[key_str df platform_id := coordinates group]> trajectories)
        ∅ (groupby_platform_id df).

(** ** The analysis endpoint *)

Section WithCollaborators.

(** The state of the collaborators; the records of a data frame
    ([df.to_dict(orient="records")]); the documents of a vector query
    ([results["documents"]]). *)
Variable World : Type.
Variable Rows : Type.
Variable Docs : Type.

(** [model.generate_content(prompt).text] *)
Variable generate_content : string → World → (exn + string) * World.

(** [json.loads]: the parsed value, or the message of the decode error. *)
Variable json_loads : string → string + json.

(** [DB_ENGINE.connect()] *)
Variable db_connect : World → (exn + unit) * World.

(** [pd.read_sql(text(query), connection).to_dict(orient="records")] *)
Variable read_sql : json → World → (exn + Rows) * World.

(** [CHROMA_COLLECTION.query(query_texts=[query], n_results=2)["documents"]] *)
Variable chroma_query : json → World → (exn + Docs) * World.

(** The database reading the table [argo_profiles] for the statement of
    the trajectory endpoint: its rows, or the error of the connection or of
    the statement. *)
Variable scan_argo_profiles : World → (exn + list profile) * World.

Inductive tool_result :=
| SqlRecords (rows : Rows)
| VectorDocuments (docs : Docs).

Inductive retrieved_value :=
| ToolResult (r : tool_result)
| StructuredData (d : gmap string tool_result).

(** [PLANNING_PROMPT_TEMPLATE.format(...)], [SYNTHESIS_PROMPT_TEMPLATE.format(...)]
    and [json.dumps(retrieved_data, indent=2, default=str)]. *)
Variable planning_prompt : string → string.
Variable synthesis_prompt : string → string → string.
Variable json_dumps : gmap string retrieved_value → string.

(** Every call that leaves the process, with its outcome. *)
Inductive call_event :=
| ModelCall (prompt : string) (outcome : exn + string)
| DbConnect (outcome : exn + unit)
| SqlQuery (query : json) (outcome : exn + Rows)
| VectorQuery (query : json) (outcome : exn + Docs)
| TrajectoryQuery (outcome : exn + list frame_row).

Record state := State { world : World; calls : list call_event }.

Abbreviation Eff := (M state exn).

Definition call {A} (f : World → (exn + A) * World) (event : exn + A → call_event)
  : Eff A := λ st,
  let '(r, w) := f (world st) in (r, State w (calls st ++ [event r])).

Record response := Response {
  insight_text : string;
  data_for_charts : gmap string tool_result;
}.

(** [f"sql_result_{n}"] and [f"vector_result_{n}"] *)
Definition sql_key (n : nat) : string := "sql_result_" +:+ Py.str_int (Z.of_nat n).
Definition vector_key (n : nat) : string := "vector_result_" +:+ Py.str_int (Z.of_nat n).

(** Lines 177-184: the body of the loop over the plan, on the two
    dictionaries [retrieved_data] and [data_for_frontend].  ([q["tool"]] is
    evaluated once here; its second evaluation in the [elif] gives the same
    value.) *)
Definition plan_step
    (dicts : gmap string retrieved_value * gmap string tool_result) (q : json)
  : Eff (gmap string retrieved_value * gmap string tool_result) :=
  let '(retrieved_data, data_for_frontend) := dicts in
  tool ← lift (subscript q "tool");
  if eq_str tool "postgres" then
    call db_connect DbConnect;;
    query ← lift (subscript q "query");
    rows ← call (read_sql query) (SqlQuery query);
    mret (retrieved_data,
          <[sql_key (size data_for_frontend) := SqlRecords rows]> data_for_frontend)
  else if eq_str tool "vector" then
    query ← lift (subscript q "query");
    docs ← call (chroma_query query) (VectorQuery query);
    mret (<[vector_key (size retrieved_data) := ToolResult (VectorDocuments docs)]>
            retrieved_data,
          data_for_frontend)
  else mret dicts.

(** [for q in plan["queries"]] *)
Fixpoint run_plan (entries : list json)
    (dicts : gmap string retrieved_value * gmap string tool_result)
  : Eff (gmap string retrieved_value * gmap string tool_result) :=
  match entries with
  | [] => mret dicts
  | q :: rest => dicts' ← plan_step dicts q; run_plan rest dicts'
  end.

(** Lines 173-201: executing the plan and synthesising the answer. *)
Definition execute_plan (request_query : string) (entries : list json) : Eff response :=
  '(retrieved_data, data_for_frontend) ← run_plan entries (∅, ∅);
  let retrieved_data :=
    <["structured_data" := StructuredData data_for_frontend]> retrieved_data in
  let prompt := synthesis_prompt request_query (json_dumps retrieved_data) in
  insight ← call (generate_content prompt) (ModelCall prompt);
  let insight_response_text := clean_null_bytes (Py.strip insight) in
  mret (Response insight_response_text data_for_frontend).

(** Lines 168-171: [json.loads] under [except json.JSONDecodeError]. *)
Definition parse_plan (plan_response_text : string) : exn + json :=
  match json_loads plan_response_text with
  | inl _ => inl (HTTPException 500 "LLM did not return valid JSON plan.")
  | inr plan => inr plan
  end.

(** [analyze_query] *)
Definition analyze_query (request_query : string) : Eff response :=
  try_catch
    (let prompt := planning_prompt request_query in
     plan_text ← call (generate_content prompt) (ModelCall prompt);
     let plan_response_text := clean_null_bytes (Py.strip plan_text) in
     plan ← lift (parse_plan plan_response_text);
     queries ← lift (subscript plan "queries");
     entries ← lift (iterate queries);
     execute_plan request_query entries)
    (λ e, raise (HTTPException 500 (exn_str e))).

(** Lines 144-145: [pd.read_sql(query, connection)] on a fresh connection. *)
Definition select_trajectories : World → (exn + list frame_row) * World := λ w,
  let '(r, w') := scan_argo_profiles w in
  (match r with
   | inl e => inl e
   | inr rows => inr (trajectory_query rows)
   end, w').

(** [get_trajectories] *)
Definition get_trajectories : Eff (gmap string (list (Float.float * Float.float))) :=
  try_catch
    (df ← call select_trajectories TrajectoryQuery;
     mret (build_trajectories df))
    (λ e, raise (HTTPException 500 (exn_str e))).

(** What the framework sends for the outcome of a handler: the returned
    value with status 200, or the status and detail of the [HTTPException]. *)
Inductive http_response (A : Type) :=
| Http200 (body : A)
| HttpError (status_code : Z) (detail : string).

Definition respond {A} (outcome : exn + A) : http_response A :=
  match outcome with
  | inr body => Http200 A body
  | inl (HTTPException status_code detail) => HttpError A status_code detail
  | inl _ => HttpError A 500 "Internal Server Error"
  end.

(** The numbers that JSON can express: the framework encodes a response
    with [allow_nan=False], which refuses NaN and the infinities. *)
Definition json_number (x : Float.float) : bool :=
  match x with
  | SpecFloat.S754_zero _ | SpecFloat.S754_finite _ _ _ => true
  | _ => false
  end.

Definition json_track (track : list (Float.float * Float.float)) : bool :=
  forallb (λ point, json_number point.1 && json_number point.2) track.

(** What the framework sends for the outcome of the trajectory handler: a
    mapping that cannot be encoded makes the request fail. *)
Definition respond_trajectories
    (outcome : exn + gmap string (list (Float.float * Float.float)))
  : http_response (gmap string (list (Float.float * Float.float))) :=
  match outcome with
  | inr body =>
      if forallb (λ entry, json_track entry.2) (map_to_list body)
      then Http200 _ body
      else HttpError _ 500 "Internal Server Error"
  | inl _ => respond outcome
  end.

(** ** Specification-side notions *)

(** The record sets returned by the SQL queries of a call log, in order. *)
Definition sql_results (cs : list call_event) : list Rows :=
  omap (λ c, match c with SqlQuery _ (inr rows) => Some rows | _ => None end) cs.

(** The calls made to the database or to the vector store. *)
Definition store_calls (cs : list call_event) : list call_event :=
  List.filter (λ c, match c with ModelCall _ _ => false | _ => true end) cs.

Definition is_sql_records (v : tool_result) : Prop :=
  match v with
  | SqlRecords _ => True
  | VectorDocuments _ => False
  end.

(** The documents returned by the vector queries of a call log, in order. *)
Definition vector_results (cs : list call_event) : list Docs :=
  omap (λ c, match c with VectorQuery _ (inr docs) => Some docs | _ => None end) cs.

(** The dictionary [retrieved_data] holds exactly the documents [ds], the
    i-th under the key [vector_result_i]. *)
Definition vectors_of (ds : list Docs) (rd : gmap string retrieved_value) : Prop :=
  size rd = length ds ∧
  (∀ i, rd !! vector_key i = (λ d, ToolResult (VectorDocuments d)) <$> ds !! i) ∧
  (∀ k v, rd !! k = Some v → ∃ i, k = vector_key i).

(** The calls to the language model. *)
Definition model_calls (cs : list call_event) : list call_event :=
  List.filter (λ c, match c with ModelCall _ _ => true | _ => false end) cs.

(** The dictionary [data_for_frontend] holds exactly the record sets [rs],
    the i-th under the key [sql_result_i]. *)
Definition charts_of (rs : list Rows) (df : gmap string tool_result) : Prop :=
  size df = length rs ∧
  (∀ i, df !! sql_key i = SqlRecords <$> rs !! i) ∧
  (∀ k v, df !! k = Some v →
     ∃ i rows, k = sql_key i ∧ v = SqlRecords rows ∧ rs !! i = Some rows).

End WithCollaborators.

Arguments SqlRecords {Rows Docs}.
Arguments VectorDocuments {Rows Docs}.
Arguments ToolResult {Rows Docs}.
Arguments StructuredData {Rows Docs}.
Arguments ModelCall {Rows Docs}.
Arguments DbConnect {Rows Docs}.
Arguments SqlQuery {Rows Docs}.
Arguments VectorQuery {Rows Docs}.
Arguments TrajectoryQuery {Rows Docs}.
Arguments State {World Rows Docs}.
Arguments world {World Rows Docs}.
Arguments calls {World Rows Docs}.
Arguments Response {Rows Docs}.
Arguments insight_text {Rows Docs}.
Arguments data_for_charts {Rows Docs}.
Arguments Http200 {A}.
Arguments HttpError {A}.
Arguments sql_results {Rows Docs}.
Arguments store_calls {Rows Docs}.
Arguments is_sql_records {Rows Docs}.
Arguments charts_of {Rows Docs}.
Arguments vector_results {Rows Docs}.
Arguments vectors_of {Rows Docs}.
Arguments model_calls {Rows Docs}.

End Service.

(* ===================================================================== *)
(** * Sample inputs *)
(* ===================================================================== *)

Module IngestorSamples.
Import Ingestor.

(** The binary32 and the binary64 number of an integer. *)
Definition f32 : Z → fval := Float.single_of_Z.
Definition f64 : Z → fval := Float.double_of_Z.

(** The binary32 numbers nearest to 0.1 and to 0.2. *)
Definition tenth32 : fval := SpecFloat.S754_finite false 13421773 (-27).
Definition fifth32 : fval := SpecFloat.S754_finite false 13421773 (-26).

(** A file with two cycles: the first profile mixes masked and unmasked
    levels, the second is entirely masked. *)

Definition sample_profile : list (cell fval) :=
  [Cell (f32 10) false; Cell (f32 99999) true; Cell (f32 20) false].

Definition sample_masked_profile : list (cell fval) :=
  [Cell (f32 99999) true; Cell (f32 99999) true; Cell (f32 99999) true].

Definition sample_dataset : dataset :=
  Dataset "2902746 "
    [Cell 1 false; Cell 2 false]
    ["2019-01-01T00:00:00"; "2019-01-11T00:00:00"]
    [Cell (f64 12) false; Cell (f64 13) false]
    [Cell (f64 60) false; Cell (f64 61) false]
    [sample_profile; sample_masked_profile]
    [sample_profile; sample_masked_profile]
    [sample_masked_profile; sample_profile].

Definition sample_params : insert_params :=
  Params "2902746" 1 "2019-01-01T00:00:00" (f64 12) (f64 60)
         (Some (f64 15)) (Some (f64 15)) None.

Definition empty_state : state := State (Conn [] [] 1) [].

Definition sample_folder : list (string * option dataset) :=
  [("R2902746_001.nc", Some sample_dataset); ("notes.txt", None)].

(** A file whose first cycle number is masked. *)
Definition masked_first_dataset : dataset :=
  Dataset "2902746 "
    [Cell 99999 true; Cell 2 false]
    ["2019-01-01T00:00:00"; "2019-01-11T00:00:00"]
    [Cell (f64 12) false; Cell (f64 13) false]
    [Cell (f64 60) false; Cell (f64 61) false]
    [sample_profile; sample_profile]
    [sample_profile; sample_profile]
    [sample_profile; sample_profile].

(** A file whose second cycle number is masked. *)
Definition late_masked_dataset : dataset :=
  Dataset "2902746 "
    [Cell 1 false; Cell 99999 true; Cell 3 false]
    ["2019-01-01T00:00:00"; "2019-01-11T00:00:00"; "2019-01-21T00:00:00"]
    [Cell (f64 12) false; Cell (f64 13) false; Cell (f64 14) false]
    [Cell (f64 60) false; Cell (f64 61) false; Cell (f64 62) false]
    [sample_profile; sample_profile; sample_profile]
    [sample_profile; sample_profile; sample_profile]
    [sample_profile; sample_profile; sample_profile].

End IngestorSamples.

Module PipelineSamples.
Import Json Pipeline.

(** A language model whose replies are looked up by prompt: a fenced
    object without summary for record 7, plain prose otherwise. *)
Definition scripted_generate_content (prompt : string) (w : nat) : (exn + string) * nat :=
  if String.eqb prompt "<7>" then (inr "```json{}```", S w)
  else (inr "I cannot help with that.", S w).

(** [json.loads] on the replies used here. *)
Definition loads_scripted (text : string) : string + json :=
  if String.eqb text "{}" then inr (JObj [])
  else inl "Expecting value: line 1 column 1 (char 0)".

(** Collaborators for a first run in which the database cannot be reached:
    every read of a page raises. *)
Definition unreachable_read_page (table_name : string) (batch_size offset : Z) (w : unit)
  : (exn + list Z) * unit :=
  (inl (LibraryError "could not connect to server"), w).

Definition echo_generate_content (prompt : string) (w : unit) : (exn + string) * unit :=
  (inr "{}", w).

(** [json.loads] on the only reply used here. *)
Definition loads_empty_object (text : string) : string + json :=
  if String.eqb text "{}" then inr (JObj [])
  else inl "Expecting value: line 1 column 1 (char 0)".

Definition count_index_documents (docs : list json) (rows : list Z) (w : unit)
  : (exn + Z) * unit :=
  (inr (Z.of_nat (length docs)), w).

(** A database of 450 records that drops the connection while page 3 is
    read, and the same database in good health. *)
Definition flaky_read_page (table_name : string) (batch_size offset : Z) (w : unit)
  : (exn + list Z) * unit :=
  if decide (offset = 200) then (inl (LibraryError "connection lost"), w)
  else (inr [offset + 1; offset + 2], w).

Definition healthy_read_page (table_name : string) (batch_size offset : Z) (w : unit)
  : (exn + list Z) * unit :=
  (inr [offset + 1; offset + 2], w).

(** A table of 450 records: the pages after the fifth are empty. *)
Definition short_read_page (table_name : string) (batch_size offset : Z) (w : unit)
  : (exn + list Z) * unit :=
  if decide (offset < 450) then (inr [offset + 1; offset + 2], w) else (inr [], w).

(** A language model that wraps its reply in a code fence, and
    [json.loads] on that reply. *)
Definition summary_null_text : string :=
  "{" +:+ String "034" "summary" +:+ String "034" ": null}".

Definition fenced_generate_content (prompt : string) (w : nat) : (exn + string) * nat :=
  (inr (fenced summary_null_text +:+ String "010" EmptyString), S w).

Definition loads_summary (text : string) : string + json :=
  if String.eqb text summary_null_text then inr (JObj [("summary", JNull)])
  else inl "Expecting value: line 1 column 1 (char 0)".

(** A language model that is out of order. *)
Definition failing_generate_content (prompt : string) (w : nat) : (exn + string) * nat :=
  (inl (LibraryError "503 Service Unavailable"), S w).

(** A vector store that cannot be written. *)
Definition failing_index_documents (docs : list json) (rows : list Z) (w : unit)
  : (exn + Z) * unit :=
  (inl (LibraryError "database or disk is full"), w).

(** An empty table. *)
Definition zero_count_records (table_name : string) (w : unit) : (exn + Z) * unit :=
  (inr 0, w).

End PipelineSamples.

Module ServiceSamples.
Import Json Service.

(** Collaborators for the examples.  The planning prompt is the question
    prefixed by [PLAN ], the synthesis prompt the question prefixed by
    [ANSWER ]. *)
Definition demo_planning_prompt (request_query : string) : string :=
  "PLAN " +:+ request_query.

Definition demo_synthesis_prompt (request_query retrieved : string) : string :=
  "ANSWER " +:+ request_query.

Definition quoted (s : string) : string :=
  String "034" (s +:+ String "034" EmptyString).

(** A plan with a vector query, a relational query, an entry for a tool
    that does not exist, and a second relational query. *)
Definition demo_plan_text : string :=
  "{" +:+ quoted "queries" +:+ ": ["
  +:+ "{" +:+ quoted "tool" +:+ ": " +:+ quoted "vector" +:+ ", "
          +:+ quoted "query" +:+ ": " +:+ quoted "floats in the Arabian Sea" +:+ "}, "
  +:+ "{" +:+ quoted "tool" +:+ ": " +:+ quoted "postgres" +:+ ", "
          +:+ quoted "query" +:+ ": " +:+ quoted "SELECT 1" +:+ "}, "
  +:+ "{" +:+ quoted "tool" +:+ ": " +:+ quoted "graph" +:+ "}, "
  +:+ "{" +:+ quoted "tool" +:+ ": " +:+ quoted "postgres" +:+ ", "
          +:+ quoted "query" +:+ ": " +:+ quoted "SELECT 2" +:+ "}]}".

Definition demo_vector_entry : json :=
  JObj [("tool", JStr "vector"); ("query", JStr "floats in the Arabian Sea")].
Definition demo_sql_entry (query : string) : json :=
  JObj [("tool", JStr "postgres"); ("query", JStr query)].
Definition demo_unknown_entry : json := JObj [("tool", JStr "graph")].

Definition demo_plan : json :=
  JObj [("queries", JArr [demo_vector_entry; demo_sql_entry "SELECT 1";
                          demo_unknown_entry; demo_sql_entry "SELECT 2"])].

(** The language model: a plan (followed by a null byte and a line feed) for
    the question [sea], prose for any other question, and an insight that
    carries a null byte. *)
Definition demo_generate_content (prompt : string) (w : nat) : (exn + string) * nat :=
  if String.eqb prompt "PLAN sea"
  then (inr (demo_plan_text +:+ String Py.NUL (String "010" EmptyString)), S w)
  else if Py.startswith "PLAN " prompt
  then (inr "I am sorry, I cannot produce a plan.", S w)
  else (inr ("Warm" +:+ String Py.NUL " water."), S w).

(** [json.loads] on the texts used here. *)
Definition demo_json_loads (text : string) : string + json :=
  if String.eqb text demo_plan_text then inr demo_plan
  else inl "Expecting value: line 1 column 1 (char 0)".

Definition demo_db_connect (w : nat) : (exn + unit) * nat := (inr (), w).

Definition demo_read_sql (query : json) (w : nat) : (exn + list Z) * nat :=
  match query with
  | JStr "SELECT 1" => (inr [1], S w)
  | JStr "SELECT 2" => (inr [2], S w)
  | _ => (inl (LibraryError "syntax error"), w)
  end.

Definition demo_chroma_query (query : json) (w : nat) : (exn + list string) * nat :=
  (inr ["Float 2902746 drifted through the Arabian Sea."], S w).

Definition demo_json_dumps (d : gmap string (retrieved_value (list Z) (list string)))
  : string := "".

Definition demo_analyze_query :=
  analyze_query nat (list Z) (list string) demo_generate_content demo_json_loads
    demo_db_connect demo_read_sql demo_chroma_query demo_planning_prompt
    demo_synthesis_prompt demo_json_dumps.

Definition demo_state : state nat (list Z) (list string) := State 0%nat [].

(** The successful run of the examples: the question [sea]. *)
Definition demo_response : response (list Z) (list string) :=
  Response "Warm water."
           (<[sql_key 1 := SqlRecords [2]]> (<[sql_key 0 := SqlRecords [1]]> ∅)).

Definition demo_final_state : state nat (list Z) (list string) :=
  State 5%nat
    [ModelCall "PLAN sea"
       (inr (demo_plan_text +:+ String Py.NUL (String "010" EmptyString)));
     VectorQuery (JStr "floats in the Arabian Sea")
       (inr ["Float 2902746 drifted through the Arabian Sea."]);
     DbConnect (inr ());
     SqlQuery (JStr "SELECT 1") (inr [1]);
     DbConnect (inr ());
     SqlQuery (JStr "SELECT 2") (inr [2]);
     ModelCall "ANSWER sea" (inr ("Warm" +:+ String Py.NUL " water."))].

Definition degrees : Z → Float.float := Float.double_of_Z.

(** A table stored out of order: platform 7 was observed at times 10, 20
    and 30, platform 5 at times 20 and 40. *)
Definition demo_table : list profile :=
  [Profile (Some 7) (Some 30) (degrees 13) (degrees 63);
   Profile (Some 5) (Some 20) (degrees 8) (degrees 70);
   Profile (Some 7) (Some 10) (degrees 11) (degrees 61);
   Profile (Some 5) (Some 40) (degrees 9) (degrees 71);
   Profile (Some 7) (Some 20) (degrees 12) (degrees 62)].

(** The same table with a row that has neither platform nor position. *)
Definition demo_table_with_null : list profile :=
  Profile None (Some 5) Float.nan Float.nan :: demo_table.

Definition demo_scan (w : nat) : (exn + list profile) * nat := (inr demo_table, w).

(** A language model that answers every planning prompt with [plan_text],
    and a parser that knows that text only. *)
Definition plan_generate_content (plan_text prompt : string) (w : nat)
  : (exn + string) * nat :=
  if Py.startswith "PLAN " prompt then (inr plan_text, S w) else (inr "Calm seas.", S w).

Definition plan_json_loads (plan_text : string) (plan : json) (text : string)
  : string + json :=
  if String.eqb text plan_text then inr plan
  else inl "Expecting value: line 1 column 1 (char 0)".

(** A plan without entries. *)
Definition empty_plan_text : string := "{" +:+ quoted "queries" +:+ ": []}".
Definition empty_plan : json := JObj [("queries", JArr [])].

(** A plan whose second entry is a statement the database rejects. *)
Definition failing_plan_text : string :=
  "{" +:+ quoted "queries" +:+ ": ["
  +:+ "{" +:+ quoted "tool" +:+ ": " +:+ quoted "vector" +:+ ", "
          +:+ quoted "query" +:+ ": " +:+ quoted "floats in the Arabian Sea" +:+ "}, "
  +:+ "{" +:+ quoted "tool" +:+ ": " +:+ quoted "postgres" +:+ ", "
          +:+ quoted "query" +:+ ": " +:+ quoted "SELEC 1" +:+ "}, "
  +:+ "{" +:+ quoted "tool" +:+ ": " +:+ quoted "postgres" +:+ ", "
          +:+ quoted "query" +:+ ": " +:+ quoted "SELECT 2" +:+ "}]}".

Definition failing_plan : json :=
  JObj [("queries", JArr [demo_vector_entry; demo_sql_entry "SELEC 1";
                          demo_sql_entry "SELECT 2"])].

(** A plan that holds no null byte but the JSON escape of one, in a
    statement that the database rejects; the parser decodes the escape. *)
Definition escaped_plan_text : string :=
  "{" +:+ quoted "queries" +:+ ": [{" +:+ quoted "tool" +:+ ": " +:+ quoted "postgres"
  +:+ ", " +:+ quoted "query" +:+ ": " +:+ quoted "SELEC \u0000" +:+ "}]}".

Definition escaped_plan : json :=
  JObj [("queries", JArr [demo_sql_entry ("SELEC " +:+ String Py.NUL EmptyString)])].

(** A database whose error messages quote the failing statement, as those of
    SQLAlchemy do. *)
Definition quoting_read_sql (query : json) (w : nat) : (exn + list Z) * nat :=
  match query with
  | JStr statement =>
      (inl (LibraryError ("syntax error at or near SELEC [SQL: " +:+ statement +:+ "]")), w)
  | _ => (inl (LibraryError "not an executable object"), w)
  end.

End ServiceSamples.

(* ===================================================================== *)
(** * Facts about the Python built-ins *)
(* ===================================================================== *)

Module PyFacts.
Import Py.

Lemma str_mem_app c s t : str_mem c (s +:+ t) = str_mem c s || str_mem c t.
Proof.
  induction s as [|a s IH]; simpl; [done|].
  rewrite IH. by rewrite orb_assoc.
Qed.

Lemma replace_from_char_absent c skip s :
  str_mem c (replace_from (String c EmptyString) EmptyString skip s) = false.
Proof.
  revert skip. induction s as [|a s IH]; intros skip; simpl; [done|].
  destruct skip as [|k]; [|apply IH].
  destruct (Ascii.eqb_spec c a) as [->|Hne]; simpl.
  - apply IH.
  - rewrite IH, orb_false_r. apply Ascii.eqb_neq. congruence.
Qed.

(** Removing a character leaves a string without it unchanged. *)
Lemma replace_from_char_id c s :
  str_mem c s = false → replace_from (String c EmptyString) EmptyString O s = s.
Proof.
  induction s as [|a s IH]; simpl; [done|].
  intros [Ha Hs]%orb_false_iff.
  rewrite Ascii.eqb_sym, Ha. simpl. by rewrite IH.
Qed.

Lemma no_space_cons c s : isspace c = false → no_space s → no_space (String c s).
Proof.
  intros Hc Hs a; simpl. intros [Ha%Ascii.eqb_eq| Ha]%orb_true_iff; [by subst|by apply Hs].
Qed.

Lemma no_space_inv c s : no_space (String c s) → isspace c = false ∧ no_space s.
Proof.
  intros H; split.
  - apply H; simpl. by rewrite Ascii.eqb_refl.
  - intros a Ha. apply H; simpl. by rewrite Ha, orb_true_r.
Qed.

Lemma lstrip_no_space s : no_space s → lstrip s = s.
Proof. destruct s as [|c s]; [done|]. intros [Hc _]%no_space_inv; simpl. by rewrite Hc. Qed.

Lemma rstrip_no_space s : no_space s → rstrip s = s.
Proof.
  induction s as [|c s IH]; [done|].
  intros [Hc Hs]%no_space_inv; simpl. rewrite (IH Hs), Hc. by destruct s.
Qed.

Lemma strip_no_space s : no_space s → strip s = s.
Proof. intros H. unfold strip. by rewrite (lstrip_no_space _ H), rstrip_no_space. Qed.

Lemma all_digits_uint d : all_digits (NilEmpty.string_of_uint d).
Proof.
  induction d; intros c; cbn [NilEmpty.string_of_uint str_mem]; try done;
    (intros [Hc%Ascii.eqb_eq|Hc]%orb_true_iff; [by subst|by apply IHd]).
Qed.

Lemma all_digits_cons_inv c s : all_digits (String c s) → isdigit c = true ∧ all_digits s.
Proof.
  intros H; split.
  - apply H; simpl. by rewrite Ascii.eqb_refl.
  - intros a Ha. apply H; simpl. by rewrite Ha, orb_true_r.
Qed.

Lemma isdigit_not_underscore c : isdigit c = true → Ascii.eqb c "_" = false.
Proof.
  intros Hd. destruct (Ascii.eqb_spec c "_") as [->|]; [|done].
  by vm_compute in Hd.
Qed.

Lemma isdigit_not_space c : isdigit c = true → isspace c = false.
Proof.
  unfold isdigit, isspace. intros Hd.
  apply andb_true_iff in Hd as [H1%Z.leb_le H2%Z.leb_le].
  apply orb_false_iff; split; apply andb_false_iff.
  - right. apply Z.leb_gt. lia.
  - right. apply Z.leb_gt. lia.
Qed.

Lemma digits_ok_all_digits b s :
  all_digits s → digits_ok b s = match s with EmptyString => b | _ => true end.
Proof.
  revert b. induction s as [|c s IH]; intros b H; [done|].
  apply all_digits_cons_inv in H as [Hc Hs]. simpl. rewrite Hc.
  rewrite (IH true Hs). by destruct s.
Qed.

Lemma drop_underscores_all_digits s : all_digits s → drop_underscores s = s.
Proof.
  induction s as [|c s IH]; [done|].
  intros [Hc Hs]%all_digits_cons_inv. simpl.
  by rewrite (isdigit_not_underscore _ Hc), (IH Hs).
Qed.

Lemma all_digits_no_space s : all_digits s → no_space s.
Proof. intros H c Hc. apply isdigit_not_space, H, Hc. Qed.

Lemma parse_digits_uint d :
  d ≠ Decimal.Nil → parse_digits (NilEmpty.string_of_uint d) = Some (Z.of_uint d).
Proof.
  intros Hd. unfold parse_digits.
  pose proof (all_digits_uint d) as Hall.
  rewrite (digits_ok_all_digits _ _ Hall), (drop_underscores_all_digits _ Hall).
  rewrite NilEmpty.usu. by destruct d.
Qed.

Lemma pos_to_uint_nonnil p : Pos.to_uint p ≠ Decimal.Nil.
Proof.
  intros H. pose proof (DecimalPos.Unsigned.of_to p) as Hp.
  rewrite H in Hp. discriminate.
Qed.

Lemma first_char_digit d c s :
  NilEmpty.string_of_uint d = String c s → isdigit c = true.
Proof.
  intros H. apply (all_digits_uint d). rewrite H; simpl. by rewrite Ascii.eqb_refl.
Qed.

(** [int(str(n)) == n]: what [log_completed_page] writes, [get_start_page]
    reads back. *)
Lemma int_str_int n : int (str_int n) = Some n.
Proof.
  unfold int, str_int. destruct n as [|p|p]; [done| |].
  - simpl. pose proof (pos_to_uint_nonnil p) as Hnil.
    assert (NilZero.string_of_uint (Pos.to_uint p)
            = NilEmpty.string_of_uint (Pos.to_uint p)) as -> by by destruct (Pos.to_uint p).
    rewrite strip_no_space by apply all_digits_no_space, all_digits_uint.
    pose proof (parse_digits_uint _ Hnil) as Hparse.
    assert (Z.of_uint (Pos.to_uint p) = Z.pos p) as Hz
      by apply (DecimalZ.of_to (Z.pos p)).
    rewrite Hz in Hparse.
    destruct (NilEmpty.string_of_uint (Pos.to_uint p)) as [|c s] eqn:Hs; [done|].
    pose proof (first_char_digit _ _ _ Hs) as Hc.
    destruct (Ascii.eqb_spec c "+") as [->|Hplus]; [by vm_compute in Hc|].
    destruct (Ascii.eqb_spec c "-") as [->|Hminus]; [by vm_compute in Hc|].
    destruct c as [[] [] [] [] [] [] [] []]; try done.
  - simpl. pose proof (pos_to_uint_nonnil p) as Hnil.
    assert (NilZero.string_of_uint (Pos.to_uint p)
            = NilEmpty.string_of_uint (Pos.to_uint p)) as -> by by destruct (Pos.to_uint p).
    rewrite strip_no_space.
    + rewrite (parse_digits_uint _ Hnil). simpl. f_equal.
      assert (Z.of_uint (Pos.to_uint p) = Z.pos p) as ->
        by apply (DecimalZ.of_to (Z.pos p)).
      done.
    + apply no_space_cons; [done|]. apply all_digits_no_space, all_digits_uint.
Qed.

Lemma no_space_empty : no_space EmptyString.
Proof. by intros c. Qed.

Lemma no_space_uint d : no_space (NilZero.string_of_uint d).
Proof.
  destruct d;
    first [ by apply no_space_cons; [|apply no_space_empty]
          | apply all_digits_no_space, (all_digits_uint (_ d)) ].
Qed.

Lemma no_space_str_int n : no_space (str_int n).
Proof.
  unfold str_int. destruct n as [|p|p]; cbn [Z.to_int NilZero.string_of_int].
  - apply no_space_uint.
  - apply no_space_uint.
  - apply no_space_cons; [done|]. apply no_space_uint.
Qed.

(** Reading back a number written with [str], as [int(text.strip())]. *)
Lemma int_strip_str_int n : int (strip (str_int n)) = Some n.
Proof. rewrite strip_no_space by apply no_space_str_int. apply int_str_int. Qed.

Lemma str_int_inj n m : str_int n = str_int m → n = m.
Proof.
  intros H. apply (f_equal int) in H. rewrite !int_str_int in H. congruence.
Qed.

(** ** Stripping padded text *)

Lemma append_cons c s t : String c s +:+ t = String c (s +:+ t).
Proof. reflexivity. Qed.

Lemma append_empty_l t : EmptyString +:+ t = t.
Proof. reflexivity. Qed.

Lemma all_space_inv c s : all_space (String c s) → isspace c = true ∧ all_space s.
Proof.
  intros H; split.
  - apply H; simpl. by rewrite Ascii.eqb_refl.
  - intros a Ha. apply H; simpl. by rewrite Ha, orb_true_r.
Qed.

Lemma lstrip_app_spaces ws s : all_space ws → lstrip (ws +:+ s) = lstrip s.
Proof.
  induction ws as [|c ws IH]; [done|].
  intros [Hc Hws]%all_space_inv. rewrite append_cons. cbn [lstrip]. rewrite Hc. by apply IH.
Qed.

Lemma rstrip_spaces ws : all_space ws → rstrip ws = EmptyString.
Proof.
  induction ws as [|c ws IH]; [done|].
  intros [Hc Hws]%all_space_inv. cbn [rstrip]. by rewrite (IH Hws), Hc.
Qed.

Lemma rstrip_app_spaces s ws : all_space ws → rstrip (s +:+ ws) = rstrip s.
Proof.
  intros Hws. induction s as [|c s IH]; [by apply rstrip_spaces|].
  rewrite append_cons. cbn [rstrip]. by rewrite IH.
Qed.

Lemma rstrip_app_end s u :
  u ≠ EmptyString → rstrip u = u → rstrip (s +:+ u) = s +:+ u.
Proof.
  intros Hne Hu. induction s as [|c s IH]; [done|].
  rewrite append_cons. cbn [rstrip]. rewrite IH. destruct (s +:+ u) eqn:Hsu; [|done].
  destruct s; [by rewrite append_empty_l in Hsu|done].
Qed.

(** Text that starts and ends with a character that is not whitespace
    comes back unchanged when the whitespace around it is stripped. *)
Lemma strip_padded ws c t ws' :
  all_space ws → all_space ws' → isspace c = false → rstrip (String c t) = String c t →
  strip (ws +:+ String c t +:+ ws') = String c t.
Proof.
  intros Hws Hws' Hc Hr. unfold strip.
  rewrite lstrip_app_spaces by done. rewrite append_cons. cbn [lstrip]. rewrite Hc.
  rewrite <- append_cons. by rewrite rstrip_app_spaces.
Qed.

Lemma str_int_first_char n : ∃ c t, str_int n = String c t.
Proof.
  destruct (str_int n) as [|c t] eqn:Hs; [|by eauto].
  pose proof (int_str_int n) as H. rewrite Hs in H. discriminate.
Qed.

(** [int(text.strip())] reads a printed number back through any padding,
    such as a final line feed. *)
Lemma int_strip_padded n ws ws' :
  all_space ws → all_space ws' →
  int (strip (ws +:+ str_int n +:+ ws')) = Some n.
Proof.
  intros Hws Hws'. destruct (str_int_first_char n) as (c & t & Hs).
  pose proof (no_space_str_int n) as Hns. rewrite Hs in Hns.
  rewrite Hs, strip_padded; try done.
  - rewrite <- Hs. apply int_str_int.
  - by apply no_space_inv in Hns as [? _].
  - by apply rstrip_no_space.
Qed.

(** ** Replacing *)

Lemma startswith_app old rest : startswith old (old +:+ rest) = true.
Proof.
  induction old as [|c old IH]; [done|].
  rewrite append_cons. cbn [startswith]. by rewrite Ascii.eqb_refl.
Qed.

Lemma replace_from_skip old new pre rest :
  replace_from old new (String.length pre) (pre +:+ rest) = replace_from old new O rest.
Proof.
  induction pre as [|c pre IH]; [done|].
  rewrite append_cons. cbn [String.length replace_from]. apply IH.
Qed.

(** An occurrence at the head is replaced. *)
Lemma replace_head c old new rest :
  replace (String c old) new (String c old +:+ rest) = new +:+ replace (String c old) new rest.
Proof.
  unfold replace. rewrite append_cons. cbn [replace_from]. rewrite <- append_cons.
  rewrite startswith_app.
  replace (String.length (String c old) - 1)%nat with (String.length old)
    by (cbn [String.length]; lia).
  by rewrite replace_from_skip.
Qed.

Lemma startswith_first_char c old a s :
  startswith (String c old) (String a s) = true → a = c.
Proof. cbn [startswith]. destruct (Ascii.eqb_spec c a); [done|discriminate]. Qed.

(** Text that does not hold the first character of the pattern is copied. *)
Lemma replace_prefix_without old new s rest :
  first_char_absent old s →
  replace old new (s +:+ rest) = s +:+ replace old new rest.
Proof.
  destruct old as [|c old]; [done|]. cbn [first_char_absent]. unfold replace.
  induction s as [|a s IH]; [done|].
  cbn [str_mem]. intros [Ha Hs]%orb_false_iff. rewrite !append_cons. cbn [replace_from].
  destruct (startswith (String c old) (String a (s +:+ rest))) eqn:Hsw.
  - apply startswith_first_char in Hsw as ->. by rewrite Ascii.eqb_refl in Ha.
  - by rewrite IH.
Qed.

Lemma append_empty_r s : s +:+ EmptyString = s.
Proof. induction s as [|c s IH]; [done|]. by rewrite append_cons, IH. Qed.

Lemma length_append s t :
  String.length (s +:+ t) = (String.length s + String.length t)%nat.
Proof. induction s as [|c s IH]; [done|]. rewrite append_cons. simpl. by rewrite IH. Qed.

(** A common suffix can be cancelled. *)
Lemma append_inj_r s1 s2 t : s1 +:+ t = s2 +:+ t → s1 = s2.
Proof.
  revert s2. induction s1 as [|c s1 IH]; intros [|c' s2] H.
  - done.
  - apply (f_equal String.length) in H. rewrite append_empty_l, length_append in H.
    simpl in H. lia.
  - apply (f_equal String.length) in H. rewrite append_empty_l, length_append in H.
    simpl in H. lia.
  - rewrite !append_cons in H. injection H as -> H. f_equal. by apply IH.
Qed.

End PyFacts.

(* ===================================================================== *)
(** * Facts on binary64 division *)
(* ===================================================================== *)

Module FloatFacts.
Import SpecFloat.

Lemma digits2_bounds p :
  2 ^ (Zpos (digits2_pos p) - 1) ≤ Zpos p < 2 ^ Zpos (digits2_pos p).
Proof.
  induction p as [p IH|p IH|]; cbn [digits2_pos].
  - rewrite Pos2Z.inj_succ. replace (Z.succ (Z.pos (digits2_pos p)) - 1) with (Zpos (digits2_pos p)) by lia.
    rewrite Z.pow_succ_r by lia.
    replace (Zpos (digits2_pos p)) with (Z.succ (Zpos (digits2_pos p) - 1)) at 1 by lia.
    rewrite Z.pow_succ_r by lia. lia.
  - rewrite Pos2Z.inj_succ. replace (Z.succ (Z.pos (digits2_pos p)) - 1) with (Zpos (digits2_pos p)) by lia.
    rewrite Z.pow_succ_r by lia.
    replace (Zpos (digits2_pos p)) with (Z.succ (Zpos (digits2_pos p) - 1)) at 1 by lia.
    rewrite Z.pow_succ_r by lia. lia.
  - simpl. lia.
Qed.

Lemma Zdigits2_unique z n :
  0 < n → 2 ^ (n - 1) ≤ z < 2 ^ n → Zdigits2 z = n.
Proof.
  intros Hn [Hlo Hhi]. destruct z as [|p|p]; [|simpl|lia].
  - assert (0 < 2 ^ (n - 1)) by (apply Z.pow_pos_nonneg; lia). lia.
  - pose proof (digits2_bounds p) as [Hl Hh].
    set (d := Zpos (digits2_pos p)) in *.
    destruct (Z.lt_trichotomy d n) as [Hlt|[Heq|Hgt]]; [|done|].
    + assert (2 ^ d ≤ 2 ^ (n - 1)) by (apply Z.pow_le_mono_r; lia). lia.
    + assert (2 ^ n ≤ 2 ^ (d - 1)) by (apply Z.pow_le_mono_r; lia). lia.
Qed.

Lemma shr_1_pos m r s :
  0 < m → shr_1 (Build_shr_record m r s) = Build_shr_record (m / 2) (Z.odd m) (r || s).
Proof.
  intros Hm. destruct m as [|p|p]; [lia| |lia].
  destruct p as [p|p|]; cbn [shr_1]; [| |done].
  - f_equal. rewrite Pos2Z.inj_xI. apply (Z.div_unique _ 2 _ 1); lia.
  - f_equal. rewrite Pos2Z.inj_xO. apply (Z.div_unique _ 2 _ 0); lia.
Qed.

(** The second half of [binary_round_aux]: a mantissa of 53 bits is kept, the
    mantissa 2^53 is halved. *)
Lemma shr_fexp_rounded n e :
  2 ^ 52 ≤ n ≤ 2 ^ 53 → -1074 ≤ e →
  ∃ m e2 r s,
    shr_fexp 53 1024 n e loc_Exact = (Build_shr_record (Zpos m) r s, e2) ∧
    e ≤ e2 ≤ e + 1 ∧ Zpos m * 2 ^ (e2 - e) = n.
Proof.
  intros Hn He. unfold shr_fexp.
  destruct (decide (n < 2 ^ 53)) as [Hlt|Hge].
  - rewrite (Zdigits2_unique n 53) by lia.
    replace (fexp 53 1024 (53 + e) - e) with 0 by (unfold fexp, emin; lia).
    destruct n as [|m|]; try lia. exists m, e, false, false.
    split; [done|]. split; [lia|]. replace (e - e) with 0 by lia. simpl. lia.
  - assert (n = 2 ^ 53) as -> by lia.
    replace (fexp 53 1024 (Zdigits2 (2 ^ 53) + e) - e) with 1
      by (unfold fexp, emin; change (Zdigits2 (2 ^ 53)) with 54; lia).
    exists (Z.to_pos (2 ^ 52)), (e + 1), false, false.
    split; [done|]. split; [lia|]. replace (e + 1 - e) with 1 by lia. done.
Qed.

Lemma binary_round_aux_spec q e l :
  2 ^ 52 ≤ q < 2 ^ 54 → -1074 ≤ e ≤ 960 →
  let first :=
    if decide (q < 2 ^ 53) then (shr_record_of_loc q l, e)
    else (shr_1 (shr_record_of_loc q l), e + 1) in
  let n := round_nearest_even (shr_m first.1) (loc_of_shr_record first.1) in
  2 ^ 52 ≤ n ≤ 2 ^ 53 →
  ∃ m e2,
    binary_round_aux 53 1024 false q e l = S754_finite false m e2 ∧
    first.2 ≤ e2 ≤ first.2 + 1 ∧ Zpos m * 2 ^ (e2 - first.2) = n.
Proof.
  intros Hq He first n Hn. unfold binary_round_aux.
  assert (shr_fexp 53 1024 q e l = first) as ->.
  { unfold shr_fexp, first. case_decide as Hlt.
    - rewrite (Zdigits2_unique q 53) by lia.
      by replace (fexp 53 1024 (53 + e) - e) with 0 by (unfold fexp, emin; lia).
    - rewrite (Zdigits2_unique q 54) by lia.
      by replace (fexp 53 1024 (54 + e) - e) with 1 by (unfold fexp, emin; lia). }
  destruct first as [mrs e1] eqn:Hfirst. cbn [fst snd] in *. fold n.
  assert (e ≤ e1 ≤ e + 1) as He1.
  { unfold first in Hfirst. case_decide; injection Hfirst as <- <-; lia. }
  destruct (shr_fexp_rounded n e1 Hn ltac:(lia)) as (m & e2 & r & s & -> & He2 & Hm).
  exists m, e2. cbn [shr_m].
  replace (e2 <=? 1024 - 53) with true by (symmetry; apply Z.leb_le; lia). done.
Qed.

Lemma shr_m_of_loc m l : shr_m (shr_record_of_loc m l) = m.
Proof. by destruct l as [|[]]. Qed.

Lemma round_nearest_even_cases m l :
  round_nearest_even m l = m ∨ round_nearest_even m l = m + 1.
Proof. destruct l as [|[]]; simpl; try tauto. destruct (Z.even m); tauto. Qed.

Lemma new_location_100 r :
  0 ≤ r < 100 →
  new_location 100 r = if decide (r = 0) then loc_Exact
                       else loc_Inexact (Z.compare (2 * r) 100).
Proof.
  intros Hr. unfold new_location. change (Z.even 100) with true. cbv iota.
  unfold new_location_even. case_decide as H0.
  - by rewrite H0.
  - destruct (Z.eqb_spec r 0); [done|done].
Qed.

Lemma ceil_char m D K : 0 < D → (K - 1) * D < m ≤ K * D → - ((- m) / D) = K.
Proof.
  intros HD [Hlo Hhi].
  assert ((- m) / D = - K); [|lia].
  symmetry. apply (Z.div_unique_pos _ _ _ (K * D - m)); lia.
Qed.

Lemma int_true_div_100 p :
  Zpos (digits2_pos p) ≤ 53 →
  Float.int_true_div (Zpos p) 100
  = binary_round_aux 53 1024 false
      ((Zpos p * 2 ^ (60 - Zpos (digits2_pos p))) / 100) (Zpos (digits2_pos p) - 60)
      (new_location 100 ((Zpos p * 2 ^ (60 - Zpos (digits2_pos p))) mod 100)).
Proof.
  intros Hd. set (d := Zpos (digits2_pos p)) in *.
  unfold Float.int_true_div, Float.of_int, Float.div64, SFdiv, SFdiv_core_binary.
  change (Zdigits2 (Zpos p)) with d. change (Zdigits2 100) with 7.
  replace (Z.min (fexp 53 1024 (d + 0 - (7 + 0))) (0 - 0)) with (d - 60)
    by (unfold fexp, emin; lia).
  replace (0 - 0 - (d - 60)) with (60 - d) by lia.
  destruct (60 - d) as [|s|s] eqn:Hs; [lia| |lia].
  rewrite Z.shiftl_mul_pow2 by lia.
  unfold Z.div, Z.modulo.
  by destruct (Z.div_eucl (Zpos p * 2 ^ Z.pos s) 100) as [q r].
Qed.

(** Python's [math.ceil(a / 100)] on a positive integer below 2^53: the
    binary64 quotient is rounded to nearest, and never across an integer, so
    its ceiling is the ceiling of the exact quotient. *)
Lemma ceil_true_div_100 a :
  0 < a < 2 ^ 53 → Float.ceil (Float.int_true_div a 100) = Some ((a + 99) / 100).
Proof.
  intros [Hpos Hlt]. destruct a as [|p|p]; try lia.
  pose proof (digits2_bounds p) as [Hdlo Hdhi].
  set (d := Zpos (digits2_pos p)) in *.
  assert (1 ≤ d ≤ 53) as Hd.
  { split; [lia|]. destruct (decide (d ≤ 53)); [done|].
    assert (2 ^ 53 ≤ 2 ^ (d - 1)) by (apply Z.pow_le_mono_r; lia). lia. }
  rewrite (int_true_div_100 p) by (fold d; lia). fold d.
  set (a := Zpos p) in *.
  set (T := 2 ^ (60 - d)).
  assert (T = 2 * 2 ^ (59 - d)) as HT.
  { unfold T. replace (60 - d) with (Z.succ (59 - d)) by lia.
    rewrite Z.pow_succ_r by lia. done. }
  set (T1 := 2 ^ (59 - d)) in *.
  assert (64 ≤ T1) as HT1.
  { unfold T1. change 64 with (2 ^ 6). apply Z.pow_le_mono_r; lia. }
  assert (2 ^ 59 ≤ a * T < 2 ^ 60) as HM.
  { replace (2 ^ 59) with (2 ^ (d - 1) * T).
    2:{ unfold T. rewrite <- Z.pow_add_r by lia. f_equal. lia. }
    replace (2 ^ 60) with (2 ^ d * T).
    2:{ unfold T. rewrite <- Z.pow_add_r by lia. f_equal. lia. }
    split; [apply Z.mul_le_mono_nonneg_r; lia|apply Z.mul_lt_mono_pos_r; lia]. }
  set (M := a * T) in *.
  pose proof (Z.div_mod M 100 ltac:(lia)) as HMq.
  pose proof (Z.mod_pos_bound M 100 ltac:(lia)) as Hr.
  set (q := M / 100) in *. set (r := M mod 100) in *.
  change (2 ^ 59) with 576460752303423488 in HM.
  change (2 ^ 60) with 1152921504606846976 in HM.
  assert (2 ^ 52 ≤ q < 2 ^ 54) as Hq.
  { change (2 ^ 52) with 4503599627370496. change (2 ^ 54) with 18014398509481984. lia. }
  (* the exact quotient, between K - 1 and K *)
  set (K := (a + 99) / 100).
  pose proof (Z.div_mod (a + 99) 100 ltac:(lia)) as HK.
  pose proof (Z.mod_pos_bound (a + 99) 100 ltac:(lia)) as HKr.
  fold K in HK. set (j := 1 + (a + 99) mod 100) in *.
  assert (a = 100 * (K - 1) + j) as Ha by lia.
  assert (1 ≤ j ≤ 100) as Hj by lia.
  set (A1 := (K - 1) * T1). set (P := j * T1).
  assert (M = 200 * A1 + 2 * P) as HMA by (unfold M, A1, P; rewrite Ha, HT; ring).
  assert (T1 ≤ P ≤ 100 * T1) as HP by (unfold P; nia).
  assert (j ≤ 99 → P ≤ 99 * T1) as HP99 by (unfold P; nia).
  rewrite (new_location_100 r Hr).
  set (l := if decide (r = 0) then loc_Exact else loc_Inexact (2 * r ?= 100)).
  pose proof (binary_round_aux_spec q (d - 60) l Hq ltac:(lia)) as Hround.
  cbv zeta in Hround.
  destruct (decide (q < 2 ^ 53)) as [Hsmall|Hbig].
  - (* no shift *)
    cbn [fst snd] in Hround.
    rewrite shr_m_of_loc in Hround.
    set (n := round_nearest_even q (loc_of_shr_record (shr_record_of_loc q l))) in *.
    assert ((n = q ∨ n = q + 1) ∧ (r = 0 → n = q)) as [Hn Hn0].
    { split; [apply round_nearest_even_cases|].
      intros H0. unfold n, l. by rewrite decide_True. }
    destruct Hround as (m & e2 & -> & He2 & Hmn).
    { change (2 ^ 52) with 4503599627370496 in *.
      change (2 ^ 53) with 9007199254740992 in *. lia. }
    cbn [Float.ceil cond_Zopp].
    replace (0 <=? e2) with false by (symmetry; apply Z.leb_gt; lia).
    f_equal. apply ceil_char; [apply Z.pow_pos_nonneg; lia|].
    assert (A1 * 2 < n ≤ (A1 + T1) * 2) as Hcore by lia.
    assert (2 ^ (- e2) * 2 ^ (e2 - (d - 60)) = T) as HD.
    { rewrite <- Z.pow_add_r by lia. unfold T. f_equal. lia. }
    assert (0 < 2 ^ (e2 - (d - 60))) by (apply Z.pow_pos_nonneg; lia).
    assert (0 < 2 ^ (- e2)) by (apply Z.pow_pos_nonneg; lia).
    unfold A1 in Hcore. nia.
  - (* the quotient has 54 bits and is halved *)
    cbn [fst snd] in Hround.
    assert (∃ rb sb, shr_record_of_loc q l = Build_shr_record q rb sb ∧
                     (rb || sb = negb (bool_decide (r = 0)))) as (rb & sb & Hrec & Hsticky).
    { unfold l. case_decide as H0.
      - exists false, false. by rewrite bool_decide_true.
      - rewrite bool_decide_false by done.
        destruct (2 * r ?= 100); by eexists _, _. }
    rewrite Hrec, shr_1_pos in Hround by lia. cbn [shr_m] in Hround.
    rewrite Hsticky in Hround.
    set (n := round_nearest_even (q / 2) _) in *.
    pose proof (Zdiv2_odd_eqn q) as Hodd. rewrite Z.div2_div in Hodd.
    assert ((n = q / 2 ∨ n = q / 2 + 1) ∧
            (Z.odd q = false → n = q / 2) ∧
            (Z.odd q = true → r ≠ 0 → n = q / 2 + 1)) as (Hn & Hneven & Hnodd).
    { split; [apply round_nearest_even_cases|]. unfold n. split.
      - intros ->. by destruct (negb (bool_decide (r = 0))).
      - intros -> H0. by rewrite bool_decide_false. }
    destruct Hround as (m & e2 & -> & He2 & Hmn).
    { change (2 ^ 52) with 4503599627370496 in *.
      change (2 ^ 53) with 9007199254740992 in *.
      change (2 ^ 54) with 18014398509481984 in *.
      destruct (Z.odd q); lia. }
    cbn [Float.ceil cond_Zopp].
    replace (0 <=? e2) with false by (symmetry; apply Z.leb_gt; lia).
    f_equal. apply ceil_char; [apply Z.pow_pos_nonneg; lia|].
    assert (A1 < n ≤ A1 + T1) as Hcore.
    { destruct (Z.odd q) eqn:Hq2.
      - destruct (decide (r = 0)) as [H0|H0]; [|rewrite (Hnodd eq_refl H0)]; lia.
      - rewrite (Hneven eq_refl). lia. }
    assert (2 ^ (- e2) * 2 ^ (e2 - (d - 60 + 1)) = T1) as HD.
    { rewrite <- Z.pow_add_r by lia. unfold T1. f_equal. lia. }
    assert (0 < 2 ^ (e2 - (d - 60 + 1))) by (apply Z.pow_pos_nonneg; lia).
    assert (0 < 2 ^ (- e2)) by (apply Z.pow_pos_nonneg; lia).
    unfold A1 in Hcore. nia.
Qed.

End FloatFacts.

(* ===================================================================== *)
(** * Properties of the ingestor *)
(* ===================================================================== *)

Module IngestorProps.
Import Ingestor IngestorSamples.

(** ** The per-cycle scalars *)







(** *** The depth of the pairwise summation *)

Lemma pairwise_split_bounds n :
  (128 < n → 0 < n / 2 - (n / 2) mod 8 < n)%nat.
Proof.
  intros Hn.
  pose proof (Nat.div_mod_eq n 2) as H2.
  pose proof (Nat.mod_upper_bound n 2 ltac:(done)) as Hm2.
  pose proof (Nat.mod_upper_bound (n / 2) 8 ltac:(done)) as Hm8.
  lia.
Qed.

(** Any fuel that is at least the length of the array gives the same sum. *)
Lemma pairwise_sum_fuel fuel : ∀ fuel' a,
  (length a ≤ fuel)%nat → (length a ≤ fuel')%nat →
  pairwise_sum fuel a = pairwise_sum fuel' a.
Proof.
  induction fuel as [|fuel IH]; intros fuel' a Hf Hf'.
  - destruct a; [|simpl in Hf; lia]. by destruct fuel'.
  - destruct fuel' as [|fuel'].
    + destruct a; [done|simpl in Hf'; lia].
    + cbn [pairwise_sum].
      destruct (Nat.ltb_spec (length a) 8) as [|H8]; [done|].
      destruct (Nat.leb_spec (length a) 128) as [|H128]; [done|].
      pose proof (pairwise_split_bounds _ H128) as Hsplit.
      f_equal; apply IH; rewrite ?length_take, ?length_drop; lia.
Qed.

(** *** Sums of zeros *)
















Example sample_params_built : build_params sample_dataset 0 1 = inr sample_params.
Proof. by vm_compute. Qed.

(** Rounding and overflow of the float32 arithmetic: the mean of 0.1 and
    0.2 is stored as 0.15000000596046448 (10066330 / 2^26), the mean of 3e38
    and 3e38 as an infinity, and the mean of an unmasked profile without
    elements as NaN. *)
Example float32_means :
  let small := [Cell tenth32 false; Cell fifth32 false] in
  let large := [Cell (f32 (3 * 10 ^ 38)) false; Cell (f32 (3 * 10 ^ 38)) false] in
  profile_avg [small] small
    = Some (Float.to_double (SpecFloat.S754_finite false 10066330 (-26))) ∧
  profile_avg [large] large = Some (SpecFloat.S754_infinity false) ∧
  profile_avg [[]] [] = Some FNaN.
Proof. by vm_compute. Qed.


(** ** Failures inside the loop over the cycles *)

(** C6 (the code departs from it).  When the cycle number of the first cycle
    of a file is masked, [int(cycles[0])] raises and the handler, which reads
    the still unbound [cycle], raises in turn: the file is abandoned with a
    fatal message, the connection is left as it was, and no later cycle of
    the file is attempted. *)
Theorem masked_first_cycle_aborts_file db_accepts file ds c rest st :
  CYCLE_NUMBER ds = c :: rest →
  masked c = true →
  process_nc_file db_accepts file (Some ds) st
  = (inr tt, State (db st) (log st ++ [LogFatal file UnboundLocalError])).
Proof.
  intros Hcyc Hc.
  unfold process_nc_file, try_catch, mbind, M_bind, lift, from_option.
  rewrite Hcyc. cbn [length seq cycle_loop].
  unfold mbind, M_bind, cycle_step, convert_cycle, index.
  rewrite Hcyc. cbn [lookup list_lookup from_option mbind sum_bind].
  unfold int_of_cell. rewrite Hc. cbn. done.
Qed.

Lemma masked_first_cycle_aborts_file_witness :
  process_nc_file (λ _, true) "R2902746_001.nc" (Some masked_first_dataset) empty_state
  = (inr tt, State (Conn [] [] 1) [LogFatal "R2902746_001.nc" UnboundLocalError]).
Proof.
  apply (masked_first_cycle_aborts_file (λ _, true) "R2902746_001.nc"
           masked_first_dataset (Cell 99999 true) [Cell 2 false] empty_state);
    reflexivity.
Defined.

(** ** What a run appends to the table *)

Section Runs.

Variable db_accepts : insert_params → bool.

Lemma append_rows_nil c : pending c = [] → append_rows [] c = c.
Proof.
  destruct c as [t p n]; simpl. intros ->. unfold append_rows; simpl.
  by rewrite app_nil_r, Z.add_0_r.
Qed.

Lemma number_rows_app n r1 r2 :
  number_rows n (r1 ++ r2) = number_rows n r1 ++ number_rows (n + Z.of_nat (length r1)) r2.
Proof.
  revert n. induction r1 as [|p r1 IH]; intros n; simpl.
  - by rewrite Z.add_0_r.
  - rewrite IH. do 3 f_equal. lia.
Qed.

Lemma append_rows_app r1 r2 c :
  append_rows (r1 ++ r2) c = append_rows r2 (append_rows r1 c).
Proof.
  unfold append_rows; simpl.
  rewrite number_rows_app, length_app, app_assoc. f_equal. lia.
Qed.

Lemma number_rows_data n rows : row_data <$> number_rows n rows = rows.
Proof. revert n. induction rows as [|p rows IH]; intros n; simpl; [done|]. by rewrite IH. Qed.

Lemma number_rows_length n rows : length (number_rows n rows) = length rows.
Proof. by rewrite <- (number_rows_data n rows) at 2; rewrite length_fmap. Qed.

Lemma append_rows_pending rows c : pending (append_rows rows c) = [].
Proof. done. Qed.

Lemma append_rows_data rows c :
  row_data <$> table (append_rows rows c) = (row_data <$> table c) ++ rows.
Proof. unfold append_rows; simpl. by rewrite fmap_app, number_rows_data. Qed.

Lemma state_eta st : State (db st) (log st) = st.
Proof. by destruct st. Qed.

(** One iteration, when no transaction is open on entry. *)
Lemma cycle_step_spec file ds cycle i st :
  pending (db st) = [] →
  ∃ lg,
    match convert_cycle ds i, cycle with
    | inl _, None =>
        cycle_step db_accepts file ds cycle i st
        = (inl UnboundLocalError, State (db st) (log st ++ lg))
    | inl _, Some _ =>
        cycle_step db_accepts file ds cycle i st
        = (inr cycle, State (db st) (log st ++ lg))
    | inr c, _ =>
        cycle_step db_accepts file ds cycle i st
        = (inr (Some c), State (append_rows (cycle_rows db_accepts ds i c) (db st))
                               (log st ++ lg))
    end.
Proof.
  intros Hp. unfold cycle_step, cycle_rows.
  destruct (convert_cycle ds i) as [e|c].
  - destruct cycle as [c0|].
    + exists [LogCycleError c0 file e].
      unfold on_cycle_error, print, rollback. run_eff.
      destruct st as [[t p n] lg]; simpl in *. by subst.
    + exists []. unfold on_cycle_error. run_eff. by rewrite app_nil_r, state_eta.
  - unfold insert_cycle. destruct (build_params ds i c) as [e|p] eqn:Hb.
    + exists [LogCycleError c file e].
      unfold on_cycle_error, print, rollback. run_eff.
      rewrite append_rows_nil by done.
      destruct st as [[t pd n] lg]; simpl in *. by subst.
    + destruct (db_accepts p) eqn:Hacc.
      * exists [LogAttempt p].
        unfold on_cycle_error, print, rollback, commit, execute_insert. run_eff.
        rewrite Hacc.
        destruct st as [[t pd n] lg]; simpl in *. subst. by unfold append_rows.
      * exists [LogAttempt p; LogCycleError c file DatabaseError].
        unfold on_cycle_error, print, rollback, commit, execute_insert. run_eff.
        rewrite Hacc.
        rewrite append_rows_nil by done.
        destruct st as [[t pd n] lg]; simpl in *. subst.
        by rewrite <- app_assoc.
Qed.

Lemma cycle_loop_spec file ds idxs : ∀ cycle st,
  pending (db st) = [] →
  ∃ r lg,
    cycle_loop db_accepts file ds cycle idxs st
    = (r, State (append_rows (loop_rows db_accepts ds cycle idxs) (db st)) (log st ++ lg))
    ∧ (is_Some cycle → r = inr tt).
Proof.
  induction idxs as [|i idxs IH]; intros cycle st Hp.
  - exists (inr tt), []. simpl. rewrite append_rows_nil by done.
    by rewrite app_nil_r, state_eta.
  - destruct (cycle_step_spec file ds cycle i st Hp) as [lg Hstep].
    cbn [cycle_loop loop_rows]. unfold mbind, M_bind.
    destruct (convert_cycle ds i) as [e|c].
    + destruct cycle as [c0|]; rewrite Hstep.
      * destruct (IH (Some c0) (State (db st) (log st ++ lg)) Hp) as (r & lg' & -> & Hr).
        exists r, (lg ++ lg'). simpl. by rewrite app_assoc.
      * exists (inl UnboundLocalError), lg. rewrite append_rows_nil by done.
        split; [done|]. by intros [? ?].
    + rewrite Hstep.
      destruct (IH (Some c) (State (append_rows (cycle_rows db_accepts ds i c) (db st))
                                   (log st ++ lg)) eq_refl) as (r & lg' & -> & Hr).
      exists r, (lg ++ lg'). simpl. rewrite append_rows_app, app_assoc.
      split; [done|]. intros _. by apply Hr.
Qed.

Lemma process_nc_file_spec file content st :
  pending (db st) = [] →
  ∃ lg,
    process_nc_file db_accepts file content st
    = (inr tt, State (append_rows (file_rows db_accepts content) (db st)) (log st ++ lg)).
Proof.
  intros Hp. unfold process_nc_file, file_rows.
  destruct content as [ds|]; run_eff.
  - destruct (cycle_loop_spec file ds (seq 0 (length (CYCLE_NUMBER ds))) None st Hp)
      as (r & lg & -> & _).
    destruct r as [e|[]].
    + exists (lg ++ [LogFatal file e]). unfold print. run_eff. simpl. by rewrite app_assoc.
    + by exists lg.
  - exists [LogFatal file OSError]. unfold print. run_eff. by rewrite append_rows_nil.
Qed.

Lemma process_folder_spec files : ∀ st,
  pending (db st) = [] →
  ∃ lg,
    process_folder db_accepts files st
    = (inr tt, State (append_rows (folder_rows db_accepts files) (db st)) (log st ++ lg)).
Proof.
  induction files as [|[name content] files IH]; intros st Hp.
  - exists []. simpl. rewrite append_rows_nil by done. by rewrite app_nil_r, state_eta.
  - cbn [process_folder folder_rows]. run_eff.
    destruct (Py.endswith ".nc" name).
    + destruct (process_nc_file_spec name content st Hp) as [lg ->].
      destruct (IH (State (append_rows (file_rows db_accepts content) (db st))
                          (log st ++ lg)) eq_refl) as [lg' ->].
      exists (lg ++ lg'). simpl. by rewrite append_rows_app, app_assoc.
    + destruct (IH st Hp) as [lg ->]. by exists lg.
Qed.

(** Where the appended rows come from. *)
Lemma number_rows_elem n rows r : r ∈ number_rows n rows → row_data r ∈ rows.
Proof.
  revert n. induction rows as [|p rows IH]; intros n; simpl.
  - by intros ?%elem_of_nil.
  - intros [->|Hin%IH]%elem_of_cons; [by left|by right].
Qed.

Lemma loop_rows_built ds idxs : ∀ cycle p,
  p ∈ loop_rows db_accepts ds cycle idxs →
  ∃ i c, i ∈ idxs ∧ convert_cycle ds i = inr c ∧
         build_params ds i c = inr p ∧ db_accepts p = true.
Proof.
  induction idxs as [|i idxs IH]; intros cycle p; [by intros ?%elem_of_nil|].
  cbn [loop_rows]. destruct (convert_cycle ds i) as [e|c] eqn:Hconv.
  - destruct cycle as [c0|]; [|by intros ?%elem_of_nil].
    intros (j & c & Hj & H)%IH. exists j, c. split; [by right|done].
  - intros [Hhere|(j & c' & Hj & H)%IH]%elem_of_app.
    + unfold cycle_rows in Hhere.
      destruct (build_params ds i c) as [e|p'] eqn:Hbuild; [by apply elem_of_nil in Hhere|].
      destruct (db_accepts p') eqn:Hacc; [|by apply elem_of_nil in Hhere].
      apply list_elem_of_singleton in Hhere as ->.
      exists i, c. split; [by left|done].
    + exists j, c'. split; [by right|done].
Qed.

Lemma folder_rows_built files p :
  p ∈ folder_rows db_accepts files →
  ∃ name ds i c, (name, Some ds) ∈ files ∧ convert_cycle ds i = inr c ∧
                 build_params ds i c = inr p ∧ db_accepts p = true.
Proof.
  induction files as [|[name content] files IH]; [by intros ?%elem_of_nil|].
  cbn [folder_rows]. intros [Hhere|(n & ds & i & c & Hin & H)%IH]%elem_of_app.
  - destruct (Py.endswith ".nc" name); [|by apply elem_of_nil in Hhere].
    destruct content as [ds|]; [|by apply elem_of_nil in Hhere].
    apply loop_rows_built in Hhere as (i & c & _ & H).
    exists name, ds, i, c. split; [by left|done].
  - exists n, ds, i, c. split; [by right|done].
Qed.




(** Once [cycle] is bound, the loop runs over every index. *)
Lemma loop_rows_bound ds idxs : ∀ c,
  loop_rows db_accepts ds (Some c) idxs = flat_map (attempt_rows db_accepts ds) idxs.
Proof.
  induction idxs as [|i idxs IH]; intros c; [done|].
  cbn [loop_rows flat_map]. unfold attempt_rows at 1.
  destruct (convert_cycle ds i) as [e|c']; [apply IH|]. by rewrite IH.
Qed.





End Runs.





(** On the sample folder: two rows after the first run, four after the
    second, each tuple twice under different keys. *)
Example rerun_sample_folder_counts :
  let st1 := (process_folder (λ _, true) sample_folder empty_state).2 in
  let st2 := (process_folder (λ _, true) sample_folder st1).2 in
  let second :=
    Params "2902746" 2 "2019-01-11T00:00:00" (f64 13) (f64 61) None None (Some (f64 15)) in
  table (db st1) = [Row 1 sample_params; Row 2 second] ∧
  table (db st2)
    = [Row 1 sample_params; Row 2 second; Row 3 sample_params; Row 4 second].
Proof. by vm_compute. Qed.

End IngestorProps.

(* ===================================================================== *)
(** * Further properties of the ingestor *)
(* ===================================================================== *)

Module IngestorExtra.
Import Ingestor IngestorSamples.

Section Runs.

Variable db_accepts : insert_params → bool.

(** X1.  Files whose name does not end in [.nc] play no part in a run: the
    outcome, the database and the log are those of the run over the [.nc]
    files alone, whatever the other entries of the folder are. *)
Theorem other_files_are_ignored files st :
  process_folder db_accepts files st = process_folder db_accepts (nc_files files) st.
Proof.
  revert st. induction files as [|[name content] files IH]; intros st; [done|].
  unfold nc_files in *. cbn [process_folder List.filter fst].
  destruct (Py.endswith ".nc" name) eqn:Hnc.
  - cbn [process_folder]. rewrite Hnc. run_eff.
    destruct (process_nc_file db_accepts name content st) as [[e|[]] st1]; [done|].
    apply IH.
  - run_eff. apply IH.
Qed.

Lemma folder_rows_app files1 files2 :
  folder_rows db_accepts (files1 ++ files2)
  = folder_rows db_accepts files1 ++ folder_rows db_accepts files2.
Proof.
  induction files1 as [|[name content] files1 IH]; [done|].
  cbn [app folder_rows]. by rewrite IH, app_assoc.
Qed.

Lemma process_folder_db files st :
  pending (db st) = [] →
  (process_folder db_accepts files st).1 = inr tt ∧
  db (process_folder db_accepts files st).2
  = append_rows (folder_rows db_accepts files) (db st).
Proof.
  intros Hp. by destruct (IngestorProps.process_folder_spec db_accepts files st Hp) as [lg ->].
Qed.

(** X2.  A file that cannot be opened is reported as a fatal error of that
    file and changes nothing in the database; the run goes on, and the
    database it ends with is the one of the run over the other files. *)
Theorem unreadable_file_is_skipped before name after st :
  pending (db st) = [] →
  process_nc_file db_accepts name None st
    = (inr tt, State (db st) (log st ++ [LogFatal name OSError])) ∧
  (process_folder db_accepts (before ++ (name, None) :: after) st).1 = inr tt ∧
  db (process_folder db_accepts (before ++ (name, None) :: after) st).2
    = db (process_folder db_accepts (before ++ after) st).2.
Proof.
  intros Hp. split; [done|].
  destruct (process_folder_db (before ++ (name, None) :: after) st Hp) as [-> ->].
  destruct (process_folder_db (before ++ after) st Hp) as [_ ->].
  split; [done|]. rewrite !folder_rows_app. cbn [folder_rows file_rows].
  by destruct (Py.endswith ".nc" name).
Qed.

(** X3.  A run never updates or deletes a row and leaves no transaction
    open: the table it ends with extends the table it started from, the
    sequence has advanced by the number of rows added, and what was printed
    before is still there. *)
Theorem run_only_appends files st :
  pending (db st) = [] →
  let st' := (process_folder db_accepts files st).2 in
  pending (db st') = [] ∧
  table (db st) `prefix_of` table (db st') ∧
  next_id (db st')
    = next_id (db st) + Z.of_nat (length (table (db st')) - length (table (db st))) ∧
  log st `prefix_of` log st'.
Proof.
  intros Hp. destruct (IngestorProps.process_folder_spec db_accepts files st Hp) as [lg ->].
  cbn [snd db log append_rows pending table next_id].
  split; [done|]. split; [by eexists|]. split; [|by eexists].
  rewrite length_app, IngestorProps.number_rows_length. f_equal. lia.
Qed.

Lemma cycle_step_converted file ds cycle i c' st :
  convert_cycle ds i = inr c' →
  ∃ st' lg,
    cycle_step db_accepts file ds cycle i st = (inr (Some c'), st') ∧
    log st' = log st ++ lg ∧ forallb (λ e, negb (is_fatal e)) lg = true.
Proof.
  intros Hconv. unfold cycle_step, insert_cycle. rewrite Hconv.
  destruct (build_params ds i c') as [e|p].
  - eexists _, [LogCycleError c' file e].
    unfold on_cycle_error, print, rollback. run_eff. done.
  - destruct (db_accepts p) eqn:Hacc.
    + eexists _, [LogAttempt p].
      unfold on_cycle_error, print, rollback, commit, execute_insert. run_eff.
      rewrite Hacc. done.
    + eexists _, [LogAttempt p; LogCycleError c' file DatabaseError].
      unfold on_cycle_error, print, rollback, commit, execute_insert. run_eff.
      rewrite Hacc. cbn [log]. by rewrite <- app_assoc.
Qed.

Lemma cycle_step_bound_log file ds c i st :
  ∃ c' st' lg,
    cycle_step db_accepts file ds (Some c) i st = (inr (Some c'), st') ∧
    log st' = log st ++ lg ∧ forallb (λ e, negb (is_fatal e)) lg = true.
Proof.
  destruct (convert_cycle ds i) as [e|c'] eqn:Hconv.
  - exists c. eexists _, [LogCycleError c file e].
    unfold cycle_step. rewrite Hconv.
    unfold on_cycle_error, print, rollback. run_eff. done.
  - exists c'. by apply cycle_step_converted.
Qed.

Lemma cycle_loop_bound_log file ds idxs : ∀ c st,
  ∃ st' lg,
    cycle_loop db_accepts file ds (Some c) idxs st = (inr tt, st') ∧
    log st' = log st ++ lg ∧ forallb (λ e, negb (is_fatal e)) lg = true.
Proof.
  induction idxs as [|i idxs IH]; intros c st.
  - exists st, []. by rewrite app_nil_r.
  - cbn [cycle_loop]. run_eff.
    destruct (cycle_step_bound_log file ds c i st) as (c' & st1 & lg1 & -> & Hl1 & Hf1).
    destruct (IH c' st1) as (st' & lg & -> & Hl & Hf).
    exists st', (lg1 ++ lg). split; [done|].
    rewrite Hl, Hl1, forallb_app, Hf1, Hf. by rewrite app_assoc.
Qed.

(** X4.  When the cycle number of the first cycle of a file converts, the
    file is never abandoned: no fatal error is printed for it, every cycle
    is attempted in turn, and the rows added are those of all the cycles
    whose conversion, tuple and [INSERT] succeed; a cycle that fails costs
    its own row only. *)
Theorem bound_first_cycle_runs_all_cycles file ds c rest st :
  CYCLE_NUMBER ds = c :: rest →
  masked c = false →
  pending (db st) = [] →
  ∃ st' lg,
    process_nc_file db_accepts file (Some ds) st = (inr tt, st') ∧
    db st' = append_rows (all_cycle_rows db_accepts ds) (db st) ∧
    log st' = log st ++ lg ∧
    forallb (λ e, negb (is_fatal e)) lg = true.
Proof.
  intros Hcyc Hc Hp.
  assert (convert_cycle ds 0 = inr (value c)) as Hconv.
  { unfold convert_cycle, index. rewrite Hcyc. cbn. unfold int_of_cell. by rewrite Hc. }
  destruct (IngestorProps.process_nc_file_spec db_accepts file (Some ds) st Hp) as [lg0 Hspec].
  assert (file_rows db_accepts (Some ds) = all_cycle_rows db_accepts ds) as Hrows.
  { unfold file_rows, all_cycle_rows. rewrite Hcyc. cbn [length seq loop_rows flat_map].
    unfold attempt_rows at 1. rewrite Hconv. by rewrite IngestorProps.loop_rows_bound. }
  rewrite Hrows in Hspec.
  unfold process_nc_file in *. revert Hspec. run_eff.
  rewrite Hcyc. cbn [length seq cycle_loop]. run_eff.
  destruct (cycle_step_converted file ds None 0 (value c) st Hconv)
    as (st1 & lg1 & -> & Hl1 & Hf1).
  destruct (cycle_loop_bound_log file ds (seq 1 (length rest)) (value c) st1)
    as (st' & lg & -> & Hl & Hf).
  intros [= Hdb]. exists st', (lg1 ++ lg).
  split; [done|]. split; [by rewrite Hdb|].
  rewrite Hl, Hl1, forallb_app, Hf1, Hf. by rewrite app_assoc.
Qed.

Lemma build_params_float_id ds i cycle params :
  build_params ds i cycle = inr params → float_id params = get_float_id ds.
Proof.
  unfold build_params. intros H.
  destruct (index (times ds) i) as [|t]; [done|].
  destruct (index (LATITUDE ds) i) as [|la]; [done|].
  destruct (index (LONGITUDE ds) i) as [|lo]; [done|].
  destruct (index (PRES ds) i) as [|pres]; [done|].
  destruct (index (TEMP ds) i) as [|temp]; [done|].
  destruct (index (PSAL ds) i) as [|psal]; [done|].
  simpl in H. by injection H as <-.
Qed.

(** X5.  Every row a run adds carries the float identifier of its file, and
    that identifier contains no null byte, whatever padding the platform
    number of the file has. *)
Theorem stored_float_id_has_no_null_byte files st row :
  pending (db st) = [] →
  row ∈ table (db (process_folder db_accepts files st).2) →
  row ∈ table (db st) ∨
  (∃ name ds, (name, Some ds) ∈ files ∧ float_id (row_data row) = get_float_id ds) ∧
  Py.str_mem Py.NUL (float_id (row_data row)) = false.
Proof.
  intros Hp. destruct (IngestorProps.process_folder_spec db_accepts files st Hp) as [lg ->].
  cbn [snd db append_rows table].
  intros [Hold|Hnew%IngestorProps.number_rows_elem]%elem_of_app; [by left|right].
  apply IngestorProps.folder_rows_built
    in Hnew as (name & ds & i & c & Hfile & _ & Hbuild%build_params_float_id & _).
  rewrite Hbuild. split; [by exists name, ds|].
  apply PyFacts.replace_from_char_absent.
Qed.

Lemma cycle_loop_misreport file ds i c post pre : ∀ cycle st,
  convert_cycle ds i = inr c →
  convert_cycle ds (S i) = inl MaskError →
  is_Some cycle ∨ pre = [] →
  ∃ st', cycle_loop db_accepts file ds cycle (pre ++ i :: S i :: post) st = (inr tt, st') ∧
         LogCycleError c file MaskError ∈ log st'.
Proof.
  induction pre as [|j pre IH]; intros cycle st Hi HSi Hc.
  - cbn [app cycle_loop]. run_eff.
    destruct (cycle_step_converted file ds cycle i c st Hi) as (st1 & lg1 & -> & _).
    unfold cycle_step at 1. rewrite HSi. unfold on_cycle_error, print, rollback. run_eff.
    set (st2 := State _ _).
    destruct (cycle_loop_bound_log file ds post c st2) as (st' & lg & -> & Hl & _).
    exists st'. split; [done|]. rewrite Hl. unfold st2. cbn [log].
    rewrite !elem_of_app, list_elem_of_singleton. auto.
  - destruct Hc as [[c0 ->]|?]; [|done].
    cbn [app cycle_loop]. run_eff.
    destruct (cycle_step_bound_log file ds c0 j st) as (c' & st1 & lg1 & -> & _).
    apply IH; eauto.
Qed.

(** X21.  The message for a cycle whose number cannot be converted names
    another cycle.  In a file whose first cycle number is valid: when the
    number of cycle [i] is valid and the number of the next cycle is masked,
    the failure of that next cycle is printed under the number of cycle
    [i], the last number that was converted. *)
Theorem masked_cycle_is_reported_under_previous_number file ds first rest i good bad st :
  CYCLE_NUMBER ds = first :: rest →
  masked first = false →
  CYCLE_NUMBER ds !! i = Some good →
  masked good = false →
  CYCLE_NUMBER ds !! S i = Some bad →
  masked bad = true →
  ∃ st', process_nc_file db_accepts file (Some ds) st = (inr tt, st') ∧
         LogCycleError (value good) file MaskError ∈ log st'.
Proof.
  intros Hcyc Hfirst Hgood Hg Hbad Hb.
  assert (convert_cycle ds i = inr (value good)) as Hci.
  { unfold convert_cycle, index. rewrite Hgood. cbn. unfold int_of_cell. by rewrite Hg. }
  assert (convert_cycle ds (S i) = inl MaskError) as HcSi.
  { unfold convert_cycle, index. rewrite Hbad. cbn. unfold int_of_cell. by rewrite Hb. }
  assert (convert_cycle ds 0 = inr (value first)) as Hc0.
  { unfold convert_cycle, index. rewrite Hcyc. cbn. unfold int_of_cell. by rewrite Hfirst. }
  apply lookup_lt_Some in Hbad.
  assert (∃ m, length (CYCLE_NUMBER ds) = (i + S (S m))%nat) as [m Hlen].
  { exists (length (CYCLE_NUMBER ds) - i - 2)%nat. lia. }
  unfold process_nc_file. run_eff. rewrite Hlen.
  destruct i as [|i].
  - destruct (cycle_loop_misreport file ds 0 (value good) (seq 2 m) [] None st Hci HcSi)
      as (st' & Hrun & Hin); [by right|].
    cbn [Nat.add seq app] in *. rewrite Hrun. by exists st'.
  - cbn [Nat.add seq cycle_loop]. run_eff.
    destruct (cycle_step_converted file ds None 0 (value first) st Hc0)
      as (st1 & lg1 & -> & _).
    rewrite seq_app. cbn [seq].
    destruct (cycle_loop_misreport file ds (S i) (value good) (seq (S (S (S i))) m)
                (seq 1 i) (Some (value first)) st1 Hci HcSi)
      as (st' & Hrun & Hin); [by left|].
    cbn [Nat.add] in *. rewrite Hrun. by exists st'.
Qed.

End Runs.

Lemma unreadable_file_is_skipped_witness :
  let before := [("R2902746_001.nc", Some sample_dataset)] in
  let after := [("R2902746_002.nc", Some masked_first_dataset)] in
  pending (db empty_state) = [] ∧
  process_nc_file (λ _, true) "broken.nc" None empty_state
    = (inr tt, State (db empty_state) (log empty_state ++ [LogFatal "broken.nc" OSError])) ∧
  (process_folder (λ _, true) (before ++ ("broken.nc", None) :: after) empty_state).1
    = inr tt ∧
  db (process_folder (λ _, true) (before ++ ("broken.nc", None) :: after) empty_state).2
    = db (process_folder (λ _, true) (before ++ after) empty_state).2.
Proof.
  split; [reflexivity|].
  apply (unreadable_file_is_skipped (λ _, true)
           [("R2902746_001.nc", Some sample_dataset)] "broken.nc"
           [("R2902746_002.nc", Some masked_first_dataset)] empty_state).
  reflexivity.
Defined.

Lemma run_only_appends_witness :
  pending (db empty_state) = [] ∧
  let st' := (process_folder (λ _, true) sample_folder empty_state).2 in
  pending (db st') = [] ∧
  table (db empty_state) `prefix_of` table (db st') ∧
  next_id (db st')
    = next_id (db empty_state)
      + Z.of_nat (length (table (db st')) - length (table (db empty_state))) ∧
  log empty_state `prefix_of` log st'.
Proof.
  split; [reflexivity|].
  apply (run_only_appends (λ _, true) sample_folder empty_state). reflexivity.
Defined.

Lemma bound_first_cycle_runs_all_cycles_witness :
  (CYCLE_NUMBER late_masked_dataset = Cell 1 false :: [Cell 99999 true; Cell 3 false] ∧
   masked (Cell 1 false) = false ∧
   pending (db empty_state) = []) ∧
  length (all_cycle_rows (λ _, true) late_masked_dataset) = 2%nat ∧
  ∃ st' lg,
    process_nc_file (λ _, true) "R2902746_003.nc" (Some late_masked_dataset) empty_state
      = (inr tt, st') ∧
    db st' = append_rows (all_cycle_rows (λ _, true) late_masked_dataset) (db empty_state) ∧
    log st' = log empty_state ++ lg ∧
    forallb (λ e, negb (is_fatal e)) lg = true.
Proof.
  split; [repeat split|]. split; [reflexivity|].
  apply (bound_first_cycle_runs_all_cycles (λ _, true) "R2902746_003.nc"
           late_masked_dataset (Cell 1 false) [Cell 99999 true; Cell 3 false] empty_state);
    reflexivity.
Defined.

Lemma masked_cycle_is_reported_under_previous_number_witness :
  (CYCLE_NUMBER late_masked_dataset = Cell 1 false :: [Cell 99999 true; Cell 3 false] ∧
   masked (Cell 1 false) = false ∧
   CYCLE_NUMBER late_masked_dataset !! 0%nat = Some (Cell 1 false) ∧
   CYCLE_NUMBER late_masked_dataset !! 1%nat = Some (Cell 99999 true) ∧
   masked (Cell 99999 true) = true) ∧
  ∃ st',
    process_nc_file (λ _, true) "R2902746_003.nc" (Some late_masked_dataset) empty_state
      = (inr tt, st') ∧
    LogCycleError 1 "R2902746_003.nc" MaskError ∈ log st'.
Proof.
  split; [repeat split|].
  apply (masked_cycle_is_reported_under_previous_number (λ _, true) "R2902746_003.nc"
           late_masked_dataset (Cell 1 false) [Cell 99999 true; Cell 3 false] 0%nat
           (Cell 1 false) (Cell 99999 true) empty_state);
    reflexivity.
Defined.

Lemma stored_float_id_has_no_null_byte_witness :
  let row := Row 1 sample_params in
  (pending (db empty_state) = [] ∧
   row ∈ table (db (process_folder (λ _, true) sample_folder empty_state).2)) ∧
  (row ∈ table (db empty_state) ∨
   (∃ name ds, (name, Some ds) ∈ sample_folder
               ∧ float_id (row_data row) = get_float_id ds) ∧
   Py.str_mem Py.NUL (float_id (row_data row)) = false).
Proof.
  assert (Row 1 sample_params
            ∈ table (db (process_folder (λ _, true) sample_folder empty_state).2)) as Hin
    by (vm_compute; apply list_elem_of_here).
  split; [split; [reflexivity|exact Hin]|].
  exact (stored_float_id_has_no_null_byte (λ _, true) sample_folder empty_state
           (Row 1 sample_params) eq_refl Hin).
Defined.

End IngestorExtra.

(* ===================================================================== *)
(** * Properties of the summarisation pipeline *)
(* ===================================================================== *)

Module PipelineProps.
Import Json Pipeline PipelineSamples.

Section Props.

Context {World Row : Type}.
Variable row_to_json : Row → string.
Variable prompt_head prompt_tail : string.
Variable count_records : string → World → (exn + Z) * World.
Variable read_page : string → Z → Z → World → (exn + list Row) * World.
Variable generate_content : string → World → (exn + string) * World.
Variable json_loads : string → string + json.
Variable index_documents : list json → list Row → World → (exn + Z) * World.

Local Abbreviation Eff := (M (state World) exn).
Local Abbreviation summarize_row :=
  (summarize_row World Row row_to_json prompt_head prompt_tail generate_content json_loads).
Local Abbreviation summarize_rows :=
  (summarize_rows World Row row_to_json prompt_head prompt_tail generate_content json_loads).
Local Abbreviation fetch_process_and_index_data :=
  (fetch_process_and_index_data World Row row_to_json prompt_head prompt_tail
     read_page generate_content json_loads index_documents).
Local Abbreviation page_loop :=
  (page_loop World Row row_to_json prompt_head prompt_tail
     read_page generate_content json_loads index_documents).
Local Abbreviation driver :=
  (driver World Row row_to_json prompt_head prompt_tail
     read_page generate_content json_loads index_documents).
Local Abbreviation quiet := (@Pipeline.quiet World _).

(** ** Computations that leave the checkpoint alone *)

Lemma attempted_app l1 l2 : attempted (l1 ++ l2) = attempted l1 ++ attempted l2.
Proof. apply omap_app. Qed.

Lemma completed_app l1 l2 : completed (l1 ++ l2) = completed l1 ++ completed l2.
Proof. apply omap_app. Qed.

Lemma quiet_ret {A} (x : A) : quiet (mret x).
Proof.
  intros st r st' [= <- <-]. split; [done|]. exists []. by rewrite app_nil_r.
Qed.

Lemma quiet_raise {A} e : quiet (raise e : Eff A).
Proof.
  intros st r st' [= <- <-]. split; [done|]. exists []. by rewrite app_nil_r.
Qed.

Lemma quiet_lift {A} (x : exn + A) : quiet (lift x).
Proof.
  intros st r st' [= <- <-]. split; [done|]. exists []. by rewrite app_nil_r.
Qed.

Lemma quiet_get : quiet (get_state : Eff _).
Proof.
  intros st r st' [= <- <-]. split; [done|]. exists []. by rewrite app_nil_r.
Qed.

Lemma quiet_call {A} (f : World → (exn + A) * World) : quiet (call World f).
Proof.
  intros st r st'. unfold call. destruct (f (world st)) as [r0 w].
  intros [= <- <-]. split; [done|]. exists []. by rewrite app_nil_r.
Qed.

Lemma quiet_print e :
  attempted [e] = [] → completed [e] = [] → quiet (print World e).
Proof.
  intros Ha Hc st r st' [= <- <-]. split; [done|]. by exists [e].
Qed.

Lemma quiet_bind {A B} (m : Eff A) (f : A → Eff B) :
  quiet m → (∀ x, quiet (f x)) → quiet (m ≫= f).
Proof.
  intros Hm Hf st r st'. run_eff.
  destruct (m st) as [[e|x] st1] eqn:Hst.
  - intros [= <- <-]. by apply (Hm _ _ _ Hst).
  - intros Hfx. destruct (Hm _ _ _ Hst) as (Hp1 & lg1 & Hl1 & Ha1 & Hc1).
    destruct (Hf x _ _ _ Hfx) as (Hp2 & lg2 & Hl2 & Ha2 & Hc2).
    split; [congruence|]. exists (lg1 ++ lg2).
    rewrite Hl2, Hl1, attempted_app, completed_app, Ha1, Ha2, Hc1, Hc2.
    by rewrite app_assoc.
Qed.

Lemma quiet_try {A} (m : Eff A) (h : exn → Eff A) :
  quiet m → (∀ e, quiet (h e)) → quiet (try_catch m h).
Proof.
  intros Hm Hh st r st'. run_eff.
  destruct (m st) as [[e|x] st1] eqn:Hst.
  - intros Hhe. destruct (Hm _ _ _ Hst) as (Hp1 & lg1 & Hl1 & Ha1 & Hc1).
    destruct (Hh e _ _ _ Hhe) as (Hp2 & lg2 & Hl2 & Ha2 & Hc2).
    split; [congruence|]. exists (lg1 ++ lg2).
    rewrite Hl2, Hl1, attempted_app, completed_app, Ha1, Ha2, Hc1, Hc2.
    by rewrite app_assoc.
  - intros [= <- <-]. by apply (Hm _ _ _ Hst).
Qed.

Lemma quiet_summarize_row index row : quiet (summarize_row index row).
Proof.
  apply quiet_try.
  - apply quiet_bind; [apply quiet_call|]. intros text.
    apply quiet_bind; [apply quiet_lift|]. intros out. apply quiet_lift.
  - intros e. apply quiet_bind; [by apply quiet_print|]. intros _. apply quiet_ret.
Qed.

Lemma quiet_summarize_rows rows : ∀ index, quiet (summarize_rows index rows).
Proof.
  induction rows as [|row rows IH]; intros index; [apply quiet_ret|].
  apply quiet_bind; [apply quiet_summarize_row|]. intros summary.
  apply quiet_bind; [apply IH|]. intros summaries. apply quiet_ret.
Qed.

(** Processing a page prints its start once and never touches the
    checkpoint. *)
Lemma fetch_process_and_index_data_frame table_name batch_size page st r st' :
  fetch_process_and_index_data table_name batch_size page st = (r, st') →
  progress_file st' = progress_file st ∧
  ∃ lg, log st' = log st ++ lg ∧ attempted lg = [page] ∧ completed lg = [].
Proof.
  unfold Pipeline.fetch_process_and_index_data.
  set (rest := mbind _ (try_catch _ _)).
  assert (quiet rest) as Hq.
  { apply quiet_bind.
    - apply quiet_try.
      + apply quiet_bind; [apply quiet_call|]. intros df.
        apply quiet_bind; [by apply quiet_print|]. intros _.
        apply quiet_bind; [|intros _; apply quiet_ret].
        case_decide; [by apply quiet_print|apply quiet_ret].
      + intros e. apply quiet_bind; [by apply quiet_print|]. intros _. apply quiet_raise.
    - intros df. case_decide; [apply quiet_ret|].
      apply quiet_bind; [by apply quiet_print|]. intros _.
      apply quiet_bind; [apply quiet_summarize_rows|]. intros summaries.
      apply quiet_bind; [by apply quiet_print|]. intros _.
      apply quiet_bind; [apply quiet_call|]. intros count. by apply quiet_print. }
  unfold mbind at 1, M_bind at 1, print at 1, modify. cbn beta iota.
  intros Hrest. destruct (Hq _ _ _ Hrest) as (Hp & lg & Hl & Ha & Hc). simpl in *.
  split; [done|]. eexists (_ :: lg). rewrite Hl, <- app_assoc. simpl.
  by rewrite Ha, Hc.
Qed.

(** ** Ranges of pages *)

Lemma range_nil a b : b ≤ a → range a b = [].
Proof. intros H. unfold range. by replace (Z.to_nat (b - a)) with 0%nat by lia. Qed.

Lemma range_cons a b : a < b → range a b = a :: range (a + 1) b.
Proof.
  intros H. unfold range.
  replace (Z.to_nat (b - a)) with (S (Z.to_nat (b - (a + 1)))) by lia.
  cbn [seq fmap list_fmap]. f_equal; [lia|].
  rewrite <- seq_shift, <- list_fmap_compose.
  apply list_fmap_ext. intros _ k _. simpl. lia.
Qed.

Lemma range_snoc a b : a ≤ b → range a (b + 1) = range a b ++ [b].
Proof.
  intros H. unfold range.
  replace (Z.to_nat (b + 1 - a)) with (S (Z.to_nat (b - a))) by lia.
  rewrite seq_S, fmap_app. simpl. do 2 f_equal. lia.
Qed.

Lemma range_split a b done K rest :
  range a b = done ++ K :: rest → done = range a K ∧ a ≤ K < b.
Proof.
  revert a. induction done as [|d done IH]; intros a Hr.
  - destruct (decide (a < b)) as [Hab|Hab].
    + rewrite (range_cons _ _ Hab) in Hr. injection Hr as -> _.
      split; [|lia]. by rewrite range_nil by lia.
    + by rewrite range_nil in Hr by lia.
  - destruct (decide (a < b)) as [Hab|Hab].
    + rewrite (range_cons _ _ Hab) in Hr. injection Hr as <- Hr.
      apply IH in Hr as [-> ?]. split; [|lia]. by rewrite (range_cons a K) by lia.
    + by rewrite range_nil in Hr by lia.
Qed.

Lemma last_range a b : a < b → last (range a b) = Some (b - 1).
Proof.
  intros H. replace b with ((b - 1) + 1) at 1 by lia.
  rewrite range_snoc by lia. apply last_snoc.
Qed.

(** ** The checkpoint *)

Lemma start_page_of_str_int n : start_page_of (Some (Py.str_int n)) = n + 1.
Proof. unfold start_page_of. by rewrite PyFacts.int_strip_str_int. Qed.

Lemma checkpoint_value_str_int n : checkpoint_value (Some (Py.str_int n)) = Some n.
Proof. unfold checkpoint_value; simpl. apply PyFacts.int_strip_str_int. Qed.

Lemma start_page_of_checkpoint file n :
  checkpoint_value file = Some n → start_page_of file = n + 1.
Proof.
  unfold checkpoint_value, start_page_of. destruct file as [content|]; simpl; [|done].
  by intros ->.
Qed.

Lemma get_start_page_spec st :
  ∃ lg,
    get_start_page World st
    = (inr (start_page_of (progress_file st)),
       State (world st) (progress_file st) (log st ++ lg))
    ∧ attempted lg = [] ∧ completed lg = [].
Proof.
  unfold get_start_page, start_page_of. run_eff.
  destruct (progress_file st) as [content|] eqn:Hf.
  - destruct (Py.int (Py.strip content)) as [n|].
    + exists [LogResuming (n + 1)]. unfold print. run_eff. by rewrite Hf.
    + exists []. rewrite app_nil_r, <- Hf. by destruct st.
  - exists []. rewrite app_nil_r, <- Hf. by destruct st.
Qed.

(** The loop over the pages: the pages completed form a prefix of the
    pages given, the checkpoint holds the last of them, and the loop either
    exhausts the pages or breaks at the page that follows the prefix. *)
Lemma page_loop_spec pages : ∀ st,
  ∃ exit st' lg done,
    page_loop pages st = (inr exit, st') ∧
    log st' = log st ++ lg ∧
    completed lg = done ∧
    progress_file st'
      = default (progress_file st) ((λ p, Some (Py.str_int p)) <$> last done) ∧
    ((exit = Exhausted ∧ pages = done ∧ attempted lg = done) ∨
     (∃ K rest, exit = Break K ∧ pages = done ++ K :: rest ∧
                attempted lg = done ++ [K])).
Proof.
  induction pages as [|page pages IH]; intros st.
  - exists Exhausted, st, [], []. rewrite app_nil_r. repeat split; try done. by left.
  - cbn [Pipeline.page_loop]. run_eff.
    destruct (fetch_process_and_index_data TABLE_TO_PROCESS BATCH_SIZE page st)
      as [[e|[]] st1] eqn:Hfetch;
      destruct (fetch_process_and_index_data_frame _ _ _ _ _ _ Hfetch)
        as (Hp1 & lg1 & Hl1 & Ha1 & Hc1).
    + eexists (Break page), _, (lg1 ++ [LogCriticalError page e; LogStopping]), [].
      unfold print. run_eff. simpl.
      split; [done|]. split; [by rewrite Hl1, <- !app_assoc|].
      split; [by rewrite completed_app, Hc1|]. split; [done|].
      right. exists page, pages. by rewrite attempted_app, Ha1.
    + unfold log_completed_page, print. run_eff. simpl.
      set (st2 := State _ _ _).
      destruct (IH st2) as (exit & st' & lg & done & -> & Hl & Hc & Hp & Hexit).
      exists exit, st', (lg1 ++ [LogCompleted page] ++ lg), (page :: done).
      split; [done|]. split; [rewrite Hl; simpl; by rewrite Hl1, <- !app_assoc|].
      split; [rewrite !completed_app, Hc1, Hc; done|].
      split.
      { rewrite Hp. simpl. destruct done as [|d done]; [done|].
        rewrite last_cons_cons.
        destruct (proj2 (last_is_Some (d :: done))) as [x ->]; done. }
      destruct Hexit as [(-> & -> & Ha)|(K & rest & -> & -> & Ha)].
      * left. rewrite !attempted_app, Ha1, Ha. done.
      * right. exists K, rest. rewrite !attempted_app, Ha1, Ha. done.
Qed.

(** ** The loop over the rows of a page *)

Lemma summarize_row_total index row st :
  ∃ summary st', summarize_row index row st = (inr summary, st').
Proof.
  unfold Pipeline.summarize_row, call, print. run_eff.
  destruct (generate_content _ (world st)) as [[e|text] w]; [by eauto|].
  unfold parse_json. destruct (json_loads _) as [msg|out]; [by eauto|].
  destruct (dict_get out _ _); by eauto.
Qed.

Lemma summarize_rows_total rows : ∀ index st,
  ∃ summaries st',
    summarize_rows index rows st = (inr summaries, st') ∧
    length summaries = length rows.
Proof.
  induction rows as [|row rows IH]; intros index st.
  - by exists [], st.
  - cbn [Pipeline.summarize_rows]. run_eff.
    destruct (summarize_row_total index row st) as (summary & st1 & ->).
    destruct (IH (index + 1) st1) as (summaries & st' & -> & Hlen).
    exists (summary :: summaries), st'. simpl. by rewrite Hlen.
Qed.

End Props.

(** C2 (as amended).  A run of the driver always ends normally.  The pages
    it completes are consecutive from the start page read from the
    checkpoint.  If the loop exhausts the pages, the checkpoint holds exactly
    the last page.  If page K raises, no later page is attempted and the
    checkpoint is left as page K found it: it holds exactly K-1 when page K-1
    was completed in this run, and is unchanged (possibly absent or
    unreadable) when K is the first page of the run; it holds the integer K-1
    whenever K-1 was completed in this run or the run started from a readable
    checkpoint.  In both cases a later run starts at page K. *)
Theorem checkpoint_after_run {World Row : Type}
    (row_to_json : Row → string) (prompt_head prompt_tail : string)
    (read_page : string → Z → Z → World → (exn + list Row) * World)
    (generate_content : string → World → (exn + string) * World)
    (json_loads : string → string + json)
    (index_documents : list json → list Row → World → (exn + Z) * World)
    (total_records : Z) (st : state World) :
  let start := start_page_of (progress_file st) in
  let total := ceil_div total_records BATCH_SIZE in
  ∃ exit st' lg,
    driver World Row row_to_json prompt_head prompt_tail read_page generate_content
           json_loads index_documents total_records st = (inr exit, st') ∧
    log st' = log st ++ lg ∧
    match exit with
    | Exhausted =>
        completed lg = range start (total + 1) ∧
        attempted lg = range start (total + 1) ∧
        (start ≤ total → progress_file st' = Some (Py.str_int total)) ∧
        (total < start → progress_file st' = progress_file st)
    | Break K =>
        start ≤ K ≤ total ∧
        completed lg = range start K ∧
        attempted lg = range start (K + 1) ∧
        (start < K → progress_file st' = Some (Py.str_int (K - 1))) ∧
        (K = start → progress_file st' = progress_file st) ∧
        (start < K ∨ is_Some (checkpoint_value (progress_file st)) →
           checkpoint_value (progress_file st') = Some (K - 1)) ∧
        start_page_of (progress_file st') = K
    end.
Proof.
  intros start total. unfold driver. run_eff. fold total.
  destruct (get_start_page_spec st) as (lg0 & -> & Ha0 & Hc0). fold start.
  unfold print at 1. run_eff. cbn [world progress_file log].
  set (st1 := State _ _ _).
  destruct (page_loop_spec row_to_json prompt_head prompt_tail read_page generate_content
              json_loads index_documents (range start (total + 1)) st1)
    as (exit & st2 & lg & done & -> & Hl & Hc & Hp & Hexit).
  destruct (get_start_page_spec st2) as (lg3 & -> & Ha3 & Hc3).
  set (tail := if decide (start_page_of (progress_file st2) > total)
               then [LogAllProcessed] else []).
  assert (attempted tail = [] ∧ completed tail = []) as [Hat Hct]
    by (unfold tail; by case_decide).
  exists exit.
  eexists (State (world st2) (progress_file st2) (log st2 ++ lg3 ++ tail)),
          (lg0 ++ [LogFound total_records start total] ++ lg ++ lg3 ++ tail).
  split.
  { unfold tail. case_decide; unfold print; run_eff; cbn [world progress_file log].
    - by rewrite <- app_assoc.
    - by rewrite !app_nil_r. }
  split.
  { cbn [log]. rewrite Hl. unfold st1; cbn [log]. by rewrite <- !app_assoc. }
  cbn [progress_file]. rewrite Hp.
  change (progress_file st1) with (progress_file st).
  rewrite !completed_app, !attempted_app, Hc0, Ha0, Hc3, Ha3, Hat, Hct, Hc.
  change (attempted [LogFound total_records start total]) with (@nil Z).
  change (completed [LogFound total_records start total]) with (@nil Z).
  cbn [app]. rewrite !app_nil_r.
  destruct Hexit as [(-> & Hpages & Ha)|(K & rest & -> & Hpages & Ha)].
  - rewrite Ha, <- Hpages. repeat split.
    + intros Hle. rewrite last_range by lia. simpl. do 2 f_equal. lia.
    + intros Hlt. by rewrite range_nil by lia.
  - apply range_split in Hpages as [-> Hrange]. rewrite Ha.
    assert (start < K → default (progress_file st)
              ((λ p, Some (Py.str_int p)) <$> last (range start K))
            = Some (Py.str_int (K - 1))) as Hlast
      by (intros ?; by rewrite last_range by lia).
    assert (K = start → default (progress_file st)
              ((λ p, Some (Py.str_int p)) <$> last (range start K))
            = progress_file st) as Hsame
      by (intros ->; by rewrite range_nil by lia).
    repeat split; try lia; try done.
    + by rewrite range_snoc by lia.
    + intros Hcase. destruct (decide (start < K)) as [Hlt|Hge].
      * rewrite (Hlast Hlt). apply checkpoint_value_str_int.
      * destruct Hcase as [?|[n Hn]]; [lia|].
        assert (K = start) as HK by lia. rewrite (Hsame HK), Hn.
        apply start_page_of_checkpoint in Hn. f_equal. fold start in Hn. lia.
    + destruct (decide (start < K)) as [Hlt|Hge].
      * rewrite (Hlast Hlt), start_page_of_str_int. lia.
      * assert (K = start) as HK by lia. by rewrite (Hsame HK), HK.
Qed.

(** C7 (as amended).  The loop over the rows of a page always runs to its
    end and yields one entry per row, whatever the language model replies.
    For a row whose reply, once the code fences are removed, fails to parse
    as JSON, the entry is the placeholder [Documentation failed for record
    <index>.] and one warning is printed.  For a row whose reply parses to an
    object without a [summary] field, the entry is the placeholder [Summary
    not available.] and nothing is printed. *)
Theorem summarize_row_failures {World Row : Type}
    (row_to_json : Row → string) (prompt_head prompt_tail : string)
    (generate_content : string → World → (exn + string) * World)
    (json_loads : string → string + json) :
  (∀ rows index st,
     ∃ summaries st',
       summarize_rows World Row row_to_json prompt_head prompt_tail generate_content
                      json_loads index rows st = (inr summaries, st') ∧
       length summaries = length rows) ∧
  (∀ index row st text w',
     generate_content (get_gemini_prompt prompt_head prompt_tail (row_to_json row)) (world st)
       = (inr text, w') →
     let cleaned := Py.replace "```" "" (Py.replace "```json" "" (Py.strip text)) in
     (∀ msg, json_loads cleaned = inl msg →
        summarize_row World Row row_to_json prompt_head prompt_tail generate_content
                      json_loads index row st
        = (inr (JStr ("Documentation failed for record " +:+ Py.str_int index +:+ ".")),
           State w' (progress_file st)
                 (log st ++ [LogWarning index (JSONDecodeError msg)]))) ∧
     (∀ fields, json_loads cleaned = inr (JObj fields) →
        assoc "summary" fields = None →
        summarize_row World Row row_to_json prompt_head prompt_tail generate_content
                      json_loads index row st
        = (inr (JStr "Summary not available."),
           State w' (progress_file st) (log st)))).
Proof.
  split; [intros rows index st; apply summarize_rows_total|].
  intros index row st text w' Hreply cleaned. split.
  - intros msg Hmsg. unfold summarize_row, call, print, parse_json. run_eff.
    rewrite Hreply. fold cleaned. by rewrite Hmsg.
  - intros fields Hobj Hnone. unfold summarize_row, call, print, parse_json. run_eff.
    rewrite Hreply. fold cleaned. rewrite Hobj. simpl. by rewrite Hnone.
Qed.

Lemma summarize_row_failures_witness :
  summarize_row nat Z Py.str_int "<" ">" scripted_generate_content loads_scripted
                0 8 (State 0%nat None [])
  = (inr (JStr "Documentation failed for record 0."),
     State 1%nat None
           [LogWarning 0 (JSONDecodeError "Expecting value: line 1 column 1 (char 0)")]) ∧
  summarize_row nat Z Py.str_int "<" ">" scripted_generate_content loads_scripted
                1 7 (State 0%nat None [])
  = (inr (JStr "Summary not available."), State 1%nat None []).
Proof.
  pose proof (summarize_row_failures Py.str_int "<" ">" scripted_generate_content
                loads_scripted) as [_ Hrow].
  split.
  - exact (proj1 (Hrow 0 8 (State 0%nat None []) "I cannot help with that." 1%nat eq_refl)
                 "Expecting value: line 1 column 1 (char 0)" eq_refl).
  - exact (proj2 (Hrow 1 7 (State 0%nat None []) "```json{}```" 1%nat eq_refl)
                 [] eq_refl eq_refl).
Defined.

(** C7 as stated fails for a reply that lacks the summary field: the
    placeholder is recorded, but no error is logged. *)
Lemma missing_summary_counterexample :
  let st := State 0%nat None [] in
  let run := summarize_row nat Z Py.str_int "<" ">" scripted_generate_content
               loads_scripted 1 7 st in
  loads_scripted (Py.replace "```" "" (Py.replace "```json" "" (Py.strip "```json{}```")))
    = inr (JObj []) ∧
  assoc "summary" [] = None ∧
  run.1 = inr (JStr "Summary not available.") ∧
  log run.2 = log st ∧
  warnings (log run.2) = [].
Proof. by vm_compute. Qed.

(** C2 as stated fails when page 1 raises on a first run: there is no
    progress file before the run and none after it, so the checkpoint does
    not contain 0. *)
Lemma first_page_failure_counterexample :
  let run := driver unit Z Py.str_int "" "" unreachable_read_page echo_generate_content
               loads_empty_object count_index_documents 250 (State () None []) in
  run.1 = inr (Break 1) ∧
  progress_file run.2 = None ∧
  checkpoint_value (progress_file run.2) ≠ Some (1 - 1).
Proof. by vm_compute. Qed.

(** The first run completes pages 1 and 2, breaks at page 3 and leaves 2 in
    the progress file; the second run starts at page 3 and leaves 5. *)
Example resume_after_failure :
  let run1 := driver unit Z Py.str_int "" "" flaky_read_page echo_generate_content
                loads_empty_object count_index_documents 450 (State () None []) in
  let run2 := driver unit Z Py.str_int "" "" healthy_read_page echo_generate_content
                loads_empty_object count_index_documents 450
                (State () (progress_file run1.2) []) in
  run1.1 = inr (Break 3) ∧
  attempted (log run1.2) = [1; 2; 3] ∧
  completed (log run1.2) = [1; 2] ∧
  progress_file run1.2 = Some "2" ∧
  run2.1 = inr Exhausted ∧
  attempted (log run2.2) = [3; 4; 5] ∧
  progress_file run2.2 = Some "5".
Proof. by vm_compute. Qed.

End PipelineProps.

(* ===================================================================== *)
(** * Further properties of the summarisation pipeline *)
(* ===================================================================== *)

Module PipelineExtra.
Import Json Pipeline PipelineSamples.

Section Props.

Context {World Row : Type}.
Variable row_to_json : Row → string.
Variable prompt_head prompt_tail : string.
Variable count_records : string → World → (exn + Z) * World.
Variable read_page : string → Z → Z → World → (exn + list Row) * World.
Variable generate_content : string → World → (exn + string) * World.
Variable json_loads : string → string + json.
Variable index_documents : list json → list Row → World → (exn + Z) * World.

Local Abbreviation summarize_row :=
  (summarize_row World Row row_to_json prompt_head prompt_tail generate_content json_loads).
Local Abbreviation summarize_rows :=
  (summarize_rows World Row row_to_json prompt_head prompt_tail generate_content json_loads).
Local Abbreviation fetch_process_and_index_data :=
  (fetch_process_and_index_data World Row row_to_json prompt_head prompt_tail
     read_page generate_content json_loads index_documents).
Local Abbreviation page_loop :=
  (page_loop World Row row_to_json prompt_head prompt_tail
     read_page generate_content json_loads index_documents).
Local Abbreviation driver :=
  (driver World Row row_to_json prompt_head prompt_tail
     read_page generate_content json_loads index_documents).
Local Abbreviation main :=
  (main World Row row_to_json prompt_head prompt_tail count_records
     read_page generate_content json_loads index_documents).

(** X6.  What [log_completed_page] writes, [get_start_page] reads back as
    the next page, for every page number; and it still does so when the
    number in the file is surrounded by whitespace, such as a final line
    feed. *)
Theorem checkpoint_round_trip (n : Z) (st : state World) ws ws' :
  Py.all_space ws → Py.all_space ws' →
  progress_file (log_completed_page World n st).2 = Some (Py.str_int n) ∧
  (get_start_page World (log_completed_page World n st).2).1 = inr (n + 1) ∧
  (get_start_page World
     (State (world st) (Some (ws +:+ Py.str_int n +:+ ws')) (log st))).1 = inr (n + 1).
Proof.
  intros Hws Hws'. split; [done|]. split.
  - destruct (PipelineProps.get_start_page_spec (log_completed_page World n st).2)
      as (lg & -> & _).
    cbn [fst]. unfold log_completed_page, modify. cbn [snd progress_file].
    by rewrite PipelineProps.start_page_of_str_int.
  - destruct (PipelineProps.get_start_page_spec
                (State (world st) (Some (ws +:+ Py.str_int n +:+ ws')) (log st)))
      as (lg & -> & _).
    cbn [fst progress_file]. unfold start_page_of.
    by rewrite PyFacts.int_strip_padded.
Qed.

(** X7.  A page for which the database returns no row is not summarised
    and not indexed: neither the language model nor the vector store is
    called.  The driver nevertheless records the page as completed and goes
    on with the next one. *)
Theorem empty_page_is_completed page rest (st : state World) w' :
  read_page TABLE_TO_PROCESS BATCH_SIZE ((page - 1) * BATCH_SIZE) (world st) = (inr [], w') →
  let entries :=
    [LogStarting page ((page - 1) * BATCH_SIZE + 1) (page * BATCH_SIZE);
     LogFetched 0; LogNoMoreRecords] in
  fetch_process_and_index_data TABLE_TO_PROCESS BATCH_SIZE page st
    = (inr tt, State w' (progress_file st) (log st ++ entries)) ∧
  page_loop (page :: rest) st
    = page_loop rest
        (State w' (Some (Py.str_int page)) (log st ++ entries ++ [LogCompleted page])).
Proof.
  intros Hread entries.
  assert (fetch_process_and_index_data TABLE_TO_PROCESS BATCH_SIZE page st
          = (inr tt, State w' (progress_file st) (log st ++ entries))) as Hfetch.
  { unfold Pipeline.fetch_process_and_index_data, call, print. run_eff.
    cbn [world progress_file log]. rewrite Hread. cbn [length].
    rewrite !decide_True by done. cbn.
    by rewrite <- !app_assoc. }
  split; [done|].
  cbn [Pipeline.page_loop]. run_eff. rewrite Hfetch.
  unfold log_completed_page, print. run_eff. cbn [world progress_file log].
  by rewrite <- !app_assoc.
Qed.

(** X22.  When the query for a page fails, the error is printed by
    [fetch_process_and_index_data] and raised again, and the driver stops at
    that page: it prints the error a second time, writes no checkpoint and
    starts none of the remaining pages; neither the language model nor the
    vector store is called. *)
Theorem fetch_failure_stops_run page rest (st : state World) e w' :
  read_page TABLE_TO_PROCESS BATCH_SIZE ((page - 1) * BATCH_SIZE) (world st) = (inl e, w') →
  let starting := LogStarting page ((page - 1) * BATCH_SIZE + 1) (page * BATCH_SIZE) in
  fetch_process_and_index_data TABLE_TO_PROCESS BATCH_SIZE page st
    = (inl e, State w' (progress_file st) (log st ++ [starting; LogFetchError e])) ∧
  page_loop (page :: rest) st
    = (inr (Break page),
       State w' (progress_file st)
             (log st ++ [starting; LogFetchError e; LogCriticalError page e; LogStopping])).
Proof.
  intros Hread starting.
  assert (fetch_process_and_index_data TABLE_TO_PROCESS BATCH_SIZE page st
          = (inl e, State w' (progress_file st) (log st ++ [starting; LogFetchError e])))
    as Hfetch.
  { unfold Pipeline.fetch_process_and_index_data, call, print. run_eff.
    cbn [world progress_file log]. rewrite Hread. cbn.
    by rewrite <- !app_assoc. }
  split; [done|].
  cbn [Pipeline.page_loop]. run_eff. rewrite Hfetch.
  unfold print. run_eff. cbn [world progress_file log].
  by rewrite <- !app_assoc.
Qed.

(** X23.  A page with rows gives the vector store one summary per row, in
    one call made after every row has been summarised.  The checkpoint is
    written only after that call has returned: if it raises, the driver
    stops at the page and the progress file is left as it was, although
    every summary had been produced. *)
Theorem page_is_indexed_before_checkpoint page rest (st : state World) rows w1 :
  read_page TABLE_TO_PROCESS BATCH_SIZE ((page - 1) * BATCH_SIZE) (world st)
    = (inr rows, w1) →
  rows ≠ [] →
  let st1 :=
    State w1 (progress_file st)
          (log st ++ [LogStarting page ((page - 1) * BATCH_SIZE + 1) (page * BATCH_SIZE);
                      LogFetched (length rows); LogGenerating]) in
  ∃ summaries st2,
    summarize_rows 0 rows st1 = (inr summaries, st2) ∧
    length summaries = length rows ∧
    progress_file st2 = progress_file st ∧
    (∀ count w3,
       index_documents summaries rows (world st2) = (inr count, w3) →
       page_loop (page :: rest) st
       = page_loop rest
           (State w3 (Some (Py.str_int page))
                  (log st2 ++ [LogIndexing; LogIndexed count; LogCompleted page]))) ∧
    (∀ e w3,
       index_documents summaries rows (world st2) = (inl e, w3) →
       page_loop (page :: rest) st
       = (inr (Break page),
          State w3 (progress_file st)
                (log st2 ++ [LogIndexing; LogCriticalError page e; LogStopping]))).
Proof.
  intros Hread Hrows st1.
  destruct (PipelineProps.summarize_rows_total row_to_json prompt_head prompt_tail
              generate_content json_loads rows 0 st1)
    as (summaries & st2 & Hsum & Hlen).
  destruct (PipelineProps.quiet_summarize_rows row_to_json prompt_head prompt_tail
              generate_content json_loads rows 0 _ _ _ Hsum) as [Hfile _].
  exists summaries, st2. split; [done|]. split; [done|]. split; [done|].
  assert (length rows ≠ 0%nat) as Hlen0 by (by destruct rows).
  assert (∀ r w3, index_documents summaries rows (world st2) = (r, w3) →
            fetch_process_and_index_data TABLE_TO_PROCESS BATCH_SIZE page st
            = (match r with
               | inl e => inl e
               | inr _ => inr tt
               end,
               State w3 (progress_file st)
                     (log st2 ++ LogIndexing
                        :: match r with
                           | inl _ => []
                           | inr count => [LogIndexed count]
                           end))) as Hfetch.
  { intros r w3 Hindex.
    unfold Pipeline.fetch_process_and_index_data, call, print. run_eff.
    cbn [world progress_file log]. rewrite Hread.
    rewrite !decide_False by done. cbn [world progress_file log].
    rewrite <- !app_assoc. cbn [app]. fold st1. rewrite Hsum.
    cbn [world progress_file log]. rewrite Hindex, Hfile.
    destruct r; cbn [world progress_file log]; by rewrite <- ?app_assoc. }
  split.
  - intros count w3 Hindex. cbn [Pipeline.page_loop]. run_eff.
    rewrite (Hfetch _ _ Hindex).
    unfold log_completed_page, print. run_eff. cbn [world progress_file log].
    by rewrite <- !app_assoc.
  - intros e w3 Hindex. cbn [Pipeline.page_loop]. run_eff.
    rewrite (Hfetch _ _ Hindex).
    unfold print. run_eff. cbn [world progress_file log].
    by rewrite <- !app_assoc.
Qed.

(** The text that [summarize_row] hands to the JSON parser. *)
Lemma fenced_reply_cleaned ws body ws' :
  Py.all_space ws → Py.all_space ws' →
  Py.str_mem "`" body = false →
  Py.replace "```" "" (Py.replace "```json" "" (Py.strip (ws +:+ fenced body +:+ ws')))
  = body.
Proof.
  intros Hws Hws' Hbody. unfold fenced.
  change ("```json" +:+ body +:+ "```") with (String "`" ("``json" +:+ body +:+ "```")).
  rewrite PyFacts.strip_padded; try done.
  - change (String "`" ("``json" +:+ body +:+ "```")) with ("```json" +:+ body +:+ "```").
    rewrite PyFacts.replace_head. cbn [append].
    rewrite (PyFacts.replace_prefix_without "```json" "" body "```") by done.
    change (Py.replace "```json" "" "```") with "```".
    rewrite PyFacts.append_empty_l.
    rewrite (PyFacts.replace_prefix_without "```" "" body "```") by done.
    change (Py.replace "```" "" "```") with "". apply PyFacts.append_empty_r.
  - change (String "`" ("``json" +:+ body +:+ "```"))
      with (("```json" +:+ body) +:+ "```").
    + by apply PyFacts.rstrip_app_end.
Qed.

(** X8.  A reply that is a JSON object wrapped in a Markdown code fence,
    with or without whitespace around it, is parsed without its fence: the
    value of its [summary] field is recorded for the row, whatever that
    value is, and nothing is printed. *)
Theorem fenced_reply_is_summarised index row (st : state World) ws body ws' w' fields v :
  Py.all_space ws → Py.all_space ws' →
  Py.str_mem "`" body = false →
  generate_content (get_gemini_prompt prompt_head prompt_tail (row_to_json row)) (world st)
    = (inr (ws +:+ fenced body +:+ ws'), w') →
  json_loads body = inr (JObj fields) →
  assoc "summary" fields = Some v →
  summarize_row index row st = (inr v, State w' (progress_file st) (log st)).
Proof.
  intros Hws Hws' Hbody Hreply Hparse Hv.
  unfold Pipeline.summarize_row, call, print, parse_json. run_eff.
  rewrite Hreply. cbn [world progress_file log].
  rewrite fenced_reply_cleaned by done. rewrite Hparse. cbn. by rewrite Hv.
Qed.

(** X9.  While the language model is out of order (every call raises), a
    page is still summarised: each row gets the placeholder that carries
    its position in the page, counted from the given index, one warning is
    printed per row, and the progress file is not touched. *)
Theorem model_outage_yields_placeholders rows :
  (∀ prompt w, ∃ e w', generate_content prompt w = (inl e, w')) →
  ∀ index (st : state World),
  ∃ st' lg,
    summarize_rows index rows st = (inr (placeholders index (length rows)), st') ∧
    progress_file st' = progress_file st ∧
    log st' = log st ++ lg ∧
    (warnings lg).*1 = (λ k, index + Z.of_nat k) <$> seq 0 (length rows).
Proof.
  intros Hdown. induction rows as [|row rows IH]; intros index st.
  - exists st, []. by rewrite app_nil_r.
  - cbn [Pipeline.summarize_rows]. run_eff.
    destruct (Hdown (get_gemini_prompt prompt_head prompt_tail (row_to_json row)) (world st))
      as (e & w' & Hcall).
    assert (summarize_row index row st
            = (inr (failure_placeholder index),
               State w' (progress_file st) (log st ++ [LogWarning index e]))) as ->.
    { unfold Pipeline.summarize_row, call, print. run_eff. by rewrite Hcall. }
    destruct (IH (index + 1) (State w' (progress_file st) (log st ++ [LogWarning index e])))
      as (st' & lg & -> & Hp & Hl & Hw).
    exists st', (LogWarning index e :: lg).
    split; [|split; [done|split]].
    + do 2 f_equal. unfold placeholders. cbn [length seq fmap list_fmap].
      f_equal; [by rewrite Z.add_0_r|].
      rewrite <- seq_shift, <- list_fmap_compose. apply list_fmap_ext.
      intros _ k _. unfold compose. f_equal. lia.
    + rewrite Hl. cbn [log]. by rewrite <- app_assoc.
    + change (warnings (LogWarning index e :: lg)) with ((index, e) :: warnings lg).
      cbn [length seq fmap list_fmap fst]. rewrite Hw. f_equal; [lia|].
      rewrite <- seq_shift, <- list_fmap_compose. apply list_fmap_ext.
      intros _ k _. unfold compose. lia.
Qed.

(** ** How a run ends *)

Lemma get_start_page_log (st : state World) :
  ∃ lg,
    get_start_page World st
    = (inr (start_page_of (progress_file st)),
       State (world st) (progress_file st) (log st ++ lg))
    ∧ (lg = [] ∨ ∃ p, lg = [LogResuming p]).
Proof.
  unfold get_start_page, start_page_of. run_eff.
  destruct (progress_file st) as [content|] eqn:Hf.
  - destruct (Py.int (Py.strip content)) as [n|].
    + exists [LogResuming (n + 1)]. unfold print. run_eff. rewrite Hf. eauto.
    + exists []. rewrite app_nil_r, <- Hf. split; [by destruct st|by left].
  - exists []. rewrite app_nil_r, <- Hf. split; [by destruct st|by left].
Qed.

Lemma page_loop_break_log pages : ∀ (st : state World) K st',
  page_loop pages st = (inr (Break K), st') → ∃ l, log st' = l ++ [LogStopping].
Proof.
  induction pages as [|page pages IH]; intros st K st'; [done|].
  cbn [Pipeline.page_loop]. run_eff.
  destruct (fetch_process_and_index_data TABLE_TO_PROCESS BATCH_SIZE page st)
    as [[e|[]] st1].
  - unfold print. run_eff. intros [= _ <-]. cbn [log].
    exists (log st1 ++ [LogCriticalError page e]). done.
  - unfold log_completed_page, print. run_eff. apply IH.
Qed.

(** The loop over the pages of a run, seen from the page the next run
    would start at. *)
Lemma page_loop_resume total (st : state World) :
  let start := start_page_of (progress_file st) in
  ∃ exit st',
    page_loop (range start (total + 1)) st = (inr exit, st') ∧
    match exit with
    | Exhausted => start_page_of (progress_file st') > total
    | Break K =>
        start_page_of (progress_file st') = K ∧ K ≤ total ∧
        ∃ l, log st' = l ++ [LogStopping]
    end.
Proof.
  intros start.
  destruct (PipelineProps.page_loop_spec row_to_json prompt_head prompt_tail read_page
              generate_content json_loads index_documents (range start (total + 1)) st)
    as (exit & st' & lg & done & Hrun & Hl & Hc & Hp & Hexit).
  exists exit, st'. split; [done|]. rewrite Hp.
  destruct Hexit as [(-> & Hpages & Ha)|(K & rest & -> & Hpages & Ha)].
  - rewrite <- Hpages. destruct (decide (start ≤ total)) as [Hle|Hgt].
    + rewrite PipelineProps.last_range by lia.
      cbn [fmap option_fmap option_map default id].
      rewrite PipelineProps.start_page_of_str_int. lia.
    + rewrite PipelineProps.range_nil by lia.
      cbn [last fmap option_fmap option_map default id]. fold start. lia.
  - apply PipelineProps.range_split in Hpages as [-> Hrange].
    split; [|split; [lia|by eapply page_loop_break_log]].
    destruct (decide (start < K)) as [Hlt|Hge].
    + rewrite PipelineProps.last_range by lia.
      cbn [fmap option_fmap option_map default id].
      rewrite PipelineProps.start_page_of_str_int. lia.
    + rewrite PipelineProps.range_nil by lia.
      cbn [last fmap option_fmap option_map default id]. fold start. lia.
Qed.

Lemma driver_returns total_records (st : state World) :
  ∃ exit st', driver total_records st = (inr exit, st').
Proof.
  unfold Pipeline.driver. run_eff.
  destruct (get_start_page_log st) as (lg0 & -> & _).
  unfold print at 1. run_eff. cbn [world progress_file log].
  set (st1 := State _ _ _).
  destruct (page_loop_resume (ceil_div total_records BATCH_SIZE) st1)
    as (exit & st2 & Hrun & _).
  change (progress_file st1) with (progress_file st) in Hrun. rewrite Hrun.
  destruct (get_start_page_log st2) as (lg3 & -> & _).
  exists exit. case_decide; unfold print; run_eff; by eexists.
Qed.

(** X10.  A run of the driver always ends normally, and its last message
    is the report that all batches have been processed exactly when the loop
    over the pages ran out of pages; after a [break] the report is never
    printed. *)
Theorem completion_is_reported_iff_exhausted total_records (st : state World) :
  ∃ exit st',
    driver total_records st = (inr exit, st') ∧
    (last (log st') = Some LogAllProcessed ↔ exit = Exhausted).
Proof.
  unfold Pipeline.driver. run_eff.
  set (total := ceil_div total_records BATCH_SIZE).
  destruct (get_start_page_log st) as (lg0 & -> & _).
  unfold print at 1. run_eff. cbn [world progress_file log].
  set (st1 := State _ _ _).
  destruct (page_loop_resume total st1) as (exit & st2 & Hrun & Hexit).
  change (progress_file st1) with (progress_file st) in Hrun. rewrite Hrun.
  destruct (get_start_page_log st2) as (lg3 & -> & Hlg3).
  exists exit. destruct exit as [|K].
  - rewrite decide_True by done. unfold print. run_eff. cbn [world progress_file log].
    eexists. split; [done|]. cbn [log]. by rewrite last_snoc.
  - destruct Hexit as (HK & Hle & l & Hlog).
    rewrite decide_False by lia. run_eff.
    eexists. split; [done|]. cbn [log]. rewrite Hlog.
    split; [|done]. destruct Hlg3 as [->|[p ->]].
    + by rewrite app_nil_r, last_snoc.
    + by rewrite last_snoc.
Qed.

(** X11.  Apart from the query that counts the records, nothing makes
    [main] fail: once the count is known, [main] ends normally.  On an empty
    table it prints one message and neither reads nor writes the progress
    file nor starts any page; otherwise it does what the driver does. *)
Theorem main_after_count (st : state World) n w' :
  count_records TABLE_TO_PROCESS (world st) = (inr n, w') →
  let st0 := State w' (progress_file st) (log st) in
  ∃ st',
    main st = (inr tt, st') ∧
    (n = 0 → st' = State w' (progress_file st) (log st ++ [LogTableEmpty])) ∧
    (n ≠ 0 → st' = (driver n st0).2).
Proof.
  intros Hcount st0. unfold Pipeline.main, call. run_eff. rewrite Hcount.
  fold st0. case_decide as Hn.
  - eexists. split; [done|]. split; [done|]. by intros ?.
  - fold (driver n). run_eff.
    destruct (driver_returns n st0) as (exit & st' & ->).
    exists st'. split; [done|]. split; [by intros ?|done].
Qed.

End Props.

Lemma checkpoint_round_trip_witness :
  (Py.all_space " " ∧ Py.all_space (String "010" EmptyString)) ∧
  progress_file (log_completed_page unit 41 (State () None [])).2 = Some (Py.str_int 41) ∧
  (get_start_page unit (log_completed_page unit 41 (State () None [])).2).1 = inr (41 + 1) ∧
  (get_start_page unit
     (State () (Some (" " +:+ Py.str_int 41 +:+ String "010" EmptyString)) [])).1
    = inr (41 + 1).
Proof.
  assert (Py.all_space " ") as H1.
  { intros c. cbn [Py.str_mem]. rewrite orb_false_r.
    intros <-%Ascii.eqb_eq. reflexivity. }
  assert (Py.all_space (String "010" EmptyString)) as H2.
  { intros c. cbn [Py.str_mem]. rewrite orb_false_r.
    intros <-%Ascii.eqb_eq. reflexivity. }
  split; [by split|].
  exact (checkpoint_round_trip 41 (State () None []) " " (String "010" EmptyString) H1 H2).
Defined.

Lemma fetch_failure_stops_run_witness :
  let st := State () (Some "2") [] in
  let e := LibraryError "connection lost" in
  let starting := LogStarting 3 ((3 - 1) * BATCH_SIZE + 1) (3 * BATCH_SIZE) in
  flaky_read_page TABLE_TO_PROCESS BATCH_SIZE ((3 - 1) * BATCH_SIZE) (world st)
    = (inl e, ()) ∧
  fetch_process_and_index_data unit Z Py.str_int "" "" flaky_read_page
    echo_generate_content loads_empty_object count_index_documents
    TABLE_TO_PROCESS BATCH_SIZE 3 st
    = (inl e, State () (progress_file st) (log st ++ [starting; LogFetchError e])) ∧
  page_loop unit Z Py.str_int "" "" flaky_read_page echo_generate_content
    loads_empty_object count_index_documents (3 :: [4; 5]) st
    = (inr (Break 3),
       State () (progress_file st)
             (log st ++ [starting; LogFetchError e; LogCriticalError 3 e; LogStopping])).
Proof.
  split; [reflexivity|].
  apply (fetch_failure_stops_run Py.str_int "" "" flaky_read_page echo_generate_content
           loads_empty_object count_index_documents 3 [4; 5] (State () (Some "2") [])
           (LibraryError "connection lost") ()).
  reflexivity.
Defined.

Lemma page_is_indexed_before_checkpoint_witness :
  let st := State () None [] in
  let st1 :=
    State () (progress_file st)
          (log st ++ [LogStarting 1 ((1 - 1) * BATCH_SIZE + 1) (1 * BATCH_SIZE);
                      LogFetched (length [1; 2]); LogGenerating]) in
  (healthy_read_page TABLE_TO_PROCESS BATCH_SIZE ((1 - 1) * BATCH_SIZE) (world st)
     = (inr [1; 2], ()) ∧
   [1; 2] ≠ ([] : list Z)) ∧
  ∃ summaries st2,
    summarize_rows unit Z Py.str_int "" "" echo_generate_content loads_empty_object
                   0 [1; 2] st1 = (inr summaries, st2) ∧
    length summaries = length [1; 2] ∧
    progress_file st2 = progress_file st ∧
    (∀ count w3,
       failing_index_documents summaries [1; 2] (world st2) = (inr count, w3) →
       page_loop unit Z Py.str_int "" "" healthy_read_page echo_generate_content
         loads_empty_object failing_index_documents (1 :: [2]) st
       = page_loop unit Z Py.str_int "" "" healthy_read_page echo_generate_content
           loads_empty_object failing_index_documents [2]
           (State w3 (Some (Py.str_int 1))
                  (log st2 ++ [LogIndexing; LogIndexed count; LogCompleted 1]))) ∧
    (∀ e w3,
       failing_index_documents summaries [1; 2] (world st2) = (inl e, w3) →
       page_loop unit Z Py.str_int "" "" healthy_read_page echo_generate_content
         loads_empty_object failing_index_documents (1 :: [2]) st
       = (inr (Break 1),
          State w3 (progress_file st)
                (log st2 ++ [LogIndexing; LogCriticalError 1 e; LogStopping]))).
Proof.
  split; [split; [reflexivity|discriminate]|].
  apply (page_is_indexed_before_checkpoint Py.str_int "" "" healthy_read_page
           echo_generate_content loads_empty_object failing_index_documents 1 [2]
           (State () None []) [1; 2] ()); [reflexivity|discriminate].
Defined.

Lemma empty_page_is_completed_witness :
  let st := State () None [] in
  let entries :=
    [LogStarting 6 ((6 - 1) * BATCH_SIZE + 1) (6 * BATCH_SIZE);
     LogFetched 0; LogNoMoreRecords] in
  short_read_page TABLE_TO_PROCESS BATCH_SIZE ((6 - 1) * BATCH_SIZE) (world st)
    = (inr [], ()) ∧
  fetch_process_and_index_data unit Z Py.str_int "" "" short_read_page
    echo_generate_content loads_empty_object count_index_documents
    TABLE_TO_PROCESS BATCH_SIZE 6 st
    = (inr tt, State () (progress_file st) (log st ++ entries)) ∧
  page_loop unit Z Py.str_int "" "" short_read_page echo_generate_content
    loads_empty_object count_index_documents (6 :: [7]) st
    = page_loop unit Z Py.str_int "" "" short_read_page echo_generate_content
        loads_empty_object count_index_documents [7]
        (State () (Some (Py.str_int 6)) (log st ++ entries ++ [LogCompleted 6])).
Proof.
  split; [reflexivity|].
  apply (empty_page_is_completed Py.str_int "" "" short_read_page echo_generate_content
           loads_empty_object count_index_documents 6 [7] (State () None []) ()).
  reflexivity.
Defined.

Lemma fenced_reply_is_summarised_witness :
  let st := State 0%nat None [] in
  ((Py.all_space "" ∧ Py.all_space (String "010" EmptyString) ∧
    Py.str_mem "`" summary_null_text = false) ∧
   fenced_generate_content (get_gemini_prompt "<" ">" (Py.str_int 7)) (world st)
     = (inr ("" +:+ fenced summary_null_text +:+ String "010" EmptyString), 1%nat) ∧
   loads_summary summary_null_text = inr (JObj [("summary", JNull)]) ∧
   assoc "summary" [("summary", JNull)] = Some JNull) ∧
  summarize_row nat Z Py.str_int "<" ">" fenced_generate_content loads_summary 0 7 st
   = (inr JNull, State 1%nat (progress_file st) (log st)).
Proof.
  assert (Py.all_space "") as H1 by (by intros c).
  assert (Py.all_space (String "010" EmptyString)) as H2.
  { intros c. cbn [Py.str_mem]. rewrite orb_false_r.
    intros <-%Ascii.eqb_eq. reflexivity. }
  split; [repeat split; done|].
  exact (fenced_reply_is_summarised Py.str_int "<" ">" fenced_generate_content
           loads_summary 0 7 (State 0%nat None []) "" summary_null_text
           (String "010" EmptyString)
           1%nat [("summary", JNull)] JNull H1 H2 eq_refl eq_refl eq_refl eq_refl).
Defined.

Lemma model_outage_yields_placeholders_witness :
  (∀ prompt w, ∃ e w', failing_generate_content prompt w = (inl e, w')) ∧
  ∃ st' lg,
    summarize_rows nat Z Py.str_int "<" ">" failing_generate_content loads_summary
                   0 [11; 12] (State 0%nat None [])
      = (inr (placeholders 0 (length [11; 12])), st') ∧
    progress_file st' = progress_file (State 0%nat None []) ∧
    log st' = log (State 0%nat None []) ++ lg ∧
    (warnings lg).*1 = (λ k, 0 + Z.of_nat k) <$> seq 0 (length [11; 12]).
Proof.
  assert (∀ prompt w, ∃ e w', failing_generate_content prompt w = (inl e, w')) as Hdown
    by (intros prompt w; by eexists _, _).
  split; [exact Hdown|].
  exact (model_outage_yields_placeholders Py.str_int "<" ">" failing_generate_content
           loads_summary [11; 12] Hdown 0 (State 0%nat None [])).
Defined.

Lemma main_after_count_witness :
  let st := State () (Some "3") [] in
  zero_count_records TABLE_TO_PROCESS (world st) = (inr 0, ()) ∧
  ∃ st',
    main unit Z Py.str_int "" "" zero_count_records healthy_read_page
         echo_generate_content loads_empty_object count_index_documents st
      = (inr tt, st') ∧
    (0 = 0 → st' = State () (progress_file st) (log st ++ [LogTableEmpty])) ∧
    (0 ≠ 0 →
     st' = (driver unit Z Py.str_int "" "" healthy_read_page echo_generate_content
              loads_empty_object count_index_documents 0
              (State () (progress_file st) (log st))).2).
Proof.
  split; [reflexivity|].
  apply (main_after_count Py.str_int "" "" zero_count_records healthy_read_page
           echo_generate_content loads_empty_object count_index_documents
           (State () (Some "3") []) 0 ()).
  reflexivity.
Defined.

(** X12.  For a table of fewer than 2^53 records the number of pages,
    [math.ceil(total_records / BATCH_SIZE)] with the quotient taken in
    binary64, is the least number of batches that hold all the records: the
    last page starts before the end of the table and the pages together
    reach its end. *)
Theorem page_count_covers_records (total_records : Z) :
  0 < total_records < 2 ^ 53 →
  let total_pages := ceil_div total_records BATCH_SIZE in
  1 ≤ total_pages ∧
  (total_pages - 1) * BATCH_SIZE < total_records ≤ total_pages * BATCH_SIZE.
Proof.
  intros Hrange. unfold ceil_div, BATCH_SIZE. cbv zeta.
  rewrite (FloatFacts.ceil_true_div_100 total_records Hrange). cbn [default from_option id].
  pose proof (Z.div_mod (total_records + 99) 100 ltac:(lia)) as Hdm.
  pose proof (Z.mod_pos_bound (total_records + 99) 100 ltac:(lia)) as Hb.
  lia.
Qed.

Lemma page_count_covers_records_witness :
  0 < 450 < 2 ^ 53 ∧
  let total_pages := ceil_div 450 BATCH_SIZE in
  1 ≤ total_pages ∧
  (total_pages - 1) * BATCH_SIZE < 450 ≤ total_pages * BATCH_SIZE.
Proof.
  split; [lia|]. apply (page_count_covers_records 450). lia.
Defined.

(** Beyond 2^53 the count itself is rounded before the division: the page
    count of 10^17 + 1 records is 10^15, one page short. *)
Example page_count_of_rounded_total :
  ceil_div 450 BATCH_SIZE = 5 ∧
  ceil_div (10 ^ 17 + 1) BATCH_SIZE = 10 ^ 15.
Proof. by vm_compute. Qed.

End PipelineExtra.

(* ===================================================================== *)
(** * Properties of the query service *)
(* ===================================================================== *)

Module ServiceProps.
Import Json Service ServiceSamples.

Lemma clean_null_bytes_no_nul text : Py.str_mem Py.NUL (clean_null_bytes text) = false.
Proof. apply PyFacts.replace_from_char_absent. Qed.

Lemma clean_null_bytes_id text :
  Py.str_mem Py.NUL text = false → clean_null_bytes text = text.
Proof. apply PyFacts.replace_from_char_id. Qed.

Section Props.

Context {World Rows Docs : Type}.
Variable generate_content : string → World → (exn + string) * World.
Variable json_loads : string → string + json.
Variable db_connect : World → (exn + unit) * World.
Variable read_sql : json → World → (exn + Rows) * World.
Variable chroma_query : json → World → (exn + Docs) * World.
Variable planning_prompt : string → string.
Variable synthesis_prompt : string → string → string.
Variable json_dumps : gmap string (retrieved_value Rows Docs) → string.

Local Abbreviation plan_step := (plan_step World Rows Docs db_connect read_sql chroma_query).
Local Abbreviation run_plan := (run_plan World Rows Docs db_connect read_sql chroma_query).
Local Abbreviation execute_plan :=
  (execute_plan World Rows Docs generate_content db_connect read_sql chroma_query
     synthesis_prompt json_dumps).
Local Abbreviation analyze_query :=
  (analyze_query World Rows Docs generate_content json_loads db_connect read_sql
     chroma_query planning_prompt synthesis_prompt json_dumps).
Local Abbreviation charts_of := (@Service.charts_of Rows Docs).

(** ** The plan that does not parse *)

(** C3.  When the planning reply, stripped of surrounding whitespace and of
    null bytes as the handler does before parsing, is not valid JSON, the
    request fails with status 500, the detail names the invalid plan, and
    the only call made is the one to the language model: no connection is
    opened and no relational or vector query is run. *)
Theorem invalid_plan_is_rejected request_query st text w' msg :
  generate_content (planning_prompt request_query) (world st) = (inr text, w') →
  json_loads (clean_null_bytes (Py.strip text)) = inl msg →
  let run := analyze_query request_query st in
  run.1 = inl (HTTPException 500 "500: LLM did not return valid JSON plan.") ∧
  respond run.1 = HttpError 500 "500: LLM did not return valid JSON plan." ∧
  calls run.2 = calls st ++ [ModelCall (planning_prompt request_query) (inr text)] ∧
  store_calls (calls run.2) = store_calls (calls st).
Proof.
  intros Hreply Hparse. unfold Service.analyze_query, call, parse_plan. run_eff.
  rewrite Hreply, Hparse. cbn [fst snd calls].
  repeat split. unfold store_calls. rewrite List.filter_app. simpl. by rewrite app_nil_r.
Qed.

(** ** Null bytes *)

Lemma execute_plan_insight request_query entries st resp st' :
  execute_plan request_query entries st = (inr resp, st') →
  Py.str_mem Py.NUL (insight_text resp) = false.
Proof.
  unfold Service.execute_plan, call. run_eff.
  destruct (run_plan entries (∅, ∅) st) as [[e|[rd df]] st1]; [done|].
  destruct (generate_content _ (world st1)) as [[e|insight] w]; [done|].
  intros [= <- _]. apply clean_null_bytes_no_nul.
Qed.

Lemma analyze_query_inr request_query st resp st' :
  analyze_query request_query st = (inr resp, st') →
  ∃ entries st1, execute_plan request_query entries st1 = (inr resp, st').
Proof.
  unfold Service.analyze_query, call. run_eff.
  destruct (generate_content _ (world st)) as [[e|text] w]; [done|].
  destruct (parse_plan _ _) as [e|plan]; [done|].
  destruct (subscript plan "queries") as [e|queries]; [done|].
  destruct (iterate queries) as [e|entries]; [done|].
  destruct (execute_plan _ _ _) as [[e|r] st2] eqn:Hexec; [done|].
  intros [= <- <-]. eauto.
Qed.

(** ** Entries for a tool that is neither relational nor vector *)

Lemma run_plan_app before after : ∀ dicts st,
  run_plan (before ++ after) dicts st
  = (run_plan before dicts ≫= run_plan after) st.
Proof.
  induction before as [|q before IH]; intros dicts st; [done|].
  cbn [app Service.run_plan]. run_eff.
  destruct (plan_step dicts q st) as [[e|dicts'] st1]; [done|].
  rewrite IH. by run_eff.
Qed.

(** C10.  A plan entry that carries a tool tag equal to neither [postgres]
    nor [vector] is passed over: its step returns the two dictionaries and
    the state (hence the call log) unchanged and raises nothing, and the
    loop, like the whole execution of the plan, behaves as it does on the
    plan without that entry. *)
Theorem unknown_tool_is_skipped before after fields tool dicts st :
  assoc "tool" fields = Some tool →
  eq_str tool "postgres" = false →
  eq_str tool "vector" = false →
  plan_step dicts (JObj fields) st = (inr dicts, st) ∧
  run_plan (before ++ JObj fields :: after) dicts st
    = run_plan (before ++ after) dicts st ∧
  ∀ request_query,
    execute_plan request_query (before ++ JObj fields :: after) st
    = execute_plan request_query (before ++ after) st.
Proof.
  intros Htool Hsql Hvec.
  assert (∀ d s, plan_step d (JObj fields) s = (inr d, s)) as Hstep.
  { intros [rd df] s. unfold Service.plan_step. run_eff.
    cbn [subscript]. rewrite Htool. cbn. by rewrite Hsql, Hvec. }
  assert (∀ d s, run_plan (before ++ JObj fields :: after) d s
                 = run_plan (before ++ after) d s) as Hloop.
  { intros d s. rewrite !run_plan_app. run_eff.
    destruct (run_plan before d s) as [[e|d1] s1]; [done|].
    cbn [Service.run_plan]. run_eff. by rewrite Hstep. }
  split; [apply Hstep|]. split; [apply Hloop|].
  intros request_query. unfold Service.execute_plan. run_eff. by rewrite Hloop.
Qed.

(** ** The data returned for charting *)

Lemma sql_key_inj i j : sql_key i = sql_key j → i = j.
Proof.
  unfold sql_key. intros H%String.app_inj%PyFacts.str_int_inj. lia.
Qed.

Lemma charts_of_empty : charts_of [] ∅.
Proof.
  split; [done|]. split; [intros i; by rewrite lookup_empty|].
  intros k v. by rewrite lookup_empty.
Qed.

Lemma charts_of_insert rs df rows :
  charts_of rs df →
  charts_of (rs ++ [rows]) (<[sql_key (size df) := SqlRecords rows]> df).
Proof.
  intros (Hsize & Hget & Honly). rewrite Hsize.
  assert (df !! sql_key (length rs) = None) as Hfresh.
  { rewrite Hget. by rewrite lookup_ge_None_2. }
  split; [|split].
  - rewrite map_size_insert_None by done. rewrite length_app. simpl. lia.
  - intros i. destruct (decide (i = length rs)) as [->|Hne].
    + rewrite lookup_insert_eq. by rewrite list_lookup_middle.
    + rewrite lookup_insert_ne by (intros ?%sql_key_inj; congruence).
      rewrite Hget. destruct (decide (i < length rs)%nat) as [Hlt|Hge].
      * by rewrite lookup_app_l.
      * rewrite !lookup_ge_None_2; [done|rewrite length_app; simpl; lia|lia].
  - intros k v. destruct (decide (k = sql_key (length rs))) as [->|Hne].
    + rewrite lookup_insert_eq. intros [= <-].
      exists (length rs), rows. by rewrite list_lookup_middle.
    + rewrite lookup_insert_ne by done. intros (i & r & -> & -> & Hi)%Honly.
      exists i, r. split; [done|]. split; [done|].
      by apply lookup_app_l_Some.
Qed.

Lemma sql_results_app (l1 l2 : list (call_event Rows Docs)) :
  sql_results (l1 ++ l2) = sql_results l1 ++ sql_results l2.
Proof. apply omap_app. Qed.

Lemma plan_step_charts rs rd df q st rd' df' st' :
  charts_of rs df →
  plan_step (rd, df) q st = (inr (rd', df'), st') →
  ∃ new, calls st' = calls st ++ new ∧ charts_of (rs ++ sql_results new) df'.
Proof.
  intros Hinv. unfold Service.plan_step, call. run_eff.
  destruct (subscript q "tool") as [e|tool]; [done|].
  destruct (eq_str tool "postgres").
  - destruct (db_connect (world st)) as [[e|[]] w1]; [done|]. cbn [world calls].
    destruct (subscript q "query") as [e|query]; [done|].
    destruct (read_sql query w1) as [[e|rows] w2]; [done|].
    intros [= <- <- <-]. cbn [calls].
    exists [DbConnect (inr ()); SqlQuery query (inr rows)].
    split; [by rewrite <- app_assoc|]. by apply charts_of_insert.
  - destruct (eq_str tool "vector").
    + destruct (subscript q "query") as [e|query]; [done|].
      destruct (chroma_query query (world st)) as [[e|docs] w1]; [done|].
      intros [= <- <- <-]. cbn [calls].
      exists [VectorQuery query (inr docs)]. split; [done|]. simpl. by rewrite app_nil_r.
    + intros [= <- <- <-]. exists []. by rewrite !app_nil_r.
Qed.

Lemma run_plan_charts entries : ∀ rs rd df st rd' df' st',
  charts_of rs df →
  run_plan entries (rd, df) st = (inr (rd', df'), st') →
  ∃ new, calls st' = calls st ++ new ∧ charts_of (rs ++ sql_results new) df'.
Proof.
  induction entries as [|q entries IH]; intros rs rd df st rd' df' st' Hinv.
  - intros [= <- <- <-]. exists []. by rewrite !app_nil_r.
  - cbn [Service.run_plan]. run_eff.
    destruct (plan_step (rd, df) q st) as [[e|[rd1 df1]] st1] eqn:Hstep; [done|].
    intros Hrest.
    destruct (plan_step_charts _ _ _ _ _ _ _ _ Hinv Hstep) as (new1 & Hc1 & Hinv1).
    destruct (IH _ _ _ _ _ _ _ Hinv1 Hrest) as (new2 & Hc2 & Hinv2).
    exists (new1 ++ new2). rewrite Hc2, Hc1, sql_results_app, !app_assoc. done.
Qed.

(** C4.  In a successful response, [data_for_charts] holds exactly the
    record sets returned by the relational queries of the request, the i-th
    under the key [sql_result_i]; every value in it is such a record set and
    none is a list of vector documents, whatever vector queries the plan
    ran. *)
Theorem charts_hold_relational_results_only request_query st resp st' :
  analyze_query request_query st = (inr resp, st') →
  ∃ new,
    calls st' = calls st ++ new ∧
    size (data_for_charts resp) = length (sql_results new) ∧
    (∀ i, data_for_charts resp !! sql_key i = SqlRecords <$> sql_results new !! i) ∧
    (∀ k v, data_for_charts resp !! k = Some v →
       is_sql_records v ∧
       ∃ i rows, k = sql_key i ∧ v = SqlRecords rows ∧ sql_results new !! i = Some rows).
Proof.
  unfold Service.analyze_query, call. run_eff.
  destruct (generate_content _ (world st)) as [[e|text] w]; [done|].
  destruct (parse_plan _ _) as [e|plan]; [done|].
  destruct (subscript plan "queries") as [e|queries]; [done|].
  destruct (iterate queries) as [e|entries]; [done|].
  unfold Service.execute_plan, call. run_eff.
  set (st1 := State w _).
  destruct (run_plan entries (∅, ∅) st1) as [[e|[rd df]] st2] eqn:Hplan; [done|].
  destruct (generate_content _ (world st2)) as [[e|insight] w3]; [done|].
  intros [= <- <-]. cbn [data_for_charts calls].
  destruct (run_plan_charts _ [] _ _ _ _ _ _ charts_of_empty Hplan)
    as (new & Hcalls & Hsize & Hget & Honly).
  eexists (ModelCall _ (inr text) :: new ++ [ModelCall _ (inr insight)]).
  split; [rewrite Hcalls; unfold st1; cbn [calls]; by rewrite <- !app_assoc|].
  change (sql_results (ModelCall ?p (inr text) :: new ++ [ModelCall ?p' (inr insight)]))
    with (sql_results (new ++ [ModelCall p' (inr insight)])).
  rewrite sql_results_app. cbn [sql_results omap]. simpl. rewrite app_nil_r.
  split; [done|]. split; [done|].
  intros k v Hkv. destruct (Honly k v Hkv) as (i & rows & -> & -> & Hi).
  split; [done|]. by exists i, rows.
Qed.

End Props.

(** C8 (as amended).  Both replies of the language model are cleaned
    before they are used: [clean_null_bytes] leaves no null byte; the text
    handed to the JSON parser is the cleaned planning reply, so the outcome
    of a request is the same for any two parsers that agree on the texts
    without null bytes; and the insight text of every successful response,
    which is the cleaned synthesis reply, contains no null byte.  (Nothing
    is claimed of the strings that the parser decodes from the plan, nor of
    the error detail, which may quote them.) *)
Theorem replies_are_cleaned {World Rows Docs : Type}
    (generate_content : string → World → (exn + string) * World)
    (json_loads : string → string + json)
    (db_connect : World → (exn + unit) * World)
    (read_sql : json → World → (exn + Rows) * World)
    (chroma_query : json → World → (exn + Docs) * World)
    (planning_prompt : string → string)
    (synthesis_prompt : string → string → string)
    (json_dumps : gmap string (retrieved_value Rows Docs) → string) :
  (∀ text, Py.str_mem Py.NUL (clean_null_bytes text) = false) ∧
  (∀ json_loads' : string → string + json,
     (∀ text, Py.str_mem Py.NUL text = false → json_loads' text = json_loads text) →
     ∀ request_query st,
       analyze_query World Rows Docs generate_content json_loads' db_connect read_sql
                     chroma_query planning_prompt synthesis_prompt json_dumps
                     request_query st
       = analyze_query World Rows Docs generate_content json_loads db_connect read_sql
                       chroma_query planning_prompt synthesis_prompt json_dumps
                       request_query st) ∧
  (∀ request_query st resp st',
     analyze_query World Rows Docs generate_content json_loads db_connect read_sql
                   chroma_query planning_prompt synthesis_prompt json_dumps
                   request_query st = (inr resp, st') →
     Py.str_mem Py.NUL (insight_text resp) = false).
Proof.
  split; [apply clean_null_bytes_no_nul|]. split.
  - intros json_loads' Hagree request_query st.
    unfold analyze_query, call, parse_plan. run_eff.
    destruct (generate_content _ (world st)) as [[e|text] w]; [done|].
    by rewrite (Hagree _ (clean_null_bytes_no_nul _)).
  - intros request_query st resp st' Hrun.
    apply analyze_query_inr in Hrun as (entries & st1 & Hexec).
    by eapply execute_plan_insight.
Qed.

Lemma invalid_plan_is_rejected_witness :
  let run := demo_analyze_query "fish" demo_state in
  run.1 = inl (HTTPException 500 "500: LLM did not return valid JSON plan.") ∧
  respond run.1 = HttpError 500 "500: LLM did not return valid JSON plan." ∧
  calls run.2
    = calls demo_state
      ++ [ModelCall (demo_planning_prompt "fish")
                    (inr "I am sorry, I cannot produce a plan.")] ∧
  store_calls (calls run.2) = store_calls (calls demo_state).
Proof.
  apply (invalid_plan_is_rejected demo_generate_content demo_json_loads demo_db_connect
           demo_read_sql demo_chroma_query demo_planning_prompt demo_synthesis_prompt
           demo_json_dumps "fish" demo_state "I am sorry, I cannot produce a plan."
           1%nat "Expecting value: line 1 column 1 (char 0)");
    reflexivity.
Defined.

Lemma unknown_tool_is_skipped_witness :
  let before := [demo_vector_entry; demo_sql_entry "SELECT 1"] in
  let after := [demo_sql_entry "SELECT 2"] in
  let fields := [("tool", JStr "graph")] in
  let dicts : gmap string (retrieved_value (list Z) (list string))
              * gmap string (tool_result (list Z) (list string)) := (∅, ∅) in
  (assoc "tool" fields = Some (JStr "graph") ∧
   eq_str (JStr "graph") "postgres" = false ∧
   eq_str (JStr "graph") "vector" = false) ∧
  plan_step nat (list Z) (list string) demo_db_connect demo_read_sql demo_chroma_query
            dicts (JObj fields) demo_state = (inr dicts, demo_state) ∧
  run_plan nat (list Z) (list string) demo_db_connect demo_read_sql demo_chroma_query
           (before ++ JObj fields :: after) dicts demo_state
  = run_plan nat (list Z) (list string) demo_db_connect demo_read_sql demo_chroma_query
             (before ++ after) dicts demo_state ∧
  ∀ request_query,
    execute_plan nat (list Z) (list string) demo_generate_content demo_db_connect
                 demo_read_sql demo_chroma_query demo_synthesis_prompt demo_json_dumps
                 request_query (before ++ JObj fields :: after) demo_state
    = execute_plan nat (list Z) (list string) demo_generate_content demo_db_connect
                   demo_read_sql demo_chroma_query demo_synthesis_prompt demo_json_dumps
                   request_query (before ++ after) demo_state.
Proof.
  split; [repeat split|].
  apply (unknown_tool_is_skipped demo_generate_content demo_db_connect demo_read_sql
           demo_chroma_query demo_synthesis_prompt demo_json_dumps
           [demo_vector_entry; demo_sql_entry "SELECT 1"] [demo_sql_entry "SELECT 2"]
           [("tool", JStr "graph")] (JStr "graph") (∅, ∅) demo_state);
    reflexivity.
Defined.

Lemma demo_run : demo_analyze_query "sea" demo_state = (inr demo_response, demo_final_state).
Proof. by vm_compute. Qed.

Lemma charts_hold_relational_results_only_witness :
  demo_analyze_query "sea" demo_state = (inr demo_response, demo_final_state) ∧
  ∃ new,
    calls demo_final_state = calls demo_state ++ new ∧
    size (data_for_charts demo_response) = length (sql_results new) ∧
    (∀ i, data_for_charts demo_response !! sql_key i
          = SqlRecords <$> sql_results new !! i) ∧
    (∀ k v, data_for_charts demo_response !! k = Some v →
       is_sql_records v ∧
       ∃ i rows, k = sql_key i ∧ v = SqlRecords rows ∧ sql_results new !! i = Some rows).
Proof.
  split; [exact demo_run|].
  exact (charts_hold_relational_results_only demo_generate_content demo_json_loads
           demo_db_connect demo_read_sql demo_chroma_query demo_planning_prompt
           demo_synthesis_prompt demo_json_dumps "sea" demo_state demo_response
           demo_final_state demo_run).
Defined.

Lemma replies_are_cleaned_witness :
  demo_analyze_query "sea" demo_state = (inr demo_response, demo_final_state) ∧
  Py.str_mem Py.NUL (insight_text demo_response) = false.
Proof.
  split; [exact demo_run|].
  exact (proj2 (proj2 (replies_are_cleaned demo_generate_content demo_json_loads
                         demo_db_connect demo_read_sql demo_chroma_query
                         demo_planning_prompt demo_synthesis_prompt demo_json_dumps))
               "sea" demo_state demo_response demo_final_state demo_run).
Defined.

(** C8 as stated fails for the error detail.  The planning reply below
    holds no null byte, only the JSON escape of one inside its statement;
    cleaning leaves it as it is, the parser decodes the escape, the database
    rejects the statement with a message that quotes it, and the handler
    passes [str(e)] on as the detail of the response: a text taken from the
    reply reaches the response with a null byte in it. *)
Lemma uncleaned_detail_counterexample :
  let statement := "SELEC " +:+ String Py.NUL EmptyString in
  let detail := "syntax error at or near SELEC [SQL: " +:+ statement +:+ "]" in
  let run :=
    analyze_query nat (list Z) (list string) (plan_generate_content escaped_plan_text)
      (plan_json_loads escaped_plan_text escaped_plan) demo_db_connect quoting_read_sql
      demo_chroma_query demo_planning_prompt demo_synthesis_prompt demo_json_dumps
      "sea" demo_state in
  Py.str_mem Py.NUL escaped_plan_text = false ∧
  clean_null_bytes (Py.strip escaped_plan_text) = escaped_plan_text ∧
  calls run.2
    = [ModelCall "PLAN sea" (inr escaped_plan_text);
       DbConnect (inr ());
       SqlQuery (JStr statement) (inl (LibraryError detail))] ∧
  respond run.1 = HttpError 500 detail ∧
  Py.str_mem Py.NUL detail = true.
Proof. by vm_compute. Qed.

(** ** Trajectories *)

Lemma asc_lt_le a b : asc_lt a b → asc_le a b.
Proof. destruct a, b; simpl; try done. lia. Qed.

Lemma asc_lt_not_ge a b : asc_lt a b → asc_le b a → False.
Proof. destruct a, b; simpl; try done. lia. Qed.

Global Instance asc_le_trans : Transitive asc_le.
Proof. intros [a|] [b|] [c|]; simpl; try done. lia. Qed.

Global Instance asc_le_total : Total asc_le.
Proof. intros [a|] [b|]; simpl; try lia; by left. Qed.

Lemma asc_lt_trans a b c : asc_lt a b → asc_lt b c → asc_lt a c.
Proof. destruct a, b, c; simpl; try done. lia. Qed.

Lemma asc_trichotomy a b : asc_lt a b ∨ a = b ∨ asc_lt b a.
Proof.
  destruct a as [x|], b as [y|]; simpl; try tauto.
  destruct (Z.lt_trichotomy x y) as [?|[->|?]]; tauto.
Qed.

Global Instance order_key_le_trans : Transitive order_key_le.
Proof.
  intros r1 r2 r3. unfold order_key_le.
  intros [H12|[H12 T12]] [H23|[H23 T23]].
  - left. by eapply asc_lt_trans.
  - left. by rewrite <- H23.
  - left. by rewrite H12.
  - right. split; [congruence|]. by etrans.
Qed.

Global Instance order_key_le_total : Total order_key_le.
Proof.
  intros r1 r2. unfold order_key_le.
  destruct (asc_trichotomy (platform_id r1) (platform_id r2)) as [?|[Heq|?]];
    [left; by left| |right; by left].
  destruct (asc_le_total (timestamp r1) (timestamp r2)); [left|right]; by right.
Qed.

Section Folding.

Context {V : Type} (key : Z → string) (value_of : Z → V).
Context (key_inj : ∀ k1 k2, key k1 = key k2 → k1 = k2).

Let add (m : gmap string V) (k : Z) : gmap string V := <[key k := value_of k]> m.

Lemma foldl_add_other keys : ∀ m name,
  (∀ k, k ∈ keys → key k ≠ name) →
  foldl add m keys !! name = m !! name.
Proof.
  induction keys as [|k keys IH]; intros m name Hkey; [done|].
  cbn [foldl]. rewrite IH by (intros k' Hk'; apply Hkey; by right).
  unfold add. apply lookup_insert_ne, Hkey. by left.
Qed.

Lemma foldl_add_member keys : ∀ m k,
  k ∈ keys → foldl add m keys !! key k = Some (value_of k).
Proof.
  induction keys as [|k0 keys IH]; intros m k Hk; [by apply elem_of_nil in Hk|].
  cbn [foldl]. destruct (decide (k ∈ keys)) as [Hin|Hout]; [by apply IH|].
  apply elem_of_cons in Hk as [->|?]; [|done].
  rewrite foldl_add_other.
  - unfold add. apply lookup_insert_eq.
  - intros k' Hk' Heq%key_inj. by subst.
Qed.

Lemma foldl_add_keys keys : ∀ m name,
  is_Some (foldl add m keys !! name) →
  is_Some (m !! name) ∨ ∃ k, k ∈ keys ∧ name = key k.
Proof.
  induction keys as [|k0 keys IH]; intros m name Hsome; [by left|].
  cbn [foldl] in Hsome. apply IH in Hsome as [Hsome|(k & Hk & ->)].
  - unfold add in Hsome. destruct (decide (key k0 = name)) as [<-|Hne].
    + right. exists k0. split; [by left|done].
    + rewrite lookup_insert_ne in Hsome by done. by left.
  - right. exists k. split; [by right|done].
Qed.

End Folding.

Lemma key_str_inj df k1 k2 : key_str df k1 = key_str df k2 → k1 = k2.
Proof.
  unfold key_str. destruct (float_ids df).
  - by intros ?%PyFacts.append_inj_r%PyFacts.str_int_inj.
  - apply PyFacts.str_int_inj.
Qed.

Lemma build_trajectories_unfold df :
  build_trajectories df
  = foldl (λ m k, <[key_str df k
                    := coordinates (filter (λ r, frame_platform_id r = Some k) df)]> m)
          ∅ (merge_sort Z.le (remove_dups (omap frame_platform_id df))).
Proof. unfold build_trajectories, groupby_platform_id. by rewrite foldl_fmap. Qed.

Lemma group_keys df p :
  p ∈ merge_sort Z.le (remove_dups (omap frame_platform_id df))
  ↔ Some p ∈ frame_platform_id <$> df.
Proof.
  rewrite merge_sort_Permutation, elem_of_remove_dups, list_elem_of_omap,
    list_elem_of_fmap.
  split; intros (r & H1 & H2); exists r; by split.
Qed.

(** Lines 147-151 on any frame: the track of a platform lists the pairs of
    the rows of that platform, in the order of the frame. *)
Lemma build_trajectories_lookup df p :
  Some p ∈ frame_platform_id <$> df →
  build_trajectories df !! key_str df p
  = Some ((λ r, (frame_latitude r, frame_longitude r))
            <$> filter (λ r, frame_platform_id r = Some p) df).
Proof.
  intros Hp. rewrite build_trajectories_unfold.
  apply (foldl_add_member (key_str df)
           (λ k, coordinates (filter (λ r, frame_platform_id r = Some k) df))
           (key_str_inj df)).
  by apply group_keys.
Qed.

Lemma build_trajectories_keys df name :
  is_Some (build_trajectories df !! name) →
  ∃ p, Some p ∈ frame_platform_id <$> df ∧ name = key_str df p.
Proof.
  rewrite build_trajectories_unfold.
  intros [Hsome|(p & Hp & ->)]%(foldl_add_keys (key_str df)
    (λ k, coordinates (filter (λ r, frame_platform_id r = Some k) df))).
  - rewrite lookup_empty in Hsome. by destruct Hsome.
  - exists p. split; [by apply group_keys|done].
Qed.

(** The frame of the query, platform by platform. *)
Lemma trajectory_query_ids rows (p : option Z) :
  p ∈ frame_platform_id <$> trajectory_query rows ↔ p ∈ platform_id <$> rows.
Proof.
  unfold trajectory_query. rewrite <- list_fmap_compose.
  change (frame_platform_id ∘ select_columns) with platform_id.
  by rewrite merge_sort_Permutation.
Qed.

Lemma trajectory_query_float_ids rows :
  float_ids (trajectory_query rows) = bool_decide (None ∈ platform_id <$> rows).
Proof. unfold float_ids. apply bool_decide_ext, trajectory_query_ids. Qed.

Lemma filter_select_columns p (rows : list profile) :
  filter (λ r, frame_platform_id r = p) (select_columns <$> rows)
  = select_columns <$> filter (λ r, platform_id r = p) rows.
Proof.
  induction rows as [|r rows IH]; [done|].
  rewrite fmap_cons, !filter_cons. simpl. case_decide; by rewrite IH.
Qed.

Lemma trajectory_query_track rows p :
  (λ r, (frame_latitude r, frame_longitude r))
    <$> filter (λ r, frame_platform_id r = p) (trajectory_query rows)
  = (λ r, (latitude r, longitude r))
      <$> filter (λ r, platform_id r = p) (merge_sort order_key_le rows).
Proof.
  unfold trajectory_query. by rewrite filter_select_columns, <- list_fmap_compose.
Qed.

(** Rows of one platform, taken from a list ordered by the key, are ordered
    by time. *)
Lemma platform_rows_sorted rows p :
  StronglySorted order_key_le rows →
  StronglySorted (λ r1 r2, asc_le (timestamp r1) (timestamp r2))
                 (filter (λ r, platform_id r = p) rows).
Proof.
  induction 1 as [|x l Hl IH Hx]; [constructor|].
  rewrite filter_cons. case_decide as Hp; [|done].
  constructor; [done|].
  apply Forall_forall. intros y [Hy Hin]%list_elem_of_filter.
  eapply Forall_forall in Hx; [|done]. unfold order_key_le in Hx.
  destruct Hx as [Hlt|[_ ?]]; [|done].
  rewrite Hp, Hy in Hlt. destruct p; simpl in Hlt; [lia|done].
Qed.

Lemma strictly_sorted_time_inj (track : list profile) r1 r2 :
  StronglySorted (λ r1 r2, asc_lt (timestamp r1) (timestamp r2)) track →
  r1 ∈ track → r2 ∈ track →
  asc_le (timestamp r1) (timestamp r2) → asc_le (timestamp r2) (timestamp r1) →
  r1 = r2.
Proof.
  induction 1 as [|x l Hl IH Hx]; [by intros ?%elem_of_nil|].
  rewrite Forall_forall in Hx.
  intros [->|H1]%elem_of_cons [->|H2]%elem_of_cons Hle Hge; try done.
  - destruct (asc_lt_not_ge _ _ (Hx _ H2) Hge).
  - destruct (asc_lt_not_ge _ _ (Hx _ H1) Hle).
  - by apply IH.
Qed.

Lemma StronglySorted_lt_le (track : list profile) :
  StronglySorted (λ r1 r2, asc_lt (timestamp r1) (timestamp r2)) track →
  StronglySorted (λ r1 r2, asc_le (timestamp r1) (timestamp r2)) track.
Proof.
  induction 1 as [|x l Hl IH Hx]; constructor; [done|].
  eapply Forall_impl; [done|]. simpl. intros y. apply asc_lt_le.
Qed.

(** A mapping whose tracks hold numbers only is sent as it is. *)
Lemma respond_trajectories_numbers
    (body : gmap string (list (Float.float * Float.float))) :
  (∀ name track, body !! name = Some track → json_track track = true) →
  respond_trajectories (inr body) = Http200 body.
Proof.
  intros Hbody. unfold respond_trajectories.
  assert (forallb (λ entry, json_track entry.2) (map_to_list body) = true) as ->; [|done].
  apply forallb_forall. intros [name track] Hin%list_elem_of_In%elem_of_map_to_list.
  by apply (Hbody name).
Qed.

Lemma json_track_pairs (rows : list profile) :
  (∀ r, r ∈ rows → json_number (latitude r) = true ∧ json_number (longitude r) = true) →
  json_track ((λ r, (latitude r, longitude r)) <$> rows) = true.
Proof.
  intros Hrows. unfold json_track. apply forallb_forall.
  intros point (r & -> & Hr)%list_elem_of_In%list_elem_of_fmap.
  destruct (Hrows r Hr) as [Hla Hlo]. simpl. by rewrite Hla, Hlo.
Qed.

(** C5.  The endpoint asks the database for the rows of the table ordered
    by platform and time, and its handler returns a mapping in which every
    platform of the table has a track under its id written as a string: the
    [latitude, longitude] pairs of exactly the rows of that platform, in
    ascending order of their timestamps, whatever the order in which the
    table is stored.  The mapping has no other key.  In particular the rows
    of a platform taken at pairwise different times t1 < t2 < ... come out
    as their pairs in exactly that order.  When every coordinate of the
    table is a number, the mapping is the body of a response with status
    200.  (The id is written with its decimal digits; these are followed by
    [.0] when some row of the table has no platform id.) *)
Theorem trajectories_follow_time {World Rows Docs : Type}
    (scan_argo_profiles : World → (exn + list profile) * World)
    (table : list profile) (st : state World Rows Docs) (w' : World) :
  scan_argo_profiles (world st) = (inr table, w') →
  let outcome := (get_trajectories World Rows Docs scan_argo_profiles st).1 in
  let key p :=
    if bool_decide (None ∈ platform_id <$> table)
    then Py.str_int p +:+ ".0" else Py.str_int p in
  ∃ trajectories,
    outcome = inr trajectories ∧
    ((∀ r, r ∈ table →
        json_number (latitude r) = true ∧ json_number (longitude r) = true) →
     respond_trajectories outcome = Http200 trajectories) ∧
    (∀ p, Some p ∈ platform_id <$> table →
       ∃ rows,
         rows ≡ₚ filter (λ r, platform_id r = Some p) table ∧
         StronglySorted (λ r1 r2, asc_le (timestamp r1) (timestamp r2)) rows ∧
         trajectories !! key p = Some ((λ r, (latitude r, longitude r)) <$> rows)) ∧
    (∀ name, is_Some (trajectories !! name) →
       ∃ p, Some p ∈ platform_id <$> table ∧ name = key p) ∧
    (∀ p track,
       track ≠ [] →
       track ≡ₚ filter (λ r, platform_id r = Some p) table →
       StronglySorted (λ r1 r2, asc_lt (timestamp r1) (timestamp r2)) track →
       trajectories !! key p = Some ((λ r, (latitude r, longitude r)) <$> track)).
Proof.
  intros Hscan outcome key. exists (build_trajectories (trajectory_query table)).
  set (sorted := merge_sort order_key_le table).
  assert (StronglySorted order_key_le sorted) as Hsorted
    by (apply StronglySorted_merge_sort; apply _).
  assert (∀ p, filter (λ r, platform_id r = p) sorted
               ≡ₚ filter (λ r, platform_id r = p) table) as Hrows
    by (intros p; unfold sorted; by rewrite merge_sort_Permutation).
  assert (∀ p, key_str (trajectory_query table) p = key p) as Hkey.
  { intros p. unfold key_str, key. by rewrite trajectory_query_float_ids. }
  assert (∀ p, Some p ∈ platform_id <$> table →
            build_trajectories (trajectory_query table) !! key p
            = Some ((λ r, (latitude r, longitude r))
                      <$> filter (λ r, platform_id r = Some p) sorted)) as Hlookup.
  { intros p Hp. rewrite <- Hkey.
    rewrite build_trajectories_lookup by by apply trajectory_query_ids.
    by rewrite trajectory_query_track. }
  assert (outcome = inr (build_trajectories (trajectory_query table))) as Hout.
  { unfold outcome, get_trajectories, select_trajectories, call. run_eff.
    by rewrite Hscan. }
  split; [done|]. split; [|split; [|split]].
  - intros Hnumbers. rewrite Hout. apply respond_trajectories_numbers.
    intros name track Hname.
    destruct (build_trajectories_keys (trajectory_query table) name)
      as (p & Hp%trajectory_query_ids & ->); [by rewrite Hname|].
    rewrite Hkey, (Hlookup _ Hp) in Hname. injection Hname as <-.
    apply json_track_pairs. intros r [_ Hr]%list_elem_of_filter.
    apply Hnumbers. unfold sorted in Hr. by rewrite merge_sort_Permutation in Hr.
  - intros p Hp. exists (filter (λ r, platform_id r = Some p) sorted).
    split; [apply Hrows|]. split; [by apply platform_rows_sorted|by apply Hlookup].
  - intros name (p & Hp & ->)%build_trajectories_keys. exists p.
    split; [by apply trajectory_query_ids in Hp|apply Hkey].
  - intros p track Hne Htrack Hstrict.
    assert (Some p ∈ platform_id <$> table) as Hp.
    { destruct track as [|r track]; [done|].
      assert (r ∈ filter (λ r, platform_id r = Some p) table)
        as [Hr Hin]%list_elem_of_filter by (rewrite <- Htrack; by left).
      apply list_elem_of_fmap. by exists r. }
    rewrite (Hlookup _ Hp). do 2 f_equal.
    apply (StronglySorted_unique_strong
             (λ r1 r2, asc_le (timestamp r1) (timestamp r2))).
    + intros r1 r2 H1 H2 Hle Hge.
      apply (strictly_sorted_time_inj track); try done.
      by rewrite Htrack, <- Hrows.
    + by apply platform_rows_sorted.
    + by apply StronglySorted_lt_le.
    + by rewrite Hrows, Htrack.
Qed.

Lemma trajectories_follow_time_witness :
  let outcome := (get_trajectories nat (list Z) (list string) demo_scan demo_state).1 in
  let key p :=
    if bool_decide (None ∈ platform_id <$> demo_table)
    then Py.str_int p +:+ ".0" else Py.str_int p in
  demo_scan (world demo_state) = (inr demo_table, 0%nat) ∧
  ∃ trajectories,
    outcome = inr trajectories ∧
    ((∀ r, r ∈ demo_table →
        json_number (latitude r) = true ∧ json_number (longitude r) = true) →
     respond_trajectories outcome = Http200 trajectories) ∧
    (∀ p, Some p ∈ platform_id <$> demo_table →
       ∃ rows,
         rows ≡ₚ filter (λ r, platform_id r = Some p) demo_table ∧
         StronglySorted (λ r1 r2, asc_le (timestamp r1) (timestamp r2)) rows ∧
         trajectories !! key p = Some ((λ r, (latitude r, longitude r)) <$> rows)) ∧
    (∀ name, is_Some (trajectories !! name) →
       ∃ p, Some p ∈ platform_id <$> demo_table ∧ name = key p) ∧
    (∀ p track,
       track ≠ [] →
       track ≡ₚ filter (λ r, platform_id r = Some p) demo_table →
       StronglySorted (λ r1 r2, asc_lt (timestamp r1) (timestamp r2)) track →
       trajectories !! key p = Some ((λ r, (latitude r, longitude r)) <$> track)).
Proof.
  split; [reflexivity|].
  exact (trajectories_follow_time demo_scan demo_table demo_state 0%nat eq_refl).
Defined.

(** On the table of the example, the track of platform 7 comes out in the
    order of the times 10, 20, 30, although it is stored as 30, 10, 20.
    With a row that has no platform id, the ids are written as floats, and
    with a coordinate that is not a number the response cannot be encoded. *)
Example demo_trajectories :
  let tracks seven five :=
    <[seven := [(degrees 11, degrees 61); (degrees 12, degrees 62);
                (degrees 13, degrees 63)]]>
      (<[five := [(degrees 8, degrees 70); (degrees 9, degrees 71)]]> ∅) in
  respond_trajectories
    (get_trajectories nat (list Z) (list string) demo_scan demo_state).1
    = Http200 (tracks "7" "5") ∧
  (get_trajectories nat (list Z) (list string)
     (λ w, (inr demo_table_with_null, w)) demo_state).1
    = inr (tracks "7.0" "5.0") ∧
  respond_trajectories
    (get_trajectories nat (list Z) (list string)
       (λ w, (inr [Profile (Some 7) (Some 10) Float.nan (degrees 61)], w)) demo_state).1
    = HttpError 500 "Internal Server Error".
Proof. by vm_compute. Qed.

End ServiceProps.

(* ===================================================================== *)
(** * Further properties of the query service *)
(* ===================================================================== *)

Module ServiceExtra.
Import Json Service ServiceSamples.

Lemma clean_null_bytes_chars text :
  Py.to_list (clean_null_bytes text)
  = List.filter (λ c, negb (Ascii.eqb c Py.NUL)) (Py.to_list text).
Proof.
  unfold clean_null_bytes, Py.replace.
  induction text as [|a text IH]; [done|].
  cbn [Py.replace_from Py.startswith Py.to_list List.filter String.length Nat.sub].
  rewrite (Ascii.eqb_sym a Py.NUL).
  destruct (Ascii.eqb Py.NUL a); cbn [negb]; [apply IH|].
  cbn [Py.to_list]. by rewrite IH.
Qed.

(** X13.  [clean_null_bytes] removes the null bytes and nothing else: the
    characters of its result are the characters of the text other than the
    null byte, in their order.  Cleaning twice is cleaning once. *)
Theorem clean_null_bytes_removes_only_null_bytes text :
  Py.to_list (clean_null_bytes text)
    = List.filter (λ c, negb (Ascii.eqb c Py.NUL)) (Py.to_list text) ∧
  clean_null_bytes (clean_null_bytes text) = clean_null_bytes text.
Proof.
  split; [apply clean_null_bytes_chars|].
  apply ServiceProps.clean_null_bytes_id, ServiceProps.clean_null_bytes_no_nul.
Qed.

Section Props.

Context {World Rows Docs : Type}.
Variable generate_content : string → World → (exn + string) * World.
Variable json_loads : string → string + json.
Variable db_connect : World → (exn + unit) * World.
Variable read_sql : json → World → (exn + Rows) * World.
Variable chroma_query : json → World → (exn + Docs) * World.
Variable scan_argo_profiles : World → (exn + list profile) * World.
Variable planning_prompt : string → string.
Variable synthesis_prompt : string → string → string.
Variable json_dumps : gmap string (retrieved_value Rows Docs) → string.

Local Abbreviation plan_step := (plan_step World Rows Docs db_connect read_sql chroma_query).
Local Abbreviation run_plan := (run_plan World Rows Docs db_connect read_sql chroma_query).
Local Abbreviation execute_plan :=
  (execute_plan World Rows Docs generate_content db_connect read_sql chroma_query
     synthesis_prompt json_dumps).
Local Abbreviation analyze_query :=
  (analyze_query World Rows Docs generate_content json_loads db_connect read_sql
     chroma_query planning_prompt synthesis_prompt json_dumps).
Local Abbreviation get_trajectories :=
  (get_trajectories World Rows Docs scan_argo_profiles).
Local Abbreviation vectors_of := (@Service.vectors_of Rows Docs).
Local Abbreviation state := (Service.state World Rows Docs).

(** X14.  Whatever the collaborators do, each endpoint answers with status
    200 or with status 500: every exception raised while a request is
    handled leaves the handler as an [HTTPException] with status 500. *)
Theorem endpoints_answer_200_or_500 (st : state) :
  (∀ request_query,
     (∃ body, respond (analyze_query request_query st).1 = Http200 body) ∨
     (∃ detail, respond (analyze_query request_query st).1 = HttpError 500 detail)) ∧
  ((∃ body, respond (get_trajectories st).1 = Http200 body) ∨
   (∃ detail, respond (get_trajectories st).1 = HttpError 500 detail)).
Proof.
  split.
  - intros request_query. unfold Service.analyze_query. run_eff.
    match goal with |- context [let (_, _) := ?m in _] => destruct m as [[e|r] st1] end;
      cbn; eauto.
  - unfold Service.get_trajectories. run_eff.
    match goal with |- context [let (_, _) := ?m in _] => destruct m as [[e|r] st1] end;
      cbn; eauto.
Qed.

(** X15.  A plan that is a JSON object without a [queries] entry fails the
    request with status 500 and the quoted name of the missing key as
    detail; the language model has been called once and no store has been
    touched. *)
Theorem plan_without_queries_is_rejected request_query (st : state) text w' fields :
  generate_content (planning_prompt request_query) (world st) = (inr text, w') →
  json_loads (clean_null_bytes (Py.strip text)) = inr (JObj fields) →
  assoc "queries" fields = None →
  analyze_query request_query st
  = (inl (HTTPException 500 "'queries'"),
     State w' (calls st ++ [ModelCall (planning_prompt request_query) (inr text)])).
Proof.
  intros Hreply Hparse Hnone. unfold Service.analyze_query, call, parse_plan. run_eff.
  rewrite Hreply, Hparse. cbn [subscript]. by rewrite Hnone.
Qed.

(** X16.  Plan entries are not isolated from one another.  When the step
    of an entry raises, the request fails with status 500 and the text of
    that exception; the calls of the entries before it have been made and
    are not undone, no later entry is run and the model is not asked for an
    insight: the state is the one the failing step left. *)
Theorem failing_entry_fails_request request_query (st : state) text w1 plan queries
    before entry after dicts st2 e st3 :
  generate_content (planning_prompt request_query) (world st) = (inr text, w1) →
  json_loads (clean_null_bytes (Py.strip text)) = inr plan →
  subscript plan "queries" = inr queries →
  iterate queries = inr (before ++ entry :: after) →
  run_plan before (∅, ∅)
    (State w1 (calls st ++ [ModelCall (planning_prompt request_query) (inr text)]))
    = (inr dicts, st2) →
  plan_step dicts entry st2 = (inl e, st3) →
  analyze_query request_query st = (inl (HTTPException 500 (exn_str e)), st3).
Proof.
  intros Hreply Hparse Hq Hentries Hbefore Hstep.
  unfold Service.analyze_query, call, parse_plan. run_eff.
  rewrite Hreply, Hparse, Hq, Hentries.
  unfold Service.execute_plan. run_eff.
  rewrite (ServiceProps.run_plan_app db_connect read_sql chroma_query). run_eff.
  rewrite Hbefore. cbn [Service.run_plan]. run_eff. by rewrite Hstep.
Qed.

(** X17.  A relational entry opens its connection before it reads its
    query: without a [query] field it fails with the missing key after the
    connection has been opened, and runs no statement.  A vector entry
    without a [query] field fails before anything is called. *)
Theorem entry_without_query dicts fields (st : state) w' :
  assoc "query" fields = None →
  db_connect (world st) = (inr tt, w') →
  (assoc "tool" fields = Some (JStr "postgres") →
   plan_step dicts (JObj fields) st
   = (inl (KeyError "query"), State w' (calls st ++ [DbConnect (inr tt)]))) ∧
  (assoc "tool" fields = Some (JStr "vector") →
   plan_step dicts (JObj fields) st = (inl (KeyError "query"), st)).
Proof.
  intros Hquery Hconnect. destruct dicts as [rd df].
  split; intros Htool; unfold Service.plan_step, call; run_eff;
    cbn [subscript]; rewrite Htool; cbn; rewrite ?Hconnect, Hquery; done.
Qed.

(** ** What the synthesis is given *)

Lemma vector_key_inj i j : vector_key i = vector_key j → i = j.
Proof.
  unfold vector_key. intros H%String.app_inj%PyFacts.str_int_inj. lia.
Qed.

Lemma vectors_of_empty : vectors_of [] ∅.
Proof.
  split; [done|]. split; [intros i; by rewrite lookup_empty|].
  intros k v. by rewrite lookup_empty.
Qed.

Lemma vectors_of_insert ds rd docs :
  vectors_of ds rd →
  vectors_of (ds ++ [docs])
             (<[vector_key (size rd) := ToolResult (VectorDocuments docs)]> rd).
Proof.
  intros (Hsize & Hget & Honly). rewrite Hsize.
  assert (rd !! vector_key (length ds) = None) as Hfresh.
  { rewrite Hget. by rewrite lookup_ge_None_2. }
  split; [|split].
  - rewrite map_size_insert_None by done. rewrite length_app. simpl. lia.
  - intros i. destruct (decide (i = length ds)) as [->|Hne].
    + rewrite lookup_insert_eq. by rewrite list_lookup_middle.
    + rewrite lookup_insert_ne by (intros ?%vector_key_inj; congruence).
      rewrite Hget. destruct (decide (i < length ds)%nat) as [Hlt|Hge].
      * by rewrite lookup_app_l.
      * rewrite !lookup_ge_None_2; [done|rewrite length_app; simpl; lia|lia].
  - intros k v. destruct (decide (k = vector_key (length ds))) as [->|Hne].
    + intros _. by eexists.
    + rewrite lookup_insert_ne by done. apply Honly.
Qed.

Lemma vector_results_app (l1 l2 : list (call_event Rows Docs)) :
  vector_results (l1 ++ l2) = vector_results l1 ++ vector_results l2.
Proof. apply omap_app. Qed.

Lemma model_calls_app (l1 l2 : list (call_event Rows Docs)) :
  model_calls (l1 ++ l2) = model_calls l1 ++ model_calls l2.
Proof. apply List.filter_app. Qed.

Lemma plan_step_vectors ds rd df q (st : state) rd' df' st' :
  vectors_of ds rd →
  plan_step (rd, df) q st = (inr (rd', df'), st') →
  ∃ new, calls st' = calls st ++ new ∧ model_calls new = [] ∧
         vectors_of (ds ++ vector_results new) rd'.
Proof.
  intros Hinv. unfold Service.plan_step, call. run_eff.
  destruct (subscript q "tool") as [e|tool]; [done|].
  destruct (eq_str tool "postgres").
  - destruct (db_connect (world st)) as [[e|[]] w1]; [done|]. cbn [world calls].
    destruct (subscript q "query") as [e|query]; [done|].
    destruct (read_sql query w1) as [[e|rows] w2]; [done|].
    intros [= <- <- <-]. cbn [calls].
    exists [DbConnect (inr ()); SqlQuery query (inr rows)].
    split; [by rewrite <- app_assoc|]. split; [done|]. simpl. by rewrite app_nil_r.
  - destruct (eq_str tool "vector").
    + destruct (subscript q "query") as [e|query]; [done|].
      destruct (chroma_query query (world st)) as [[e|docs] w1]; [done|].
      intros [= <- <- <-]. cbn [calls].
      exists [VectorQuery query (inr docs)]. split; [done|]. split; [done|].
      by apply vectors_of_insert.
    + intros [= <- <- <-]. exists []. by rewrite !app_nil_r.
Qed.

Lemma run_plan_vectors entries : ∀ ds rd df (st : state) rd' df' st',
  vectors_of ds rd →
  run_plan entries (rd, df) st = (inr (rd', df'), st') →
  ∃ new, calls st' = calls st ++ new ∧ model_calls new = [] ∧
         vectors_of (ds ++ vector_results new) rd'.
Proof.
  induction entries as [|q entries IH]; intros ds rd df st rd' df' st' Hinv.
  - intros [= <- <- <-]. exists []. by rewrite !app_nil_r.
  - cbn [Service.run_plan]. run_eff.
    destruct (plan_step (rd, df) q st) as [[e|[rd1 df1]] st1] eqn:Hstep; [done|].
    intros Hrest.
    destruct (plan_step_vectors _ _ _ _ _ _ _ _ Hinv Hstep) as (new1 & Hc1 & Hm1 & Hinv1).
    destruct (IH _ _ _ _ _ _ _ Hinv1 Hrest) as (new2 & Hc2 & Hm2 & Hinv2).
    exists (new1 ++ new2).
    rewrite Hc2, Hc1, vector_results_app, model_calls_app, Hm1, Hm2, !app_assoc. done.
Qed.

Lemma structured_data_not_vector_key i : "structured_data" ≠ vector_key i.
Proof. unfold vector_key. intros H. discriminate H. Qed.

(** X18.  A successful request calls the language model exactly twice,
    first for the plan and last for the insight, and the plan itself never
    calls it.  The insight is asked about a dictionary that holds the
    documents of every vector query of the request, the i-th under the key
    [vector_result_i], and under [structured_data] exactly the dictionary
    returned as [data_for_charts]; it holds nothing else. *)
Theorem synthesis_sees_all_retrieved_data request_query (st : state) resp st' :
  analyze_query request_query st = (inr resp, st') →
  ∃ text stores retrieved_data insight,
    calls st'
      = calls st ++ [ModelCall (planning_prompt request_query) (inr text)] ++ stores
        ++ [ModelCall (synthesis_prompt request_query (json_dumps retrieved_data))
                      (inr insight)] ∧
    model_calls stores = [] ∧
    insight_text resp = clean_null_bytes (Py.strip insight) ∧
    retrieved_data !! "structured_data" = Some (StructuredData (data_for_charts resp)) ∧
    (∀ i, retrieved_data !! vector_key i
          = (λ d, ToolResult (VectorDocuments d)) <$> vector_results stores !! i) ∧
    size retrieved_data = S (length (vector_results stores)).
Proof.
  unfold Service.analyze_query, call. run_eff.
  destruct (generate_content _ (world st)) as [[e|text] w]; [done|].
  destruct (parse_plan _ _) as [e|plan]; [done|].
  destruct (subscript plan "queries") as [e|queries]; [done|].
  destruct (iterate queries) as [e|entries]; [done|].
  unfold Service.execute_plan, call. run_eff.
  set (st1 := State w _).
  destruct (run_plan entries (∅, ∅) st1) as [[e|[rd df]] st2] eqn:Hplan; [done|].
  destruct (generate_content _ (world st2)) as [[e|insight] w3]; [done|].
  intros [= <- <-]. cbn [data_for_charts insight_text calls].
  destruct (run_plan_vectors _ [] _ _ _ _ _ _ vectors_of_empty Hplan)
    as (stores & Hcalls & Hmodel & Hsize & Hget & Honly).
  cbn [app] in Hsize, Hget.
  assert (rd !! "structured_data" = None) as Hfresh.
  { destruct (rd !! "structured_data") as [v|] eqn:Hv; [|done].
    destruct (Honly _ _ Hv) as [i Hi]. by apply structured_data_not_vector_key in Hi. }
  exists text, stores, (<["structured_data" := StructuredData df]> rd), insight.
  split; [rewrite Hcalls; unfold st1; cbn [calls]; by rewrite <- !app_assoc|].
  split; [done|]. split; [done|]. split; [by rewrite lookup_insert_eq|].
  split.
  - intros i. rewrite lookup_insert_ne by apply structured_data_not_vector_key.
    apply Hget.
  - rewrite map_size_insert_None by done. by rewrite Hsize.
Qed.

(** X19.  A plan without entries still succeeds: no store is called, the
    model is asked for an insight about a dictionary that holds an empty
    [structured_data] only, and the response carries the cleaned insight
    with empty [data_for_charts]. *)
Theorem empty_plan_succeeds request_query (st : state) text w1 plan queries insight w2 :
  let prompt :=
    synthesis_prompt request_query (json_dumps {["structured_data" := StructuredData ∅]}) in
  generate_content (planning_prompt request_query) (world st) = (inr text, w1) →
  json_loads (clean_null_bytes (Py.strip text)) = inr plan →
  subscript plan "queries" = inr queries →
  iterate queries = inr [] →
  generate_content prompt w1 = (inr insight, w2) →
  analyze_query request_query st
  = (inr (Response (clean_null_bytes (Py.strip insight)) ∅),
     State w2 (calls st ++ [ModelCall (planning_prompt request_query) (inr text);
                            ModelCall prompt (inr insight)])).
Proof.
  intros prompt Hreply Hparse Hq Hentries Hinsight.
  unfold Service.analyze_query, call, parse_plan. run_eff.
  rewrite Hreply, Hparse, Hq, Hentries.
  unfold Service.execute_plan, call. cbn [Service.run_plan]. run_eff.
  cbn [world calls]. rewrite insert_empty. fold prompt. rewrite Hinsight.
  by rewrite <- app_assoc.
Qed.

(** X20.  The loop that groups the data frame keeps the order of the
    frame, whatever frame it is given: the track of a platform lists the
    [latitude, longitude] pairs of the rows of that platform, one pair per
    row and in the order in which the rows come in the frame; the keys are
    exactly the platform ids of the frame written as strings (with [.0] when
    some row of the frame has no id), and the mapping is empty exactly when
    no row of the frame has an id. *)
Theorem trajectories_keep_frame_order (df : list frame_row) :
  let key p :=
    if bool_decide (None ∈ frame_platform_id <$> df)
    then Py.str_int p +:+ ".0" else Py.str_int p in
  (∀ p, Some p ∈ frame_platform_id <$> df →
     build_trajectories df !! key p
     = Some ((λ r, (frame_latitude r, frame_longitude r))
               <$> filter (λ r, frame_platform_id r = Some p) df)) ∧
  (∀ name, is_Some (build_trajectories df !! name) ↔
           ∃ p, Some p ∈ frame_platform_id <$> df ∧ name = key p) ∧
  (build_trajectories df = ∅ ↔ ∀ r, r ∈ df → frame_platform_id r = None).
Proof.
  intros key.
  assert (∀ p, key_str df p = key p) as Hkey by done.
  split; [|split].
  - intros p Hp. rewrite <- Hkey. by apply ServiceProps.build_trajectories_lookup.
  - intros name. split; [apply ServiceProps.build_trajectories_keys|].
    intros (p & Hp & ->). rewrite <- Hkey.
    by rewrite ServiceProps.build_trajectories_lookup.
  - split.
    + intros Hempty r Hr. destruct (frame_platform_id r) as [p|] eqn:Hid; [|done].
      assert (Some p ∈ frame_platform_id <$> df) as Hin.
      { apply list_elem_of_fmap. by exists r. }
      apply ServiceProps.build_trajectories_lookup in Hin.
      rewrite Hempty, lookup_empty in Hin. discriminate.
    + intros Hnone. apply map_empty. intros name.
      destruct (build_trajectories df !! name) as [track|] eqn:Hname; [|done].
      destruct (ServiceProps.build_trajectories_keys df name)
        as (p & (r & Hid & Hr)%list_elem_of_fmap & _); [by rewrite Hname|].
      rewrite (Hnone r Hr) in Hid. discriminate.
Qed.

End Props.

Lemma plan_without_queries_is_rejected_witness :
  let generate_content := plan_generate_content "{}" in
  let json_loads := plan_json_loads "{}" (JObj []) in
  (generate_content (demo_planning_prompt "sea") (world demo_state) = (inr "{}", 1%nat) ∧
   json_loads (clean_null_bytes (Py.strip "{}")) = inr (JObj []) ∧
   assoc "queries" [] = None) ∧
  analyze_query nat (list Z) (list string) generate_content json_loads demo_db_connect
                demo_read_sql demo_chroma_query demo_planning_prompt demo_synthesis_prompt
                demo_json_dumps "sea" demo_state
  = (inl (HTTPException 500 "'queries'"),
     State 1%nat (calls demo_state ++ [ModelCall (demo_planning_prompt "sea") (inr "{}")])).
Proof.
  split; [repeat split|].
  apply (plan_without_queries_is_rejected (plan_generate_content "{}")
           (plan_json_loads "{}" (JObj [])) demo_db_connect demo_read_sql
           demo_chroma_query demo_planning_prompt demo_synthesis_prompt demo_json_dumps
           "sea" demo_state "{}" 1%nat []);
    reflexivity.
Defined.

Lemma failing_entry_fails_request_witness :
  let generate_content := plan_generate_content failing_plan_text in
  let json_loads := plan_json_loads failing_plan_text failing_plan in
  let documents := ["Float 2902746 drifted through the Arabian Sea."] in
  let st1 : state nat (list Z) (list string) :=
    State 1%nat [ModelCall "PLAN sea" (inr failing_plan_text)] in
  let st2 : state nat (list Z) (list string) :=
    State 2%nat (calls st1 ++ [VectorQuery (JStr "floats in the Arabian Sea")
                                           (inr documents)]) in
  let st3 : state nat (list Z) (list string) :=
    State 2%nat (calls st2 ++ [DbConnect (inr ());
                               SqlQuery (JStr "SELEC 1")
                                        (inl (LibraryError "syntax error"))]) in
  let dicts : gmap string (retrieved_value (list Z) (list string))
              * gmap string (tool_result (list Z) (list string)) :=
    (<[vector_key 0 := ToolResult (VectorDocuments documents)]> ∅, ∅) in
  (run_plan nat (list Z) (list string) demo_db_connect demo_read_sql demo_chroma_query
            [demo_vector_entry] (∅, ∅) st1 = (inr dicts, st2) ∧
   plan_step nat (list Z) (list string) demo_db_connect demo_read_sql demo_chroma_query
             dicts (demo_sql_entry "SELEC 1") st2
   = (inl (LibraryError "syntax error"), st3)) ∧
  analyze_query nat (list Z) (list string) generate_content json_loads demo_db_connect
                demo_read_sql demo_chroma_query demo_planning_prompt demo_synthesis_prompt
                demo_json_dumps "sea" demo_state
  = (inl (HTTPException 500 "syntax error"), st3).
Proof.
  split; [split; by vm_compute|].
  apply (failing_entry_fails_request (plan_generate_content failing_plan_text)
           (plan_json_loads failing_plan_text failing_plan) demo_db_connect demo_read_sql
           demo_chroma_query demo_planning_prompt demo_synthesis_prompt demo_json_dumps
           "sea" demo_state failing_plan_text 1%nat failing_plan
           (JArr [demo_vector_entry; demo_sql_entry "SELEC 1"; demo_sql_entry "SELECT 2"])
           [demo_vector_entry] (demo_sql_entry "SELEC 1") [demo_sql_entry "SELECT 2"]
           (<[vector_key 0 := ToolResult
                (VectorDocuments ["Float 2902746 drifted through the Arabian Sea."])]> ∅, ∅)
           (State 2%nat [ModelCall "PLAN sea" (inr failing_plan_text);
                         VectorQuery (JStr "floats in the Arabian Sea")
                           (inr ["Float 2902746 drifted through the Arabian Sea."])])
           (LibraryError "syntax error"));
    by vm_compute.
Defined.

Lemma entry_without_query_witness :
  let fields := [("tool", JStr "postgres")] in
  let dicts : gmap string (retrieved_value (list Z) (list string))
              * gmap string (tool_result (list Z) (list string)) := (∅, ∅) in
  (assoc "query" fields = None ∧
   demo_db_connect (world demo_state) = (inr (), 0%nat) ∧
   assoc "tool" fields = Some (JStr "postgres")) ∧
  plan_step nat (list Z) (list string) demo_db_connect demo_read_sql demo_chroma_query
            dicts (JObj fields) demo_state
  = (inl (KeyError "query"), State 0%nat (calls demo_state ++ [DbConnect (inr ())])).
Proof.
  split; [repeat split|].
  apply (proj1 (entry_without_query demo_db_connect demo_read_sql demo_chroma_query (∅, ∅)
                  [("tool", JStr "postgres")] demo_state 0%nat eq_refl eq_refl)).
  reflexivity.
Defined.

Lemma synthesis_sees_all_retrieved_data_witness :
  demo_analyze_query "sea" demo_state = (inr demo_response, demo_final_state) ∧
  ∃ text stores retrieved_data insight,
    calls demo_final_state
      = calls demo_state ++ [ModelCall (demo_planning_prompt "sea") (inr text)] ++ stores
        ++ [ModelCall (demo_synthesis_prompt "sea" (demo_json_dumps retrieved_data))
                      (inr insight)] ∧
    model_calls stores = [] ∧
    insight_text demo_response = clean_null_bytes (Py.strip insight) ∧
    retrieved_data !! "structured_data"
      = Some (StructuredData (data_for_charts demo_response)) ∧
    (∀ i, retrieved_data !! vector_key i
          = (λ d, ToolResult (VectorDocuments d)) <$> vector_results stores !! i) ∧
    size retrieved_data = S (length (vector_results stores)).
Proof.
  split; [exact ServiceProps.demo_run|].
  exact (synthesis_sees_all_retrieved_data demo_generate_content demo_json_loads
           demo_db_connect demo_read_sql demo_chroma_query demo_planning_prompt
           demo_synthesis_prompt demo_json_dumps "sea" demo_state demo_response
           demo_final_state ServiceProps.demo_run).
Defined.

Lemma empty_plan_succeeds_witness :
  let generate_content := plan_generate_content empty_plan_text in
  let json_loads := plan_json_loads empty_plan_text empty_plan in
  (generate_content (demo_planning_prompt "sea") (world demo_state)
     = (inr empty_plan_text, 1%nat) ∧
   json_loads (clean_null_bytes (Py.strip empty_plan_text)) = inr empty_plan ∧
   subscript empty_plan "queries" = inr (JArr []) ∧
   iterate (JArr []) = inr [] ∧
   generate_content
     (demo_synthesis_prompt "sea"
        (demo_json_dumps {["structured_data" := StructuredData ∅]})) 1%nat
     = (inr "Calm seas.", 2%nat)) ∧
  analyze_query nat (list Z) (list string) generate_content json_loads demo_db_connect
                demo_read_sql demo_chroma_query demo_planning_prompt demo_synthesis_prompt
                demo_json_dumps "sea" demo_state
  = (inr (Response "Calm seas." ∅),
     State 2%nat (calls demo_state
                  ++ [ModelCall (demo_planning_prompt "sea") (inr empty_plan_text);
                      ModelCall (demo_synthesis_prompt "sea"
                                   (demo_json_dumps
                                      {["structured_data" := StructuredData ∅]}))
                                (inr "Calm seas.")])).
Proof.
  split; [repeat split|].
  apply (empty_plan_succeeds (plan_generate_content empty_plan_text)
           (plan_json_loads empty_plan_text empty_plan) demo_db_connect demo_read_sql
           demo_chroma_query demo_planning_prompt demo_synthesis_prompt demo_json_dumps
           "sea" demo_state empty_plan_text 1%nat empty_plan (JArr []) "Calm seas." 2%nat);
    reflexivity.
Defined.

(** A frame that is not ordered by time: the tracks keep its order. *)
Example unordered_frame_tracks :
  build_trajectories
    [FrameRow (Some 7) (degrees 13) (degrees 63);
     FrameRow (Some 5) (degrees 8) (degrees 70);
     FrameRow (Some 7) (degrees 11) (degrees 61)]
  = <["7" := [(degrees 13, degrees 63); (degrees 11, degrees 61)]]>
      (<["5" := [(degrees 8, degrees 70)]]> ∅).
Proof. by vm_compute. Qed.

End ServiceExtra.
